(** * The GT class-schedule ETL: [etl.py] and [etl/gt_class_etl.py]

    A shallow embedding of the two copies of the pipeline

      - [transform_json_to_list]  (the "flattener"), and
      - [transform]               (the pandas "normalizer"),

    and of the two entry points, [gt_class_etl] and the [__main__] block of
    [etl.py], together with the properties of them that the specification
    states and further properties of the code.  [extract_json] and
    [df_to_sql] talk to the network and to the database: they are
    parameters of the entry points.

    Conventions of the embedding.

    - Python values are the inductive [pyval]; a Python [dict] is an
      association list in insertion order, whose keys are pairwise distinct.
    - A Python [str] is a Rocq [string]: a sequence of code points below
      256 (Latin-1).  Character classes ([str.isdigit], the regular
      expression classes [\d] and [\w]) are those of Python on these code
      points.
    - An exception is a value of [exn]; a computation that may raise is a
      [result].  A raised exception aborts everything that follows, as in
      Python: neither the flattener nor the normalizer catches anything;
      [gt_class_etl] catches every [Exception].
    - A pandas [DataFrame] is column-major: the row labels ([index]) and an
      association list of named columns.  A missing entry ([NaN] or [None],
      whatever [isna] accepts) is the cell [None].  The conversion of
      numeric columns that [pd.DataFrame] performs (the integers of a
      column of numbers that holds a float or a missing entry become
      floats) is not represented: what is stated of the entries of a
      column the normalizer passes through is stated of the entries that
      [pd.DataFrame] stores as the records hold them ([stored_as_is]).

    The file has two parts: the embedding and the notions the statements
    use, then the proofs. *)

From Stdlib Require Import String Ascii List ZArith Bool Lia Arith Sorted.
From Stdlib Require Import DecimalString.
From Stdlib Require QArith.
Import ListNotations.

Open Scope string_scope.
Open Scope list_scope.

(* ================================================================= *)
(** ** Exceptions and the error monad *)

Inductive exn : Type :=
| IndexError
| KeyError
| TypeError
| ValueError
| AttributeError.

Inductive result (A : Type) : Type :=
| Ok (a : A)
| Raise (e : exn).

Arguments Ok {A} a.
Arguments Raise {A} e.

Definition bind {A B : Type} (m : result A) (k : A -> result B) : result B :=
  match m with
  | Ok a => k a
  | Raise e => Raise e
  end.

Notation "x <- m ;; k" := (bind m (fun x => k))
  (at level 61, m at next level, right associativity).

(** [[f(x) for x in xs]]: the first exception aborts the comprehension. *)
Fixpoint mapM {A B : Type} (f : A -> result B) (xs : list A) : result (list B) :=
  match xs with
  | [] => Ok []
  | x :: r => y <- f x ;; ys <- mapM f r ;; Ok (y :: ys)
  end.

(** [for x in xs: body], threading the variables the body assigns. *)
Fixpoint for_each {A S : Type} (xs : list A) (body : A -> S -> result S) (s : S)
  : result S :=
  match xs with
  | [] => Ok s
  | x :: r => s' <- body x s ;; for_each r body s'
  end.

(* ================================================================= *)
(** ** Python values *)

#[local] Set Warnings "-register-all".

Inductive pyval : Type :=
| PNone
| PBool (b : bool)
| PInt (z : Z)
| PFloat (q : QArith_base.Q)
| PStr (s : string)
| PList (l : list pyval)
| PDict (d : list (string * pyval))
| PTime (hour minute : Z).

Definition dict : Type := list (string * pyval).

Fixpoint dict_get (k : string) (d : dict) : option pyval :=
  match d with
  | [] => None
  | (k', v) :: r => if String.eqb k k' then Some v else dict_get k r
  end.

(** [d[k] = v]: an existing key keeps its position. *)
Fixpoint dict_set (k : string) (v : pyval) (d : dict) : dict :=
  match d with
  | [] => [(k, v)]
  | (k', v') :: r =>
      if String.eqb k k' then (k, v) :: r else (k', v') :: dict_set k v r
  end.

Definition has_key (k : string) (d : dict) : bool :=
  match dict_get k d with Some _ => true | None => false end.

(** Sequence indexing: a negative index counts from the end. *)
Definition normalize_index (n i : Z) : option nat :=
  let j := if (i <? 0)%Z then (i + n)%Z else i in
  if ((0 <=? j) && (j <? n))%Z then Some (Z.to_nat j) else None.

Definition list_lookup {A : Type} (l : list A) (i : Z) : option A :=
  match normalize_index (Z.of_nat (List.length l)) i with
  | Some j => nth_error l j
  | None => None
  end.

(** [l[i]] on a list: [IndexError] when [i] is out of range. *)
Definition list_getitem {A : Type} (l : list A) (i : Z) : result A :=
  match list_lookup l i with
  | Some v => Ok v
  | None => Raise IndexError
  end.

(** What [__index__] accepts: [int], and [bool] as its subclass. *)
Definition as_index (k : pyval) : option Z :=
  match k with
  | PInt z => Some z
  | PBool b => Some (if b then 1%Z else 0%Z)
  | _ => None
  end.

Definition chars (s : string) : list pyval :=
  map (fun c => PStr (String c EmptyString)) (list_ascii_of_string s).

(** [x[k]] *)
Definition getitem (x k : pyval) : result pyval :=
  match x with
  | PList l =>
      match as_index k with
      | Some i => list_getitem l i
      | None => Raise TypeError
      end
  | PStr s =>
      match as_index k with
      | Some i => list_getitem (chars s) i
      | None => Raise TypeError
      end
  | PDict d =>
      match k with
      | PStr s => match dict_get s d with
                  | Some v => Ok v
                  | None => Raise KeyError
                  end
      | PList _ | PDict _ => Raise TypeError
      | _ => Raise KeyError
      end
  | _ => Raise TypeError
  end.

(** [d[k]] for a [dict] the function itself built. *)
Definition dict_getitem (d : dict) (k : string) : result pyval :=
  match dict_get k d with
  | Some v => Ok v
  | None => Raise KeyError
  end.

(** The elements a [for] loop visits. *)
Definition py_iter (x : pyval) : result (list pyval) :=
  match x with
  | PList l => Ok l
  | PDict d => Ok (map (fun kv => PStr (fst kv)) d)
  | PStr s => Ok (chars s)
  | _ => Raise TypeError
  end.

(** Truth value of an object in an [if]. *)
Definition truthy (x : pyval) : bool :=
  match x with
  | PNone => false
  | PBool b => b
  | PInt z => negb (z =? 0)%Z
  | PFloat q => negb (QArith_base.Qnum q =? 0)%Z
  | PStr s => negb (String.eqb s "")
  | PList l => match l with [] => false | _ => true end
  | PDict d => match d with [] => false | _ => true end
  | PTime _ _ => true
  end.

(* ================================================================= *)
(** ** The catalog document, typed as the data model describes it *)

Record MeetingRecord : Type := {
  periodIdx : Z;
  dayCodes : string;
  buildingRaw : string;
  locationIdx : Z;
  professors : list string;
  dateRangeIdx : Z
}.

Record SectionRecord : Type := {
  crn : string;
  meetings : list MeetingRecord;
  credits : pyval;
  scheduleTypeIdx : Z;
  campusIdx : Z;
  attributeIdxs : list Z
}.

Record Course : Type := {
  displayName : string;
  sections : list (string * SectionRecord)
}.

Record Caches : Type := {
  periods : list string;
  locations : list pyval;
  dateRanges : list string;
  scheduleTypes : list string;
  campuses : list string;
  attributes : list string
}.

Record CatalogDocument : Type := {
  courses : list (string * Course);
  caches : Caches
}.

(** The JSON value of a typed document.  [ca i] is the number of positions
    the tuple of course [i] really has and [sa i l] that of its section
    [l]: a document of the right shape has 2 and 6 (or more) everywhere, a
    malformed one has a shorter tuple somewhere. *)

Definition meeting_tuple (m : MeetingRecord) : list pyval :=
  [ PInt (periodIdx m); PStr (dayCodes m); PStr (buildingRaw m);
    PInt (locationIdx m); PList (map PStr (professors m));
    PInt (dateRangeIdx m) ].

Definition section_tuple (s : SectionRecord) : list pyval :=
  [ PStr (crn s);
    PList (map (fun m => PList (meeting_tuple m)) (meetings s));
    credits s;
    PInt (scheduleTypeIdx s);
    PInt (campusIdx s);
    PList (map PInt (attributeIdxs s)) ].

Definition encode_sections (n : string -> nat) (ss : list (string * SectionRecord))
  : dict :=
  map (fun ls => (fst ls, PList (firstn (n (fst ls)) (section_tuple (snd ls))))) ss.

Definition course_tuple (sa : string -> string -> nat) (i : string) (c : Course)
  : list pyval :=
  [ PStr (displayName c); PDict (encode_sections (sa i) (sections c)) ].

Definition encode_courses (ca : string -> nat) (sa : string -> string -> nat)
  (cs : list (string * Course)) : dict :=
  map (fun ic => (fst ic, PList (firstn (ca (fst ic)) (course_tuple sa (fst ic) (snd ic))))) cs.

Definition encode_caches (c : Caches) : pyval :=
  PDict [ ("periods", PList (map PStr (periods c)));
          ("dateRanges", PList (map PStr (dateRanges c)));
          ("scheduleTypes", PList (map PStr (scheduleTypes c)));
          ("campuses", PList (map PStr (campuses c)));
          ("attributes", PList (map PStr (attributes c)));
          ("locations", PList (locations c)) ].

Definition encode_at (ca : string -> nat) (sa : string -> string -> nat)
  (d : CatalogDocument) : pyval :=
  PDict [ ("courses", PDict (encode_courses ca sa (courses d)));
          ("caches", encode_caches (caches d)) ].

Definition encode (d : CatalogDocument) : pyval :=
  encode_at (fun _ => 2%nat) (fun _ _ => 6%nat) d.

(* ================================================================= *)
(** ** Strings: what [str] and [re] do on the pipeline's patterns *)

Definition code (c : ascii) : nat := nat_of_ascii c.

Definition between (lo hi : nat) (c : ascii) : bool :=
  (lo <=? code c)%nat && (code c <=? hi)%nat.

(** [\d] of [re] on [str], and [str.isdecimal]: the decimal digits. *)
Definition is_decimal (c : ascii) : bool := between 48 57 c.

(** One character of [str.isdigit]: the decimal digits and the
    superscripts two, three and one. *)
Definition is_digit_char (c : ascii) : bool :=
  is_decimal c || between 178 179 c || between 185 185 c.

Definition is_alpha (c : ascii) : bool :=
  between 65 90 c || between 97 122 c || between 170 170 c
  || between 181 181 c || between 186 186 c || between 192 214 c
  || between 216 246 c || between 248 255 c.

(** [\w] of [re] on [str]: alphanumeric (letters, digits, the vulgar
    fractions) or the underscore. *)
Definition is_word (c : ascii) : bool :=
  is_alpha c || is_digit_char c || between 188 190 c || between 95 95 c.

Definition digit_value (c : ascii) : Z := Z.of_nat (code c - 48).

(** [s.isdigit()] *)
Definition isdigit (s : string) : bool :=
  match list_ascii_of_string s with
  | [] => false
  | cs => forallb is_digit_char cs
  end.

(** [sep in s] for a literal [sep]; also [re.search(sep, s)] when [sep]
    has no special character. *)
Fixpoint occurs (sep s : string) : bool :=
  String.prefix sep s ||
  match s with
  | EmptyString => false
  | String _ r => occurs sep r
  end.

(** [s.split(sep)] for a non-empty [sep]: [cur] is the part being read
    and [skip] the number of characters of a separator still to pass. *)
Fixpoint split_go (sep : string) (skip : nat) (cur s : string) : list string :=
  match s with
  | EmptyString => [cur]
  | String c r =>
      match skip with
      | S k => split_go sep k cur r
      | O => if String.prefix sep s
             then cur :: split_go sep (String.length sep - 1) "" r
             else split_go sep 0 (cur ++ String c "") r
      end
  end.

Definition split (sep s : string) : list string := split_go sep 0 "" s.

(** *** [datetime.strptime(s, '%H%M')]

    [_strptime] compiles the format to the regular expression
    [(?P<H>2[0-3]|[0-1]\d|\d)(?P<M>[0-5]\d|\d)], matches it at the start
    of [s] and then requires that nothing of [s] remains.  The candidates
    below are in the order in which the backtracking matcher tries them;
    the first one is the match. *)

Definition hour_alts (l : list ascii) : list (Z * list ascii) :=
  (match l with
   | a :: b :: r =>
       if (code a =? 50)%nat && between 48 51 b
       then [((20 + digit_value b)%Z, r)] else []
   | _ => []
   end) ++
  (match l with
   | a :: b :: r =>
       if between 48 49 a && is_decimal b
       then [((10 * digit_value a + digit_value b)%Z, r)] else []
   | _ => []
   end) ++
  (match l with
   | a :: r => if is_decimal a then [(digit_value a, r)] else []
   | _ => []
   end).

Definition minute_alts (l : list ascii) : list (Z * list ascii) :=
  (match l with
   | a :: b :: r =>
       if between 48 53 a && is_decimal b
       then [((10 * digit_value a + digit_value b)%Z, r)] else []
   | _ => []
   end) ++
  (match l with
   | a :: r => if is_decimal a then [(digit_value a, r)] else []
   | _ => []
   end).

Definition strptime_HM (s : string) : result (Z * Z) :=
  let found :=
    flat_map (fun hr => map (fun mr => (fst hr, fst mr, snd mr))
                            (minute_alts (snd hr)))
             (hour_alts (list_ascii_of_string s)) in
  match found with
  | [] => Raise ValueError
  | (h, m, rest) :: _ =>
      match rest with
      | [] => Ok (h, m)
      | _ => Raise ValueError
      end
  end.

(** *** [re.search(building_pattern, s)], group 1 *)

(** The pattern of [str.extract]: a greedy group of any characters but
    the newline, then a space, one or more [\w] and one [\d]. *)
Definition building_pattern : string := "(.*) \w+\d".

(** Can [\w*\d] match at the head of [l]? *)
Fixpoint word_then_digit (l : list ascii) : bool :=
  match l with
  | [] => false
  | c :: r => is_decimal c || (is_word c && word_then_digit r)
  end.

(** Can [ \w+\d] (a space, word characters, a digit) match at the head
    of [l]? *)
Definition room_at (l : list ascii) : bool :=
  match l with
  | c :: w :: r => (code c =? 32)%nat && is_word w && word_then_digit r
  | _ => false
  end.

(** The match of [building_pattern] that starts at the head of [l]: the
    group is greedy and does not cross a newline, so the longest possible
    group is taken. *)
Fixpoint match_here (l : list ascii) : option (list ascii) :=
  match l with
  | [] => None
  | c :: r =>
      if (code c =? 10)%nat then (if room_at l then Some [] else None)
      else match match_here r with
           | Some g => Some (c :: g)
           | None => if room_at l then Some [] else None
           end
  end.

(** [re.search] tries the start positions from left to right. *)
Fixpoint search_from (l : list ascii) : option (list ascii) :=
  match match_here l with
  | Some g => Some g
  | None => match l with
            | [] => None
            | _ :: r => search_from r
            end
  end.

Definition extract_building (s : string) : option string :=
  option_map string_of_list_ascii (search_from (list_ascii_of_string s)).

(* ================================================================= *)
(** ** A pandas [DataFrame]

    Every [Series] the pipeline assigns to a column was computed from a
    column of the same frame, so it carries that frame's row labels and
    the alignment on labels that an assignment performs is the identity:
    a [Series] is the list of its values, in row order.

    The [.str] methods are used on the columns [date_range], [time],
    [day_of_week] and [building], which hold strings wherever they hold
    anything; on an entry that is not a string they yield a missing
    value, as pandas does for a column of objects. *)

Definition cell : Type := option pyval.
Definition Series : Type := list cell.

Record DataFrame : Type := {
  index : list nat;
  columns : list (string * Series)
}.

Fixpoint getcol (c : string) (cols : list (string * Series)) : option Series :=
  match cols with
  | [] => None
  | (c', s) :: r => if String.eqb c c' then Some s else getcol c r
  end.

Fixpoint putcol (c : string) (s : Series) (cols : list (string * Series))
  : list (string * Series) :=
  match cols with
  | [] => [(c, s)]
  | (c', s') :: r =>
      if String.eqb c c' then (c, s) :: r else (c', s') :: putcol c s r
  end.

Definition mem (c : string) (l : list string) : bool :=
  existsb (String.eqb c) l.

(** The keys of the records, in the order of their first appearance. *)
Fixpoint dedup (seen l : list string) : list string :=
  match l with
  | [] => []
  | k :: r => if mem k seen then dedup seen r else k :: dedup (k :: seen) r
  end.

Definition all_keys (rows : list dict) : list string :=
  dedup [] (concat (map (map fst) rows)).

(** The entry of record [d] in column [k]: a key the record lacks, and a
    [None] it holds, are both missing. *)
Definition cell_of (k : string) (d : dict) : cell :=
  match dict_get k d with
  | Some PNone => None
  | Some v => Some v
  | None => None
  end.

(** [pd.DataFrame(course_list)]: one row per record, one column per key,
    in the order of first appearance.  The entries are those of the
    records; the dtype that pandas infers for a column is not
    represented.  It changes no entry of a column that holds a string (a
    column of objects) nor of a column of integers that fit 64 bits. *)
Definition pd_DataFrame (course_list : list dict) : DataFrame :=
  {| index := seq 0 (List.length course_list);
     columns := map (fun k => (k, map (cell_of k) course_list))
                    (all_keys course_list) |}.

(** [df[c]] *)
Definition df_getitem (c : string) (df : DataFrame) : result Series :=
  match getcol c (columns df) with
  | Some s => Ok s
  | None => Raise KeyError
  end.

(** [df[c] = s] *)
Definition df_setitem (c : string) (s : Series) (df : DataFrame) : DataFrame :=
  {| index := index df; columns := putcol c s (columns df) |}.

(** [df.drop(labels, axis=1, inplace=True)] *)
Definition drop_columns (labels : list string) (df : DataFrame) : result DataFrame :=
  if forallb (fun l => mem l (map fst (columns df))) labels
  then Ok {| index := index df;
             columns := filter (fun cs => negb (mem (fst cs) labels)) (columns df) |}
  else Raise KeyError.

(** [s.str.split(sep, expand=True)]: the frame has as many columns as the
    longest row has parts, a missing row counting for one; its columns are
    given in order. *)
Definition split_cell (sep : string) (c : cell) : option (list string) :=
  match c with
  | Some (PStr x) => Some (split sep x)
  | _ => None
  end.

Definition str_split (sep : string) (s : Series) : list (option (list string)) :=
  map (split_cell sep) s.

Definition width (rows : list (option (list string))) : nat :=
  fold_right Nat.max 0%nat
    (map (fun r => match r with
                   | Some parts => List.length parts
                   | None => 1%nat
                   end) rows).

Definition part (j : nat) (r : option (list string)) : cell :=
  match r with
  | Some parts => option_map PStr (nth_error parts j)
  | None => None
  end.

Definition expand (rows : list (option (list string))) : list Series :=
  map (fun j => map (part j) rows) (seq 0 (width rows)).

(** [df[[k1, ..., kn]] = frame] *)
Definition df_setitem_list (keys : list string) (value : list Series)
  (df : DataFrame) : result DataFrame :=
  if (List.length value =? List.length keys)%nat
  then Ok (fold_left (fun df kv => df_setitem (fst kv) (snd kv) df)
                     (combine keys value) df)
  else Raise ValueError.

Definition isna (c : cell) : bool :=
  match c with None => true | Some _ => false end.

(** The rows of [l] at which [mask] holds. *)
Fixpoint select {A : Type} (mask : list bool) (l : list A) : list A :=
  match mask, l with
  | b :: m, x :: r => if b then x :: select m r else select m r
  | _, _ => []
  end.

Definition select_rows (mask : list bool) (df : DataFrame) : DataFrame :=
  {| index := select mask (index df);
     columns := map (fun cs => (fst cs, select mask (snd cs))) (columns df) |}.

Fixpoint zip_with {A B C : Type} (f : A -> B -> C) (l : list A) (l' : list B)
  : list C :=
  match l, l' with
  | x :: r, y :: r' => f x y :: zip_with f r r'
  | _, _ => []
  end.

(** [df.dropna(subset=labels, inplace=True)] *)
Definition dropna (labels : list string) (df : DataFrame) : result DataFrame :=
  cols <- mapM (fun l => df_getitem l df) labels ;;
  let keep :=
    fold_left (fun acc s => zip_with andb acc (map (fun c => negb (isna c)) s))
              cols (repeat true (List.length (index df))) in
  Ok (select_rows keep df).

(** [df[labels].isna().any(axis=1)] *)
Definition any_isna (labels : list string) (df : DataFrame) : result (list bool) :=
  cols <- mapM (fun l => df_getitem l df) labels ;;
  Ok (fold_left (fun acc s => zip_with orb acc (map isna s))
                cols (repeat false (List.length (index df)))).

Definition mem_nat (k : nat) (l : list nat) : bool := existsb (Nat.eqb k) l.

(** [df.drop(labels, inplace=True)] on the rows *)
Definition drop_rows (labels : list nat) (df : DataFrame) : result DataFrame :=
  if forallb (fun k => mem_nat k (index df)) labels
  then Ok (select_rows (map (fun k => negb (mem_nat k labels)) (index df)) df)
  else Raise KeyError.

(** [df.loc[k, c]]: the entry of column [c] in the row labelled [k]. *)
Fixpoint assoc_nat {A : Type} (k : nat) (l : list (nat * A)) : option A :=
  match l with
  | [] => None
  | (k', v) :: r => if Nat.eqb k k' then Some v else assoc_nat k r
  end.

Definition loc (df : DataFrame) (k : nat) (c : string) : option cell :=
  match getcol c (columns df) with
  | Some s => assoc_nat k (combine (index df) s)
  | None => None
  end.

(** [s.apply(f)] *)
Definition apply (f : cell -> result cell) (s : Series) : result Series :=
  mapM f s.

(** [s.str.contains(pat, na=na)] for a pattern without special characters *)
Definition contains_cell (pat : string) (na : bool) (c : cell) : cell :=
  match c with
  | Some (PStr x) => Some (PBool (occurs pat x))
  | _ => Some (PBool na)
  end.

Definition str_contains (pat : string) (na : bool) (s : Series) : Series :=
  map (contains_cell pat na) s.

(** [s.str.extract(building_pattern)] *)
Definition extract_cell (c : cell) : cell :=
  match c with
  | Some (PStr x) => option_map PStr (extract_building x)
  | _ => None
  end.

Definition str_extract (s : Series) : Series := map extract_cell s.

(** The function both [transform]s define locally.  A value that is not a
    [str] has no [isdigit]. *)
Definition transform_military_time (military_time : cell) : result cell :=
  match military_time with
  | Some (PStr s) =>
      if isdigit s
      then hm <- strptime_HM s ;; Ok (Some (PTime (fst hm) (snd hm)))
      else Ok None
  | _ => Raise AttributeError
  end.

(* ================================================================= *)
(** ** [etl.py] *)

Module Etl.

(** *** [transform_json_to_list]

    The body of the inner loop: the [course_format] of section [l] of
    course [i]. *)
Definition section_format (caches courses i sections l : pyval) : result dict :=
  let course_format : dict := [] in
  course_details <- getitem sections l ;;
  v <- getitem course_details (PInt 0) ;;
  let course_format := dict_set "crn" v course_format in
  let course_format := dict_set "name" i course_format in
  c <- getitem courses i ;;
  v <- getitem c (PInt 0) ;;
  let course_format := dict_set "actual_name" v course_format in
  let course_format := dict_set "section" l course_format in
  m <- getitem course_details (PInt 1) ;;
  course_format <-
    (if truthy m then
       m <- getitem course_details (PInt 1) ;;
       section_details <- getitem m (PInt 0) ;;
       t <- getitem caches (PStr "periods") ;;
       k <- getitem section_details (PInt 0) ;;
       v <- getitem t k ;;
       let course_format := dict_set "time" v course_format in
       v <- getitem section_details (PInt 1) ;;
       let course_format := dict_set "day_of_week" v course_format in
       v <- getitem section_details (PInt 2) ;;
       let course_format := dict_set "building" v course_format in
       t <- getitem caches (PStr "locations") ;;
       k <- getitem section_details (PInt 3) ;;
       v <- getitem t k ;;
       let course_format := dict_set "building_coords" v course_format in
       v <- getitem section_details (PInt 4) ;;
       let course_format := dict_set "professors" v course_format in
       t <- getitem caches (PStr "dateRanges") ;;
       k <- getitem section_details (PInt 5) ;;
       v <- getitem t k ;;
       let course_format := dict_set "date_range" v course_format in
       Ok course_format
     else Ok course_format) ;;
  v <- getitem course_details (PInt 2) ;;
  let course_format := dict_set "credits" v course_format in
  t <- getitem caches (PStr "scheduleTypes") ;;
  k <- getitem course_details (PInt 3) ;;
  v <- getitem t k ;;
  let course_format := dict_set "schedule_type" v course_format in
  t <- getitem caches (PStr "campuses") ;;
  k <- getitem course_details (PInt 4) ;;
  v <- getitem t k ;;
  let course_format := dict_set "campus" v course_format in
  v <- getitem course_details (PInt 5) ;;
  let course_format := dict_set "attributes" v course_format in
  it <- dict_getitem course_format "attributes" ;;
  xs <- py_iter it ;;
  for_each xs (fun a course_format =>
    t <- getitem caches (PStr "attributes") ;;
    v <- getitem t a ;;
    Ok (dict_set "attributes" v course_format)) course_format.

Definition transform_json_to_list (json : pyval) : result (list dict) :=
  let course_list : list dict := [] in
  caches <- getitem json (PStr "caches") ;;
  courses <- getitem json (PStr "courses") ;;
  ks <- py_iter courses ;;
  for_each ks (fun i course_list =>
    c <- getitem courses i ;;
    sections <- getitem c (PInt 1) ;;
    ls <- py_iter sections ;;
    for_each ls (fun l course_list =>
      course_format <- section_format caches courses i sections l ;;
      Ok (course_list ++ [course_format])) course_list) course_list.

(** [transform] of [etl.py] *)
Definition transform (course_list : list dict) : result DataFrame :=
  let df := pd_DataFrame course_list in
  df <- drop_columns ["attributes"; "building_coords"; "professors"] df ;;
  s <- df_getitem "date_range" df ;;
  df <- df_setitem_list ["start_date"; "end_date"] (expand (str_split " - " s)) df ;;
  s <- df_getitem "time" df ;;
  df <- df_setitem_list ["start_time"; "end_time"] (expand (str_split " - " s)) df ;;
  df <- drop_columns ["date_range"; "time"] df ;;
  mask <- any_isna ["start_time"; "end_time"] df ;;
  df <- drop_rows (index (select_rows mask df)) df ;;
  s <- df_getitem "start_time" df ;;
  s <- apply transform_military_time s ;;
  let df := df_setitem "start_time" s df in
  s <- df_getitem "end_time" df ;;
  s <- apply transform_military_time s ;;
  let df := df_setitem "end_time" s df in
  s <- df_getitem "day_of_week" df ;;
  let df := df_setitem "monday" (str_contains "M" false s) df in
  s <- df_getitem "day_of_week" df ;;
  let df := df_setitem "tuesday" (str_contains "T" false s) df in
  s <- df_getitem "day_of_week" df ;;
  let df := df_setitem "wednesday" (str_contains "W" false s) df in
  s <- df_getitem "day_of_week" df ;;
  let df := df_setitem "thurday" (str_contains "R" false s) df in
  s <- df_getitem "day_of_week" df ;;
  let df := df_setitem "friday" (str_contains "F" false s) df in
  df <- drop_columns ["day_of_week"] df ;;
  s <- df_getitem "building" df ;;
  let df := df_setitem "building" (str_extract s) df in
  Ok df.

End Etl.

(* ================================================================= *)
(** ** [etl/gt_class_etl.py] *)

Module GtClassEtl.

Definition section_format (caches courses i sections l : pyval) : result dict :=
  let course_format : dict := [] in
  course_details <- getitem sections l ;;
  v <- getitem course_details (PInt 0) ;;
  let course_format := dict_set "crn" v course_format in
  let course_format := dict_set "name" i course_format in
  c <- getitem courses i ;;
  v <- getitem c (PInt 0) ;;
  let course_format := dict_set "actual_name" v course_format in
  let course_format := dict_set "section" l course_format in
  m <- getitem course_details (PInt 1) ;;
  course_format <-
    (if truthy m then
       m <- getitem course_details (PInt 1) ;;
       section_details <- getitem m (PInt 0) ;;
       t <- getitem caches (PStr "periods") ;;
       k <- getitem section_details (PInt 0) ;;
       v <- getitem t k ;;
       let course_format := dict_set "time" v course_format in
       v <- getitem section_details (PInt 1) ;;
       let course_format := dict_set "day_of_week" v course_format in
       v <- getitem section_details (PInt 2) ;;
       let course_format := dict_set "building" v course_format in
       t <- getitem caches (PStr "locations") ;;
       k <- getitem section_details (PInt 3) ;;
       v <- getitem t k ;;
       let course_format := dict_set "building_coords" v course_format in
       v <- getitem section_details (PInt 4) ;;
       let course_format := dict_set "professors" v course_format in
       t <- getitem caches (PStr "dateRanges") ;;
       k <- getitem section_details (PInt 5) ;;
       v <- getitem t k ;;
       let course_format := dict_set "date_range" v course_format in
       Ok course_format
     else Ok course_format) ;;
  v <- getitem course_details (PInt 2) ;;
  let course_format := dict_set "credits" v course_format in
  t <- getitem caches (PStr "scheduleTypes") ;;
  k <- getitem course_details (PInt 3) ;;
  v <- getitem t k ;;
  let course_format := dict_set "schedule_type" v course_format in
  t <- getitem caches (PStr "campuses") ;;
  k <- getitem course_details (PInt 4) ;;
  v <- getitem t k ;;
  let course_format := dict_set "campus" v course_format in
  c5 <- getitem course_details (PInt 5) ;;
  v <- (if truthy c5 then
          it <- getitem course_details (PInt 5) ;;
          xs <- py_iter it ;;
          vs <- mapM (fun a =>
                        t <- getitem caches (PStr "attributes") ;;
                        getitem t a) xs ;;
          Ok (PList vs)
        else Ok PNone) ;;
  let course_format := dict_set "attributes" v course_format in
  Ok course_format.

Definition transform_json_to_list (json : pyval) : result (list dict) :=
  let course_list : list dict := [] in
  caches <- getitem json (PStr "caches") ;;
  courses <- getitem json (PStr "courses") ;;
  ks <- py_iter courses ;;
  for_each ks (fun i course_list =>
    c <- getitem courses i ;;
    sections <- getitem c (PInt 1) ;;
    ls <- py_iter sections ;;
    for_each ls (fun l course_list =>
      course_format <- section_format caches courses i sections l ;;
      Ok (course_list ++ [course_format])) course_list) course_list.

(** [transform] of [etl/gt_class_etl.py] *)
Definition transform (course_list : list dict) : result DataFrame :=
  let df := pd_DataFrame course_list in
  df <- drop_columns ["attributes"; "building_coords"; "professors"] df ;;
  s <- df_getitem "date_range" df ;;
  df <- df_setitem_list ["start_date"; "end_date"] (expand (str_split " - " s)) df ;;
  s <- df_getitem "time" df ;;
  df <- df_setitem_list ["start_time"; "end_time"] (expand (str_split " - " s)) df ;;
  df <- drop_columns ["date_range"; "time"] df ;;
  df <- dropna ["start_time"; "end_time"] df ;;
  s <- df_getitem "start_time" df ;;
  s <- apply transform_military_time s ;;
  let df := df_setitem "start_time" s df in
  s <- df_getitem "end_time" df ;;
  s <- apply transform_military_time s ;;
  let df := df_setitem "end_time" s df in
  s <- df_getitem "day_of_week" df ;;
  let df := df_setitem "monday" (str_contains "M" false s) df in
  s <- df_getitem "day_of_week" df ;;
  let df := df_setitem "tuesday" (str_contains "T" false s) df in
  s <- df_getitem "day_of_week" df ;;
  let df := df_setitem "wednesday" (str_contains "W" false s) df in
  s <- df_getitem "day_of_week" df ;;
  let df := df_setitem "thursday" (str_contains "R" false s) df in
  s <- df_getitem "day_of_week" df ;;
  let df := df_setitem "friday" (str_contains "F" false s) df in
  df <- drop_columns ["day_of_week"] df ;;
  s <- df_getitem "building" df ;;
  let df := df_setitem "building" (str_extract s) df in
  Ok df.

End GtClassEtl.


(* ================================================================= *)
(** ** What the flatteners compute on a typed document *)

(** The meeting-derived fields: those of the first meeting, or none. *)
Definition meeting_fields (c : Caches) (ms : list MeetingRecord) : result dict :=
  match ms with
  | [] => Ok []
  | m :: _ =>
      t <- list_getitem (periods c) (periodIdx m) ;;
      loc <- list_getitem (locations c) (locationIdx m) ;;
      dr <- list_getitem (dateRanges c) (dateRangeIdx m) ;;
      Ok [ ("time", PStr t);
           ("day_of_week", PStr (dayCodes m));
           ("building", PStr (buildingRaw m));
           ("building_coords", loc);
           ("professors", PList (map PStr (professors m)));
           ("date_range", PStr dr) ]
  end.

(** The value [etl.py] leaves in [attributes]: the label of the last
    index, or the (empty) index list itself. *)
Definition attributes_etl (labels : list string) : pyval :=
  match rev labels with
  | [] => PList []
  | x :: _ => PStr x
  end.

(** The value [gt_class_etl.py] leaves in [attributes]. *)
Definition attributes_gt (labels : list string) : pyval :=
  match labels with
  | [] => PNone
  | _ => PList (map PStr labels)
  end.

Definition flat_record (attr : list string -> pyval) (c : Caches)
  (i dn l : string) (s : SectionRecord) : result dict :=
  mf <- meeting_fields c (meetings s) ;;
  st <- list_getitem (scheduleTypes c) (scheduleTypeIdx s) ;;
  cp <- list_getitem (campuses c) (campusIdx s) ;;
  labels <- mapM (list_getitem (attributes c)) (attributeIdxs s) ;;
  Ok ([ ("crn", PStr (crn s)); ("name", PStr i);
        ("actual_name", PStr dn); ("section", PStr l) ]
      ++ mf
      ++ [ ("credits", credits s); ("schedule_type", PStr st);
           ("campus", PStr cp); ("attributes", attr labels) ]).

Definition flatten_section (attr : list string -> pyval) (c : Caches)
  (n : string -> nat) (i dn : string) (ls : string * SectionRecord)
  : result dict :=
  if (n (fst ls) <? 6)%nat then Raise IndexError
  else flat_record attr c i dn (fst ls) (snd ls).

Definition flatten_course (attr : list string -> pyval) (c : Caches)
  (ca : string -> nat) (sa : string -> string -> nat) (ic : string * Course)
  : result (list dict) :=
  if (ca (fst ic) <? 2)%nat then Raise IndexError
  else mapM (flatten_section attr c (sa (fst ic)) (fst ic) (displayName (snd ic)))
            (sections (snd ic)).

Definition flatten_typed (attr : list string -> pyval)
  (ca : string -> nat) (sa : string -> string -> nat) (d : CatalogDocument)
  : result (list dict) :=
  r <- mapM (flatten_course attr (caches d) ca sa) (courses d) ;;
  Ok (concat r).

(** The (course, section) pairs of a document, in iteration order. *)
Definition doc_sections (d : CatalogDocument)
  : list (string * string * string * SectionRecord) :=
  flat_map (fun ic => map (fun ls => (fst ic, displayName (snd ic), fst ls, snd ls))
                          (sections (snd ic)))
           (courses d).

(** The keys of a JSON object are pairwise distinct. *)
Definition distinct_keys (d : CatalogDocument) : Prop :=
  NoDup (map fst (courses d)) /\
  Forall (fun ic => NoDup (map fst (sections (snd ic)))) (courses d).

(** Every cache index the flattener consults is in range. *)
Definition in_range {A : Type} (table : list A) (idx : Z) : bool :=
  match list_lookup table idx with Some _ => true | None => false end.

Definition section_ok (c : Caches) (s : SectionRecord) : bool :=
  match meetings s with
  | [] => true
  | m :: _ => in_range (periods c) (periodIdx m)
              && in_range (locations c) (locationIdx m)
              && in_range (dateRanges c) (dateRangeIdx m)
  end
  && in_range (scheduleTypes c) (scheduleTypeIdx s)
  && in_range (campuses c) (campusIdx s)
  && forallb (in_range (attributes c)) (attributeIdxs s).

Definition well_formed (d : CatalogDocument) : Prop :=
  distinct_keys d /\
  Forall (fun x => section_ok (caches d) (snd x) = true) (doc_sections d).

(* ================================================================= *)
(** ** What the normalizers compute, record by record *)

Definition parts_of (field : string) (d : dict) : option (list string) :=
  split_cell " - " (cell_of field d).

Definition raw_start_time (d : dict) : cell := part 0 (parts_of "time" d).
Definition raw_end_time (d : dict) : cell := part 1 (parts_of "time" d).

(** The rows that [dropna] keeps. *)
Definition survives (d : dict) : bool :=
  negb (isna (raw_start_time d)) && negb (isna (raw_end_time d)).

(** The value of [transform_military_time] where it returns. *)
Definition parsed (c : cell) : cell :=
  match transform_military_time c with
  | Ok v => v
  | Raise _ => None
  end.

Definition day_flag (letter : string) (d : dict) : cell :=
  contains_cell letter false (cell_of "day_of_week" d).

Definition building_of (d : dict) : cell := extract_cell (cell_of "building" d).

(** A FlatRecord: the four meeting-derived strings come together or not
    at all, with the two companions the normalizer drops. *)
Record Meeting : Type := {
  m_time : string;
  m_day_of_week : string;
  m_building : string;
  m_building_coords : pyval;
  m_professors : pyval;
  m_date_range : string
}.

Record FlatRecord : Type := {
  f_crn : pyval;
  f_name : pyval;
  f_actual_name : pyval;
  f_section : pyval;
  f_meeting : option Meeting;
  f_credits : pyval;
  f_schedule_type : pyval;
  f_campus : pyval;
  f_attributes : pyval
}.

Definition to_dict (r : FlatRecord) : dict :=
  [ ("crn", f_crn r); ("name", f_name r);
    ("actual_name", f_actual_name r); ("section", f_section r) ]
  ++ match f_meeting r with
     | Some m => [ ("time", PStr (m_time m));
                   ("day_of_week", PStr (m_day_of_week m));
                   ("building", PStr (m_building m));
                   ("building_coords", m_building_coords m);
                   ("professors", m_professors m);
                   ("date_range", PStr (m_date_range m)) ]
     | None => []
     end
  ++ [ ("credits", f_credits r); ("schedule_type", f_schedule_type r);
       ("campus", f_campus r); ("attributes", f_attributes r) ].

(* ================================================================= *)
(** ** Notions the statements use *)

(** A course or section that cannot be flattened: a tuple shorter than
    its fixed positions, or a consulted cache index out of range. *)
Definition malformed_at (ca : string -> nat) (sa : string -> string -> nat)
  (d : CatalogDocument) (i l : string) : Prop :=
  exists c, In (i, c) (courses d) /\
    ((ca i < 2)%nat \/
     exists s, In (l, s) (sections c) /\
               ((sa i l < 6)%nat \/ section_ok (caches d) s = false)).

(** The (courseId, sectionId) and (crn, sectionId) of a record and of a
    section of the document. *)
Definition record_key (r : dict) : option pyval * option pyval :=
  (dict_get "name" r, dict_get "section" r).

Definition record_crn_key (r : dict) : option pyval * option pyval :=
  (dict_get "crn" r, dict_get "section" r).

Definition section_key (x : string * string * string * SectionRecord)
  : option pyval * option pyval :=
  (Some (PStr (fst (fst (fst x)))), Some (PStr (snd (fst x)))).

Definition section_crn_key (x : string * string * string * SectionRecord)
  : option pyval * option pyval :=
  (Some (PStr (crn (snd x))), Some (PStr (snd (fst x)))).

Definition meeting_keys : list string :=
  ["time"; "day_of_week"; "building"; "building_coords"; "professors"; "date_range"].

(** Two records that differ at most in the field [k0]. *)
Definition agree_except (k0 : string) (r1 r2 : dict) : Prop :=
  forall k, k <> k0 -> dict_get k r1 = dict_get k r2.

(** Two runs that raise the same exception or return related values. *)
Definition same_outcome {A : Type} (R : A -> A -> Prop) (x y : result A) : Prop :=
  match x, y with
  | Ok a, Ok b => R a b
  | Raise e1, Raise e2 => e1 = e2
  | _, _ => False
  end.

(** The columns of the frame a normalizer returns for the records [ds],
    [thu] being the name it gives to the flag of Thursday: the columns it
    computes, and every other column of the records but the six it drops,
    restricted to the rows that survive. *)
Definition final_col (thu : string) (ds : list dict) (c : string) : option Series :=
  let keep := map survives ds in
  if mem c ["attributes"; "building_coords"; "professors";
            "date_range"; "time"; "day_of_week"] then None
  else if String.eqb c "building" then Some (select keep (map building_of ds))
  else if String.eqb c "friday" then Some (select keep (map (day_flag "F") ds))
  else if String.eqb c thu then Some (select keep (map (day_flag "R") ds))
  else if String.eqb c "wednesday" then Some (select keep (map (day_flag "W") ds))
  else if String.eqb c "tuesday" then Some (select keep (map (day_flag "T") ds))
  else if String.eqb c "monday" then Some (select keep (map (day_flag "M") ds))
  else if String.eqb c "end_time"
       then Some (select keep (map (fun d => parsed (raw_end_time d)) ds))
  else if String.eqb c "start_time"
       then Some (select keep (map (fun d => parsed (raw_start_time d)) ds))
  else if String.eqb c "end_date"
       then Some (select keep (map (fun d => part 1 (parts_of "date_range" d)) ds))
  else if String.eqb c "start_date"
       then Some (select keep (map (fun d => part 0 (parts_of "date_range" d)) ds))
  else if existsb (has_key c) ds
       then Some (select keep (map (cell_of c) ds))
  else None.

(** What a normalizer needs of the records to return. *)
Definition can_normalize (ds : list dict) : Prop :=
  Forall (fun k => existsb (has_key k) ds = true)
         ["attributes"; "building_coords"; "professors"; "date_range"; "time";
          "day_of_week"; "building"] /\
  width (map (parts_of "date_range") ds) = 2%nat /\
  width (map (parts_of "time") ds) = 2%nat /\
  Forall (fun d => survives d = true ->
                   (exists v, transform_military_time (raw_start_time d) = Ok v) /\
                   (exists v, transform_military_time (raw_end_time d) = Ok v)) ds.

(** The frame [df] is the one a normalizer returns for [ds]. *)
Definition normalized (thu : string) (ds : list dict) (df : DataFrame) : Prop :=
  index df = select (map survives ds) (seq 0 (List.length ds)) /\
  forall c, getcol c (columns df) = final_col thu ds c.

(** Either normalizer, on the same records. *)
Definition either_transform (ds : list dict) (df : DataFrame) : Prop :=
  Etl.transform ds = Ok df \/ GtClassEtl.transform ds = Ok df.




(** The strings of a field split into at most two parts, and into two
    for some record. *)
Definition two_parts (field : Meeting -> string) (rs : list FlatRecord) : Prop :=
  (forall r m, In r rs -> f_meeting r = Some m ->
               (List.length (split " - " (field m)) <= 2)%nat) /\
  (exists r m, In r rs /\ f_meeting r = Some m /\
               List.length (split " - " (field m)) = 2%nat).

(** [strptime] accepts the raw times made of digits only. *)
Definition times_parse (rs : list FlatRecord) : Prop :=
  forall r m a b, In r rs -> f_meeting r = Some m ->
                  split " - " (m_time m) = [a; b] ->
                  (isdigit a = true -> exists hm, strptime_HM a = Ok hm) /\
                  (isdigit b = true -> exists hm, strptime_HM b = Ok hm).

(* ================================================================= *)
(** ** Sample documents and records *)


Definition sample_caches : Caches :=
  {| periods := ["0800 - 0915"; "0930 - 1045"];
     locations := [PNone];
     dateRanges := ["2025-01-06 - 2025-05-02"];
     scheduleTypes := ["Lecture"];
     campuses := ["Atlanta"];
     attributes := ["Honors"; "Online"] |}.

Definition meeting_mwf : MeetingRecord :=
  {| periodIdx := 0; dayCodes := "MWF"; buildingRaw := "Clough G25";
     locationIdx := 0; professors := []; dateRangeIdx := 0 |}.

Definition meeting_tr : MeetingRecord :=
  {| periodIdx := 1; dayCodes := "TR"; buildingRaw := "Skiles 005";
     locationIdx := 0; professors := ["A. Turing"]; dateRangeIdx := 0 |}.

Definition section_of (crn0 : string) (ms : list MeetingRecord)
  (campus : Z) (attrs : list Z) : SectionRecord :=
  {| crn := crn0; meetings := ms; credits := PInt 3; scheduleTypeIdx := 0;
     campusIdx := campus; attributeIdxs := attrs |}.

(** Two courses; section B of the first has no meeting and no attribute. *)
Definition sample_doc : CatalogDocument :=
  {| courses :=
       [ ("CS 1331",
          {| displayName := "Object-Oriented Programming";
             sections := [ ("A", section_of "12345" [meeting_mwf] 0 [0; 1]%Z);
                           ("B", section_of "12346" [] 0 []) ] |});
         ("MATH 1551",
          {| displayName := "Differential Calculus";
             sections := [ ("A", section_of "20001" [meeting_tr] 0 [1%Z]) ] |}) ];
     caches := sample_caches |}.

(** The document of the specification's end-to-end scenario. *)
Definition scenario_doc : CatalogDocument :=
  {| courses :=
       [ ("CS 1331",
          {| displayName := "Object-Oriented Programming";
             sections := [ ("A", section_of "12345" [meeting_mwf] 0 []) ] |}) ];
     caches := {| periods := ["0800 - 0915"];
                  locations := [PNone];
                  dateRanges := ["2025-01-06 - 2025-05-02"];
                  scheduleTypes := ["Lecture"];
                  campuses := ["Atlanta"];
                  attributes := [] |} |}.

(** The campus index of CS 1331 / A is out of range. *)
Definition bad_campus_doc : CatalogDocument :=
  {| courses :=
       [ ("CS 1331",
          {| displayName := "Object-Oriented Programming";
             sections := [ ("A", section_of "12345" [meeting_mwf] 7 []) ] |}) ];
     caches := sample_caches |}.

(** An out-of-range period index in a second meeting block, and a negative
    campus index. *)
Definition unread_index_doc : CatalogDocument :=
  {| courses :=
       [ ("CS 1331",
          {| displayName := "Object-Oriented Programming";
             sections :=
               [ ("A", section_of "12345"
                         [ meeting_mwf;
                           {| periodIdx := 99; dayCodes := "R";
                              buildingRaw := "Klaus 1443"; locationIdx := 0;
                              professors := []; dateRangeIdx := 0 |} ]
                         (-1) []) ] |}) ];
     caches := sample_caches |}.

(** Two courses whose sections A carry the same CRN. *)
Definition shared_crn_doc : CatalogDocument :=
  {| courses :=
       [ ("CS 1331",
          {| displayName := "Object-Oriented Programming";
             sections := [ ("A", section_of "12345" [meeting_mwf] 0 []) ] |});
         ("CS 1332",
          {| displayName := "Data Structures";
             sections := [ ("A", section_of "12345" [meeting_tr] 0 []) ] |}) ];
     caches := sample_caches |}.

(** One course whose only section has no meeting. *)
Definition no_meeting_doc : CatalogDocument :=
  {| courses :=
       [ ("CS 1331",
          {| displayName := "Object-Oriented Programming";
             sections := [ ("B", section_of "12346" [] 0 []) ] |}) ];
     caches := sample_caches |}.

(** Section A meets at a time still to be announced; section B has no
    meeting. *)
Definition tba_doc : CatalogDocument :=
  {| courses :=
       [ ("CS 1331",
          {| displayName := "Object-Oriented Programming";
             sections := [ ("A", section_of "12345" [meeting_mwf] 0 []);
                           ("B", section_of "12346" [] 0 []) ] |}) ];
     caches := {| periods := ["TBA"];
                  locations := [PNone];
                  dateRanges := ["2025-01-06 - 2025-05-02"];
                  scheduleTypes := ["Lecture"];
                  campuses := ["Atlanta"];
                  attributes := [] |} |}.

Definition flat (t d b dr : string) : FlatRecord :=
  {| f_crn := PStr "12345"; f_name := PStr "CS 1331";
     f_actual_name := PStr "Object-Oriented Programming";
     f_section := PStr "A";
     f_meeting := Some {| m_time := t; m_day_of_week := d; m_building := b;
                          m_building_coords := PNone; m_professors := PList [];
                          m_date_range := dr |};
     f_credits := PInt 3; f_schedule_type := PStr "Lecture";
     f_campus := PStr "Atlanta"; f_attributes := PNone |}.

Definition flat_no_meeting : FlatRecord :=
  {| f_crn := PStr "12346"; f_name := PStr "CS 1331";
     f_actual_name := PStr "Object-Oriented Programming";
     f_section := PStr "B"; f_meeting := None;
     f_credits := PInt 3; f_schedule_type := PStr "Lecture";
     f_campus := PStr "Atlanta"; f_attributes := PNone |}.

Definition term : string := "2025-01-06 - 2025-05-02".

(** Five records: the first has no meeting; the third has a time without
    the separator; the fourth has a three-digit start, an end that is no
    number, a date range without the separator and a room token that is
    not trailing; the fifth has a one-character room token. *)
Definition sample_records : list FlatRecord :=
  [ flat_no_meeting;
    flat "0800 - 0915" "MWF" "Clough Undergraduate Learning Commons G25" term;
    flat "TBA" "TR" "Skiles 005" "2025";
    flat "800 - TBA" "R" "Clough G25 West" "2025";
    flat "0930 - 1045" "TR" "Hall 5" term ].

(* ================================================================= *)
(** ** Further notions: what the flattener reads of a document *)

(** A section with its first meeting block only. *)
Definition first_meeting (s : SectionRecord) : SectionRecord :=
  {| crn := crn s; meetings := firstn 1 (meetings s); credits := credits s;
     scheduleTypeIdx := scheduleTypeIdx s; campusIdx := campusIdx s;
     attributeIdxs := attributeIdxs s |}.

Definition first_meetings (d : CatalogDocument) : CatalogDocument :=
  {| courses :=
       map (fun ic =>
              (fst ic,
               {| displayName := displayName (snd ic);
                  sections := map (fun ls => (fst ls, first_meeting (snd ls)))
                                  (sections (snd ic)) |}))
           (courses d);
     caches := caches d |}.

(** The index of the same entry of a table of [n] entries, counted from
    the start: a negative index in range counts from the end. *)
Definition from_start (n : nat) (z : Z) : Z :=
  if ((z <? 0) && (- Z.of_nat n <=? z))%Z then (z + Z.of_nat n)%Z else z.

Definition meeting_from_start (c : Caches) (m : MeetingRecord) : MeetingRecord :=
  {| periodIdx := from_start (List.length (periods c)) (periodIdx m);
     dayCodes := dayCodes m; buildingRaw := buildingRaw m;
     locationIdx := from_start (List.length (locations c)) (locationIdx m);
     professors := professors m;
     dateRangeIdx := from_start (List.length (dateRanges c)) (dateRangeIdx m) |}.

Definition section_from_start (c : Caches) (s : SectionRecord) : SectionRecord :=
  {| crn := crn s;
     meetings := map (meeting_from_start c) (meetings s);
     credits := credits s;
     scheduleTypeIdx := from_start (List.length (scheduleTypes c)) (scheduleTypeIdx s);
     campusIdx := from_start (List.length (campuses c)) (campusIdx s);
     attributeIdxs := map (from_start (List.length (attributes c))) (attributeIdxs s) |}.

Definition indices_from_start (d : CatalogDocument) : CatalogDocument :=
  {| courses :=
       map (fun ic =>
              (fst ic,
               {| displayName := displayName (snd ic);
                  sections := map (fun ls => (fst ls, section_from_start (caches d) (snd ls)))
                                  (sections (snd ic)) |}))
           (courses d);
     caches := caches d |}.

(** The entries of a cache table at the given indices, if all are in
    range. *)
Fixpoint lookup_all {A : Type} (table : list A) (idxs : list Z) : option (list A) :=
  match idxs with
  | [] => Some []
  | z :: r =>
      match list_lookup table z, lookup_all table r with
      | Some v, Some vs => Some (v :: vs)
      | _, _ => None
      end
  end.

(** The meeting of a FlatRecord, resolved from a meeting block. *)
Definition resolved_meeting (c : Caches) (m : MeetingRecord) : option Meeting :=
  match list_lookup (periods c) (periodIdx m),
        list_lookup (locations c) (locationIdx m),
        list_lookup (dateRanges c) (dateRangeIdx m) with
  | Some t, Some loc, Some dr =>
      Some {| m_time := t; m_day_of_week := dayCodes m;
              m_building := buildingRaw m; m_building_coords := loc;
              m_professors := PList (map PStr (professors m));
              m_date_range := dr |}
  | _, _, _ => None
  end.

(** The FlatRecord of a (course, section) pair: every index replaced by
    the entry of its cache table, the meeting fields taken from the first
    meeting block. *)
Definition resolved (attr : list string -> pyval) (c : Caches)
  (x : string * string * string * SectionRecord) : option FlatRecord :=
  let s := snd x in
  match (match meetings s with
         | [] => Some None
         | m :: _ => option_map Some (resolved_meeting c m)
         end),
        list_lookup (scheduleTypes c) (scheduleTypeIdx s),
        list_lookup (campuses c) (campusIdx s),
        lookup_all (attributes c) (attributeIdxs s) with
  | Some mt, Some st, Some cp, Some labels =>
      Some {| f_crn := PStr (crn s);
              f_name := PStr (fst (fst (fst x)));
              f_actual_name := PStr (snd (fst (fst x)));
              f_section := PStr (snd (fst x));
              f_meeting := mt;
              f_credits := credits s;
              f_schedule_type := PStr st;
              f_campus := PStr cp;
              f_attributes := attr labels |}
  | _, _, _, _ => None
  end.

(* ================================================================= *)
(** ** Further notions: the frame a normalizer returns *)

(** The column names after [df[c] = s] and after [df.drop(labels, axis=1)]. *)
Definition add_name (c : string) (names : list string) : list string :=
  if mem c names then names else names ++ [c].

Definition remove_names (labels names : list string) : list string :=
  filter (fun k => negb (mem k labels)) names.

(** The column names of the returned frame, from the keys of the records
    in the order of their first appearance: one step for each statement of
    [transform] that adds or removes columns. *)
Definition column_names (thu : string) (keys : list string) : list string :=
  let names := remove_names ["attributes"; "building_coords"; "professors"] keys in
  let names := add_name "end_date" (add_name "start_date" names) in
  let names := add_name "end_time" (add_name "start_time" names) in
  let names := remove_names ["date_range"; "time"] names in
  let names := add_name "end_time" (add_name "start_time" names) in
  let names := add_name "monday" names in
  let names := add_name "tuesday" names in
  let names := add_name "wednesday" names in
  let names := add_name thu names in
  let names := add_name "friday" names in
  let names := remove_names ["day_of_week"] names in
  add_name "building" names.

(** The two orders in which the columns of FlatRecords come out: the
    first record has a meeting, or it has none. *)
Definition computed_columns (thu : string) : list string :=
  ["start_date"; "end_date"; "start_time"; "end_time";
   "monday"; "tuesday"; "wednesday"; thu; "friday"].

Definition columns_meeting_first (thu : string) : list string :=
  ["crn"; "name"; "actual_name"; "section"; "building";
   "credits"; "schedule_type"; "campus"] ++ computed_columns thu.

Definition columns_meeting_later (thu : string) : list string :=
  ["crn"; "name"; "actual_name"; "section";
   "credits"; "schedule_type"; "campus"; "building"] ++ computed_columns thu.

Definition has_meeting (r : FlatRecord) : bool :=
  match f_meeting r with Some _ => true | None => false end.

Definition meeting_first (rs : list FlatRecord) : bool :=
  match rs with
  | r :: _ => has_meeting r
  | [] => false
  end.

(** The keys of a FlatRecord, in order. *)
Definition record_keys (with_meeting : bool) : list string :=
  ["crn"; "name"; "actual_name"; "section"]
  ++ (if with_meeting then meeting_keys else [])
  ++ ["credits"; "schedule_type"; "campus"; "attributes"].

(** The records the normalizer keeps: a meeting whose time has two
    parts. *)
Definition timed (r : FlatRecord) : bool :=
  match f_meeting r with
  | Some m => (List.length (split " - " (m_time m)) =? 2)%nat
  | None => false
  end.

(** What a normalizer needs of FlatRecords to return. *)
Definition normalizable (rs : list FlatRecord) : Prop :=
  two_parts m_date_range rs /\ two_parts m_time rs /\ times_parse rs.

(** Two records with the same keys in the same order and the same values,
    but for the three fields the normalizer drops at once. *)
Definition agree_but_dropped (d d' : dict) : Prop :=
  map fst d = map fst d' /\
  forall c, ~ In c ["attributes"; "building_coords"; "professors"] ->
            dict_get c d = dict_get c d'.

(** A FlatRecord without the values of these three fields. *)
Definition without_dropped (r : FlatRecord) : FlatRecord :=
  {| f_crn := f_crn r; f_name := f_name r; f_actual_name := f_actual_name r;
     f_section := f_section r;
     f_meeting :=
       option_map (fun m => {| m_time := m_time m;
                               m_day_of_week := m_day_of_week m;
                               m_building := m_building m;
                               m_building_coords := PNone;
                               m_professors := PNone;
                               m_date_range := m_date_range m |})
                  (f_meeting r);
     f_credits := f_credits r; f_schedule_type := f_schedule_type r;
     f_campus := f_campus r; f_attributes := PNone |}.

(** The entry of a frame for a field of a record. *)
Definition as_cell (v : pyval) : cell :=
  match v with PNone => None | _ => Some v end.

(** The fields a normalizer neither reads nor drops, with their columns. *)
Definition passed_fields : list (string * (FlatRecord -> pyval)) :=
  [ ("crn", f_crn); ("name", f_name); ("actual_name", f_actual_name);
    ("section", f_section); ("credits", f_credits);
    ("schedule_type", f_schedule_type); ("campus", f_campus) ].

(** An integer that fits 64 bits. *)
Definition is_int64 (v : pyval) : bool :=
  match v with
  | PInt z => (- 2 ^ 63 <=? z)%Z && (z <? 2 ^ 63)%Z
  | _ => false
  end.

(** The entries [pd.DataFrame] stores as the records hold them.  A string
    is stored as it is whatever else its column holds (the column is one
    of objects), and a [None] is a missing entry in every column; a number
    is stored as it is in a column of integers that fit 64 bits.  (A
    column of numbers that holds a float or a missing entry becomes one of
    floats: such columns are left out.) *)
Definition stored_as_is (column : list pyval) (v : pyval) : Prop :=
  v = PNone \/ (exists s, v = PStr s) \/ forallb is_int64 column = true.

(** The day codes contain the letter. *)
Definition has_day (letter : ascii) (m : Meeting) : bool :=
  existsb (Ascii.eqb letter) (list_ascii_of_string (m_day_of_week m)).

(** The frame has distinct row labels and full columns. *)
Definition rectangular (df : DataFrame) : Prop :=
  Forall (fun cs => List.length (snd cs) = List.length (index df)) (columns df).

(** The row removal of [etl.py]: the labels of the rows with a missing
    entry are computed, then dropped. *)
Definition drop_missing (labels : list string) (df : DataFrame) : result DataFrame :=
  mask <- any_isna labels df ;;
  drop_rows (index (select_rows mask df)) df.

(* ================================================================= *)
(** ** The entry points

    [gt_class_etl] of [etl/gt_class_etl.py] and the [__main__] block of
    [etl.py] call [extract_json], the flattener, the normalizer and (the
    first only) [df_to_sql].  What the network and the database do is a
    parameter: [extract_json] returns a value or raises, [df_to_sql]
    prints some lines and returns or raises.  Every exception these
    raise, and every exception of [exn], is an [Exception]. *)

Inductive raised : Type :=
| Builtin (e : exn)
| External (description : string).

Inductive outcome (A : Type) : Type :=
| Returned (a : A)
| Failed (r : raised).

Arguments Returned {A} a.
Arguments Failed {A} r.

(** What a run does that can be seen from outside. *)
Inductive event : Type :=
| Line (text : string)        (* [print(text)] *)
| FailureLine (r : raised)    (* [print(f"ETL failed: {e}")] *)
| Upload (df : DataFrame).    (* [df_to_sql(df)] is entered *)

(** The frames passed to [df_to_sql] in a run. *)
Definition uploads (trace : list event) : list DataFrame :=
  flat_map (fun e => match e with Upload df => [df] | _ => [] end) trace.

Definition decimal (n : nat) : string := NilEmpty.string_of_uint (Nat.to_uint n).

Definition transformed_line (n : nat) : string :=
  "Transformed " ++ decimal n ++ " courses.".

Definition frame_line (rows cols : nat) : string :=
  "DataFrame transformed: " ++ decimal rows ++ " rows, " ++ decimal cols
  ++ " columns.".

Definition source_url : string :=
  "https://gt-scheduler.github.io/crawler-v2/202502.json".

Definition gt_class_etl (extract_json : string -> outcome pyval)
  (df_to_sql : DataFrame -> list string * option raised) : list event :=
  match extract_json source_url with
  | Failed r => [FailureLine r]
  | Returned json_courses =>
      match GtClassEtl.transform_json_to_list json_courses with
      | Raise e => [FailureLine (Builtin e)]
      | Ok course_list =>
          Line (transformed_line (List.length course_list)) ::
          match GtClassEtl.transform course_list with
          | Raise e => [FailureLine (Builtin e)]
          | Ok df =>
              Line (frame_line (List.length (index df)) (List.length (columns df)))
              :: Upload df
              :: map Line (fst (df_to_sql df))
              ++ match snd (df_to_sql df) with
                 | Some r => [FailureLine r]
                 | None => []
                 end
          end
      end
  end.

(** The [__main__] block of [etl.py]: nothing is caught, and one empty
    line is printed at the end. *)
Definition etl_main (extract_json : string -> outcome pyval)
  : outcome (list event) :=
  match extract_json source_url with
  | Failed r => Failed r
  | Returned json_courses =>
      match Etl.transform_json_to_list json_courses with
      | Raise e => Failed (Builtin e)
      | Ok course_list =>
          match Etl.transform course_list with
          | Raise e => Failed (Builtin e)
          | Ok df => Returned [Line ""]
          end
      end
  end.

(** A database that accepts every frame. *)
Definition accepting_sink (df : DataFrame) : list string * option raised :=
  (["'gt_classes' table has been successfully uploaded to PostgreSQL."], None).

(* ================================================================= *)
(** * Proofs *)

(* ================================================================= *)
(** ** The error monad and the loops *)

Lemma bind_Ok_inv {A B : Type} (m : result A) (k : A -> result B) (b : B) :
  bind m k = Ok b -> exists a, m = Ok a /\ k a = Ok b.
Proof.
  destruct m as [a|e]; simpl; intros H; [eauto | discriminate].
Qed.

Lemma mapM_Ok_Forall2 {A B : Type} (f : A -> result B) (xs : list A) (ys : list B) :
  mapM f xs = Ok ys <-> Forall2 (fun x y => f x = Ok y) xs ys.
Proof.
  revert ys; induction xs as [|x r IH]; intros ys; simpl.
  - split; intros H.
    + injection H as <-; constructor.
    + inversion H; reflexivity.
  - split; intros H.
    + apply bind_Ok_inv in H as (y & Hy & H).
      apply bind_Ok_inv in H as (ys' & Hys & H).
      injection H as <-. constructor; [assumption | now apply IH].
    + inversion H as [|? y ? ys' Hy Hys]; subst.
      rewrite Hy; simpl. apply IH in Hys; rewrite Hys; reflexivity.
Qed.

Lemma mapM_ext_in {A B : Type} (f g : A -> result B) (xs : list A) :
  (forall x, In x xs -> f x = g x) -> mapM f xs = mapM g xs.
Proof.
  induction xs as [|x r IH]; intros H; simpl; [reflexivity|].
  rewrite (H x (or_introl eq_refl)), IH by (intros; apply H; now right).
  reflexivity.
Qed.

Lemma mapM_length {A B : Type} (f : A -> result B) (xs : list A) (ys : list B) :
  mapM f xs = Ok ys -> List.length ys = List.length xs.
Proof.
  intros H; apply mapM_Ok_Forall2 in H.
  induction H; simpl; congruence.
Qed.

(** The first element on which [f] raises decides what [mapM] raises. *)
Lemma mapM_Raise_all {A B : Type} (f : A -> result B) (xs : list A) (e : exn) :
  (forall x e', In x xs -> f x = Raise e' -> e' = e) ->
  (exists x e', In x xs /\ f x = Raise e') ->
  mapM f xs = Raise e.
Proof.
  induction xs as [|x r IH]; intros Hall (x0 & e0 & Hin & Hx0); [destruct Hin|].
  simpl. destruct (f x) as [y|e1] eqn:Hx.
  - simpl. destruct Hin as [->|Hin]; [congruence|].
    rewrite IH; [reflexivity | | eauto].
    intros; eapply Hall; [right|]; eassumption.
  - simpl. f_equal. eapply Hall; [left; reflexivity | eassumption].
Qed.

Lemma mapM_Raise_inv {A B : Type} (f : A -> result B) (xs : list A) (e : exn) :
  mapM f xs = Raise e -> exists x, In x xs /\ f x = Raise e.
Proof.
  induction xs as [|x r IH]; simpl; [discriminate|].
  destruct (f x) as [y|e1] eqn:Hx; simpl.
  - destruct (mapM f r) as [ys|e2]; simpl; [discriminate|].
    intros H; injection H as ->. destruct IH as (x0 & ? & ?); eauto.
  - intros H; injection H as ->. eauto.
Qed.

Lemma mapM_flat_map {A B C : Type} (f : B -> result C) (g : A -> list B) (xs : list A) :
  (r <- mapM (fun x => mapM f (g x)) xs ;; Ok (concat r)) = mapM f (flat_map g xs).
Proof.
  induction xs as [|x r IH]; simpl; [reflexivity|].
  assert (Happ : forall l1 l2,
             mapM f (l1 ++ l2) = (a <- mapM f l1 ;; b <- mapM f l2 ;; Ok (a ++ b))).
  { induction l1 as [|y l1 IH1]; intros l2; simpl.
    - destruct (mapM f l2); reflexivity.
    - destruct (f y); simpl; [|reflexivity]. rewrite IH1.
      destruct (mapM f l1); simpl; [|reflexivity].
      destruct (mapM f l2); reflexivity. }
  rewrite Happ, <- IH.
  destruct (mapM f (g x)); simpl; [|reflexivity].
  destruct (mapM (fun x0 => mapM f (g x0)) r); reflexivity.
Qed.

(** A loop that appends what its body produces is a comprehension. *)
Lemma for_each_append {A X Y : Type} (enc : X -> A) (g : X -> result (list Y))
  (body : A -> list Y -> result (list Y)) (xs : list X) (acc : list Y) :
  (forall x acc', In x xs -> body (enc x) acc' = (ys <- g x ;; Ok (acc' ++ ys))) ->
  for_each (map enc xs) body acc = (r <- mapM g xs ;; Ok (acc ++ concat r)).
Proof.
  revert acc; induction xs as [|x r IH]; intros acc H; simpl.
  - now rewrite app_nil_r.
  - rewrite (H x acc (or_introl eq_refl)).
    destruct (g x) as [ys|e]; simpl; [|reflexivity].
    rewrite IH by (intros; apply H; now right).
    destruct (mapM g r); simpl; [|reflexivity].
    now rewrite app_assoc.
Qed.

(* ================================================================= *)
(** ** Subscripts on the encoding of a typed document *)

Lemma dict_get_map {X : Type} (key : X -> string) (enc : X -> pyval)
  (xs : list X) (x : X) :
  NoDup (map key xs) -> In x xs ->
  dict_get (key x) (map (fun y => (key y, enc y)) xs) = Some (enc x).
Proof.
  induction xs as [|y r IH]; intros Hnd Hin; [destruct Hin|].
  simpl in *. inversion Hnd as [|? ? Hy Hr]; subst.
  destruct Hin as [->|Hin].
  - now rewrite String.eqb_refl.
  - destruct (String.eqb_spec (key x) (key y)) as [E|_]; [|now apply IH].
    exfalso; apply Hy. rewrite <- E. now apply in_map.
Qed.

Lemma getitem_nat (l : list pyval) (n : nat) :
  getitem (PList l) (PInt (Z.of_nat n)) =
  match nth_error l n with Some v => Ok v | None => Raise IndexError end.
Proof.
  unfold getitem, as_index, list_getitem, list_lookup, normalize_index.
  destruct (Z.ltb_spec (Z.of_nat n) 0) as [H|_]; [lia|].
  destruct (Z.leb_spec 0 (Z.of_nat n)) as [_|H]; [|lia].
  destruct (Z.ltb_spec (Z.of_nat n) (Z.of_nat (List.length l))) as [H|H]; simpl.
  - now rewrite Nat2Z.id.
  - assert (E : nth_error l n = None) by (apply nth_error_None; lia).
    now rewrite E.
Qed.

Lemma list_lookup_map {A B : Type} (f : A -> B) (l : list A) (z : Z) :
  list_lookup (map f l) z = option_map f (list_lookup l z).
Proof.
  unfold list_lookup. rewrite length_map.
  destruct (normalize_index _ z); [apply nth_error_map | reflexivity].
Qed.

Lemma getitem_table (f : string -> pyval) (table : list string) (z : Z) :
  getitem (PList (map f table)) (PInt z) =
  (x <- list_getitem table z ;; Ok (f x)).
Proof.
  unfold getitem, as_index, list_getitem. rewrite list_lookup_map.
  destruct (list_lookup table z); reflexivity.
Qed.

Lemma getitem_0 l : getitem (PList l) (PInt 0) =
  match nth_error l 0 with Some v => Ok v | None => Raise IndexError end.
Proof. exact (getitem_nat l 0). Qed.
Lemma getitem_1 l : getitem (PList l) (PInt 1) =
  match nth_error l 1 with Some v => Ok v | None => Raise IndexError end.
Proof. exact (getitem_nat l 1). Qed.
Lemma getitem_2 l : getitem (PList l) (PInt 2) =
  match nth_error l 2 with Some v => Ok v | None => Raise IndexError end.
Proof. exact (getitem_nat l 2). Qed.
Lemma getitem_3 l : getitem (PList l) (PInt 3) =
  match nth_error l 3 with Some v => Ok v | None => Raise IndexError end.
Proof. exact (getitem_nat l 3). Qed.
Lemma getitem_4 l : getitem (PList l) (PInt 4) =
  match nth_error l 4 with Some v => Ok v | None => Raise IndexError end.
Proof. exact (getitem_nat l 4). Qed.
Lemma getitem_5 l : getitem (PList l) (PInt 5) =
  match nth_error l 5 with Some v => Ok v | None => Raise IndexError end.
Proof. exact (getitem_nat l 5). Qed.

Lemma caches_periods c :
  getitem (encode_caches c) (PStr "periods") = Ok (PList (map PStr (periods c))).
Proof. reflexivity. Qed.
Lemma caches_locations c :
  getitem (encode_caches c) (PStr "locations") = Ok (PList (locations c)).
Proof. reflexivity. Qed.
Lemma caches_dateRanges c :
  getitem (encode_caches c) (PStr "dateRanges") = Ok (PList (map PStr (dateRanges c))).
Proof. reflexivity. Qed.
Lemma caches_scheduleTypes c :
  getitem (encode_caches c) (PStr "scheduleTypes") = Ok (PList (map PStr (scheduleTypes c))).
Proof. reflexivity. Qed.
Lemma caches_campuses c :
  getitem (encode_caches c) (PStr "campuses") = Ok (PList (map PStr (campuses c))).
Proof. reflexivity. Qed.
Lemma caches_attributes c :
  getitem (encode_caches c) (PStr "attributes") = Ok (PList (map PStr (attributes c))).
Proof. reflexivity. Qed.

Lemma getitem_locations (l : list pyval) (z : Z) :
  getitem (PList l) (PInt z) = list_getitem l z.
Proof. reflexivity. Qed.

(** The attribute loop of [etl.py]: each pass overwrites the field. *)
Lemma dict_set_twice k v v' d : dict_set k v (dict_set k v' d) = dict_set k v d.
Proof.
  induction d as [|[k' w] r IH]; simpl.
  - now rewrite String.eqb_refl.
  - destruct (String.eqb_spec k k') as [->|N]; simpl.
    + now rewrite String.eqb_refl.
    + destruct (String.eqb_spec k k'); [contradiction | now rewrite IH].
Qed.

Lemma etl_attribute_loop (c : Caches) (idxs : list Z) (v0 : pyval) (cf : dict) :
  for_each (map PInt idxs)
    (fun a course_format =>
       t <- getitem (encode_caches c) (PStr "attributes") ;;
       v <- getitem t a ;;
       Ok (dict_set "attributes" v course_format))
    (dict_set "attributes" v0 cf) =
  (labels <- mapM (list_getitem (attributes c)) idxs ;;
   Ok (dict_set "attributes"
         (match rev labels with [] => v0 | x :: _ => PStr x end) cf)).
Proof.
  revert v0; induction idxs as [|z r IH]; intros v0; cbn [for_each map mapM];
    [reflexivity|].
  rewrite caches_attributes; cbn [bind]. rewrite getitem_table.
  destruct (list_getitem (attributes c) z) as [x|e]; cbn [bind]; [|reflexivity].
  rewrite dict_set_twice, IH.
  destruct (mapM (list_getitem (attributes c)) r) as [labels|e]; simpl; [|reflexivity].
  destruct (rev labels) as [|y t] eqn:E; simpl; reflexivity.
Qed.

Lemma gt_attribute_map (c : Caches) (idxs : list Z) :
  mapM (fun a => t <- getitem (encode_caches c) (PStr "attributes") ;; getitem t a)
       (map PInt idxs) =
  (labels <- mapM (list_getitem (attributes c)) idxs ;; Ok (map PStr labels)).
Proof.
  induction idxs as [|z r IH]; cbn [map mapM]; [reflexivity|].
  rewrite caches_attributes in IH |- *; cbn [bind] in IH |- *.
  rewrite getitem_table.
  destruct (list_getitem (attributes c) z) as [x|e]; cbn [bind]; [|reflexivity].
  rewrite IH.
  destruct (mapM (list_getitem (attributes c)) r); reflexivity.
Qed.

Lemma dict_getitem_set k v d : dict_getitem (dict_set k v d) k = Ok v.
Proof.
  unfold dict_getitem.
  induction d as [|[k' w] r IH]; simpl.
  - now rewrite String.eqb_refl.
  - destruct (String.eqb_spec k k') as [->|N]; simpl.
    + now rewrite String.eqb_refl.
    + destruct (String.eqb_spec k k'); [contradiction | exact IH].
Qed.

Ltac tuple_step :=
  first [ rewrite getitem_0 | rewrite getitem_1 | rewrite getitem_2
        | rewrite getitem_3 | rewrite getitem_4 | rewrite getitem_5 ];
  cbn [nth_error bind].

Ltac cache_step :=
  first [ rewrite caches_periods | rewrite caches_locations
        | rewrite caches_dateRanges | rewrite caches_scheduleTypes
        | rewrite caches_campuses ];
  cbn [bind].

Lemma list_getitem_Raise {A : Type} (l : list A) (z : Z) (e : exn) :
  list_getitem l z = Raise e -> e = IndexError.
Proof.
  unfold list_getitem. destruct (list_lookup l z); congruence.
Qed.

Ltac lookup_cases :=
  repeat match goal with
         | |- context [list_getitem ?t ?z] =>
             let E := fresh "E" in
             destruct (list_getitem t z) eqn:E;
             [ clear E | apply list_getitem_Raise in E; subst ];
             cbn [bind]; try reflexivity
         end.

Ltac run_body :=
  repeat (first [ tuple_step | cache_step | rewrite getitem_table
                | rewrite getitem_locations ]);
  cbn [bind].

Lemma etl_section_format (c : Caches) (courses sections : pyval)
  (i dn l : string) (rest : list pyval) (s : SectionRecord) (k : nat) :
  getitem courses (PStr i) = Ok (PList (PStr dn :: rest)) ->
  getitem sections (PStr l) = Ok (PList (firstn k (section_tuple s))) ->
  Etl.section_format (encode_caches c) courses (PStr i) sections (PStr l) =
  if (k <? 6)%nat then Raise IndexError
  else flat_record attributes_etl c i dn l s.
Proof.
  intros Hc Hs. unfold Etl.section_format, flat_record.
  rewrite Hs, Hc; cbn [bind].
  destruct k as [|[|[|[|[|[|k]]]]]]; cbn [firstn section_tuple Nat.ltb Nat.leb];
    run_body; try reflexivity;
    (destruct (meetings s) as [|m ms];
     cbn [map truthy meeting_fields bind]; unfold meeting_tuple;
     run_body; lookup_cases; try reflexivity).
  all: rewrite dict_getitem_set; cbn [bind py_iter];
    rewrite etl_attribute_loop;
    destruct (mapM (list_getitem (attributes c)) (attributeIdxs s))
      as [labels|e] eqn:EM;
    cbn [bind]; [|reflexivity];
    apply mapM_length in EM; unfold attributes_etl;
    destruct (attributeIdxs s) as [|z zs], labels as [|y ys];
    try discriminate EM; [reflexivity|];
    destruct (rev (y :: ys)) eqn:ER;
    [ apply (f_equal (@List.length _)) in ER; rewrite length_rev in ER;
      discriminate ER
    | reflexivity ].
Qed.

Lemma gt_section_format (c : Caches) (courses sections : pyval)
  (i dn l : string) (rest : list pyval) (s : SectionRecord) (k : nat) :
  getitem courses (PStr i) = Ok (PList (PStr dn :: rest)) ->
  getitem sections (PStr l) = Ok (PList (firstn k (section_tuple s))) ->
  GtClassEtl.section_format (encode_caches c) courses (PStr i) sections (PStr l) =
  if (k <? 6)%nat then Raise IndexError
  else flat_record attributes_gt c i dn l s.
Proof.
  intros Hc Hs. unfold GtClassEtl.section_format, flat_record.
  rewrite Hs, Hc; cbn [bind].
  destruct k as [|[|[|[|[|[|k]]]]]]; cbn [firstn section_tuple Nat.ltb Nat.leb];
    run_body; try reflexivity;
    (destruct (meetings s) as [|m ms];
     cbn [map truthy meeting_fields bind]; unfold meeting_tuple;
     run_body; lookup_cases; try reflexivity).
  all: destruct (attributeIdxs s) as [|z zs]; [reflexivity|];
    cbn [map]; run_body; cbn [py_iter bind];
    change (PInt z :: map PInt zs) with (map PInt (z :: zs));
    rewrite gt_attribute_map;
    destruct (mapM (list_getitem (attributes c)) (z :: zs))
      as [labels|e] eqn:EM;
    cbn [bind]; [|reflexivity];
    apply mapM_length in EM;
    destruct labels as [|y ys]; [discriminate EM | reflexivity].
Qed.

(* ================================================================= *)
(** ** The flatteners on a typed document *)

Lemma getitem_encode_caches ca sa d :
  getitem (encode_at ca sa d) (PStr "caches") = Ok (encode_caches (caches d)).
Proof. reflexivity. Qed.

Lemma getitem_encode_courses ca sa d :
  getitem (encode_at ca sa d) (PStr "courses") =
  Ok (PDict (encode_courses ca sa (courses d))).
Proof. reflexivity. Qed.

Lemma py_iter_encoded {X : Type} (key : X -> string) (enc : X -> pyval) (xs : list X) :
  py_iter (PDict (map (fun y => (key y, enc y)) xs)) =
  Ok (map (fun y => PStr (key y)) xs).
Proof.
  unfold py_iter. now rewrite map_map.
Qed.

Section Flatten.

Variable attr : list string -> pyval.
Variable section_format : pyval -> pyval -> pyval -> pyval -> pyval -> result dict.
Hypothesis section_format_typed :
  forall c courses sections i dn l rest s k,
    getitem courses (PStr i) = Ok (PList (PStr dn :: rest)) ->
    getitem sections (PStr l) = Ok (PList (firstn k (section_tuple s))) ->
    section_format (encode_caches c) courses (PStr i) sections (PStr l) =
    if (k <? 6)%nat then Raise IndexError else flat_record attr c i dn l s.

Variable flatten : pyval -> result (list dict).
Hypothesis flatten_unfold : forall json,
  flatten json =
  (caches <- getitem json (PStr "caches") ;;
   courses <- getitem json (PStr "courses") ;;
   ks <- py_iter courses ;;
   for_each ks (fun i course_list =>
     c <- getitem courses i ;;
     sections <- getitem c (PInt 1) ;;
     ls <- py_iter sections ;;
     for_each ls (fun l course_list =>
       course_format <- section_format caches courses i sections l ;;
       Ok (course_list ++ [course_format])) course_list) []).

Lemma flatten_loop_typed ca sa d :
  distinct_keys d ->
  flatten (encode_at ca sa d) = flatten_typed attr ca sa d.
Proof.
  intros [Hnd Hsec]. rewrite flatten_unfold. unfold flatten_typed.
  rewrite getitem_encode_caches, getitem_encode_courses; cbn [bind].
  unfold encode_courses at 1. rewrite py_iter_encoded; cbn [bind].
  rewrite (for_each_append (fun ic => PStr (fst ic))
             (flatten_course attr (caches d) ca sa)); [reflexivity|].
  intros [i c] acc Hin. cbn [fst snd].
  assert (Hget : getitem (PDict (encode_courses ca sa (courses d))) (PStr i) =
                 Ok (PList (firstn (ca i) (course_tuple sa i c)))).
  { unfold getitem, encode_courses.
    pose proof (dict_get_map fst (fun ic => PList (firstn (ca (fst ic))
                  (course_tuple sa (fst ic) (snd ic)))) (courses d) (i, c) Hnd Hin)
      as E.
    cbn [fst snd] in E. rewrite E. reflexivity. }
  rewrite Hget; cbn [bind]. unfold flatten_course; cbn [fst snd].
  rewrite getitem_1. unfold course_tuple in *.
  destruct (ca i) as [|[|n]]; cbn [firstn nth_error bind Nat.ltb Nat.leb];
    try reflexivity.
  unfold encode_sections at 1. rewrite py_iter_encoded; cbn [bind].
  rewrite (for_each_append (fun ls => PStr (fst ls))
             (fun ls => y <- flatten_section attr (caches d) (sa i) i (displayName c) ls ;;
                        Ok [y])).
  - assert (E : forall (f : string * SectionRecord -> result dict) xs,
               mapM (fun x => y <- f x ;; Ok [y]) xs =
               (r <- mapM f xs ;; Ok (map (fun y => [y]) r))).
    { intros f xs; induction xs as [|x r IH]; simpl; [reflexivity|].
      destruct (f x); simpl; [|reflexivity]. rewrite IH.
      destruct (mapM f r); reflexivity. }
    rewrite E.
    destruct (mapM _ (sections c)) as [r|e]; cbn [bind]; [|reflexivity].
    f_equal. f_equal. induction r as [|y r IH]; simpl; congruence.
  - intros [l s] acc' Hin'. cbn [fst snd].
    rewrite Forall_forall in Hsec. specialize (Hsec _ Hin); cbn [snd] in Hsec.
    erewrite (section_format_typed (caches d) _ _ i (displayName c) l _ s (sa i l)).
    + unfold flatten_section; cbn [fst snd].
      destruct (sa i l <? 6)%nat; [reflexivity|].
      destruct (flat_record attr (caches d) i (displayName c) l s); reflexivity.
    + rewrite Hget. cbn [firstn]. reflexivity.
    + unfold getitem, encode_sections.
      pose proof (dict_get_map fst (fun ls => PList (firstn (sa i (fst ls))
                    (section_tuple (snd ls)))) (sections c) (l, s) Hsec Hin')
        as E.
      cbn [fst snd] in E. rewrite E. reflexivity.
Qed.

End Flatten.

Lemma etl_flatten_typed ca sa d :
  distinct_keys d ->
  Etl.transform_json_to_list (encode_at ca sa d) = flatten_typed attributes_etl ca sa d.
Proof.
  exact (flatten_loop_typed attributes_etl Etl.section_format etl_section_format
           Etl.transform_json_to_list (fun _ => eq_refl) ca sa d).
Qed.

Lemma gt_flatten_typed ca sa d :
  distinct_keys d ->
  GtClassEtl.transform_json_to_list (encode_at ca sa d) =
  flatten_typed attributes_gt ca sa d.
Proof.
  exact (flatten_loop_typed attributes_gt GtClassEtl.section_format
           gt_section_format GtClassEtl.transform_json_to_list
           (fun _ => eq_refl) ca sa d).
Qed.

(** On a document of the right shape the two loops are one comprehension
    over the (course, section) pairs. *)
Lemma flatten_typed_sections attr d :
  flatten_typed attr (fun _ => 2%nat) (fun _ _ => 6%nat) d =
  mapM (fun x => flat_record attr (caches d) (fst (fst (fst x))) (snd (fst (fst x)))
                   (snd (fst x)) (snd x))
       (doc_sections d).
Proof.
  unfold flatten_typed, doc_sections.
  rewrite <- (mapM_flat_map
                (fun x => flat_record attr (caches d) (fst (fst (fst x)))
                            (snd (fst (fst x))) (snd (fst x)) (snd x))).
  f_equal. apply mapM_ext_in. intros [i c] _.
  unfold flatten_course; cbn [fst snd Nat.ltb Nat.leb].
  induction (sections c) as [|[l s] r IH]; cbn [mapM map]; [reflexivity|].
  unfold flatten_section at 1; cbn [fst snd Nat.ltb Nat.leb].
  now rewrite IH.
Qed.

(* ================================================================= *)
(** ** The record of one section *)

Lemma list_getitem_in_range {A : Type} (l : list A) (z : Z) :
  in_range l z = true <-> exists v, list_getitem l z = Ok v.
Proof.
  unfold in_range, list_getitem. destruct (list_lookup l z); split;
    intros H; eauto; try discriminate. destruct H; discriminate.
Qed.

Lemma mapM_lookup_Raise {A : Type} (l : list A) (zs : list Z) (e : exn) :
  mapM (list_getitem l) zs = Raise e -> e = IndexError.
Proof.
  intros H. apply mapM_Raise_inv in H as (z & _ & H).
  eapply list_getitem_Raise; eassumption.
Qed.

Lemma mapM_lookup_ok {A : Type} (l : list A) (zs : list Z) :
  forallb (in_range l) zs = true <-> exists vs, mapM (list_getitem l) zs = Ok vs.
Proof.
  induction zs as [|z r IH]; cbn [forallb mapM].
  - split; eauto.
  - rewrite andb_true_iff, list_getitem_in_range, IH. split.
    + intros ((v & Hv) & (vs & Hvs)). rewrite Hv, Hvs. cbn. eauto.
    + intros (vs & H). apply bind_Ok_inv in H as (v & Hv & H).
      apply bind_Ok_inv in H as (vs' & Hvs & _). eauto.
Qed.

Lemma meeting_fields_Raise c ms e :
  meeting_fields c ms = Raise e -> e = IndexError.
Proof.
  destruct ms as [|m ms]; cbn [meeting_fields]; [discriminate|].
  destruct (list_getitem (periods c) _) eqn:E1; cbn [bind];
    [|intros H; injection H as <-; eapply list_getitem_Raise; eassumption].
  destruct (list_getitem (locations c) _) eqn:E2; cbn [bind];
    [|intros H; injection H as <-; eapply list_getitem_Raise; eassumption].
  destruct (list_getitem (dateRanges c) _) eqn:E3; cbn [bind];
    [discriminate
    |intros H; injection H as <-; eapply list_getitem_Raise; eassumption].
Qed.

Lemma flat_record_Raise attr c i dn l s e :
  flat_record attr c i dn l s = Raise e -> e = IndexError.
Proof.
  unfold flat_record.
  destruct (meeting_fields c (meetings s)) eqn:E0; cbn [bind];
    [|intros H; injection H as <-; eapply meeting_fields_Raise; eassumption].
  destruct (list_getitem (scheduleTypes c) _) eqn:E1; cbn [bind];
    [|intros H; injection H as <-; eapply list_getitem_Raise; eassumption].
  destruct (list_getitem (campuses c) _) eqn:E2; cbn [bind];
    [|intros H; injection H as <-; eapply list_getitem_Raise; eassumption].
  destruct (mapM _ (attributeIdxs s)) eqn:E3; cbn [bind];
    [discriminate
    |intros H; injection H as <-; eapply mapM_lookup_Raise; eassumption].
Qed.

(** What a section's record holds, when there is one. *)
Lemma flat_record_inv attr c i dn l s r :
  flat_record attr c i dn l s = Ok r ->
  exists mf st cp labels,
    meeting_fields c (meetings s) = Ok mf /\
    list_getitem (scheduleTypes c) (scheduleTypeIdx s) = Ok st /\
    list_getitem (campuses c) (campusIdx s) = Ok cp /\
    mapM (list_getitem (attributes c)) (attributeIdxs s) = Ok labels /\
    r = [ ("crn", PStr (crn s)); ("name", PStr i);
          ("actual_name", PStr dn); ("section", PStr l) ]
        ++ mf
        ++ [ ("credits", credits s); ("schedule_type", PStr st);
             ("campus", PStr cp); ("attributes", attr labels) ].
Proof.
  unfold flat_record. intros H.
  apply bind_Ok_inv in H as (mf & E0 & H).
  apply bind_Ok_inv in H as (st & E1 & H).
  apply bind_Ok_inv in H as (cp & E2 & H).
  apply bind_Ok_inv in H as (labels & E3 & H).
  injection H as <-. exists mf, st, cp, labels. auto.
Qed.

Lemma meeting_fields_inv c ms mf :
  meeting_fields c ms = Ok mf ->
  (ms = [] /\ mf = []) \/
  (exists m ms' t loc dr,
     ms = m :: ms' /\
     list_getitem (periods c) (periodIdx m) = Ok t /\
     list_getitem (locations c) (locationIdx m) = Ok loc /\
     list_getitem (dateRanges c) (dateRangeIdx m) = Ok dr /\
     mf = [ ("time", PStr t); ("day_of_week", PStr (dayCodes m));
            ("building", PStr (buildingRaw m)); ("building_coords", loc);
            ("professors", PList (map PStr (professors m)));
            ("date_range", PStr dr) ]).
Proof.
  destruct ms as [|m ms']; cbn [meeting_fields]; intros H.
  - left. injection H as <-. auto.
  - right. apply bind_Ok_inv in H as (t & E1 & H).
    apply bind_Ok_inv in H as (loc & E2 & H).
    apply bind_Ok_inv in H as (dr & E3 & H).
    injection H as <-. exists m, ms', t, loc, dr. auto.
Qed.

Lemma flat_record_ok attr c i dn l s :
  section_ok c s = true <-> exists r, flat_record attr c i dn l s = Ok r.
Proof.
  unfold section_ok, flat_record. rewrite !andb_true_iff.
  rewrite mapM_lookup_ok, !list_getitem_in_range. split.
  - intros (((Hm & (st & Hst)) & (cp & Hcp)) & (labels & Hl)).
    assert (exists mf, meeting_fields c (meetings s) = Ok mf) as (mf & Hmf).
    { destruct (meetings s) as [|m ms]; cbn [meeting_fields]; [eauto|].
      rewrite !andb_true_iff, !list_getitem_in_range in Hm.
      destruct Hm as (((t & Ht) & (loc & Hloc)) & (dr & Hdr)).
      rewrite Ht, Hloc, Hdr. cbn. eauto. }
    rewrite Hmf, Hst, Hcp, Hl. cbn. eauto.
  - intros (r & H).
    apply bind_Ok_inv in H as (mf & E0 & H).
    apply bind_Ok_inv in H as (st & E1 & H).
    apply bind_Ok_inv in H as (cp & E2 & H).
    apply bind_Ok_inv in H as (labels & E3 & H).
    split; [split; [split|]|]; eauto.
    destruct (meetings s) as [|m ms]; [reflexivity|].
    apply meeting_fields_inv in E0 as [[? _]|(m' & ms' & t & loc & dr & E & Ht & Hloc & Hdr & _)];
      [discriminate|]. injection E as <- <-.
    rewrite !andb_true_iff, !list_getitem_in_range. repeat split; eauto.
Qed.

(** The exception of a malformed document is always [IndexError]. *)
Lemma flatten_section_Raise attr c n i dn ls e :
  flatten_section attr c n i dn ls = Raise e -> e = IndexError.
Proof.
  unfold flatten_section. destruct (n (fst ls) <? 6)%nat.
  - now intros H; injection H as <-.
  - apply flat_record_Raise.
Qed.

Lemma flatten_course_Raise attr c ca sa ic e :
  flatten_course attr c ca sa ic = Raise e -> e = IndexError.
Proof.
  unfold flatten_course. destruct (ca (fst ic) <? 2)%nat.
  - now intros H; injection H as <-.
  - intros H. apply mapM_Raise_inv in H as (ls & _ & H).
    eapply flatten_section_Raise; eassumption.
Qed.

Lemma flatten_typed_malformed attr ca sa d i l :
  malformed_at ca sa d i l -> flatten_typed attr ca sa d = Raise IndexError.
Proof.
  intros (c & Hc & Hbad). unfold flatten_typed.
  rewrite (mapM_Raise_all _ _ IndexError); [reflexivity | | ].
  - intros x e' _. apply flatten_course_Raise.
  - assert (exists e', flatten_course attr (caches d) ca sa (i, c) = Raise e')
      as (e' & He'); [|eauto].
    unfold flatten_course; cbn [fst snd].
    destruct (Nat.ltb_spec (ca i) 2) as [_|Hca]; [eauto|].
    destruct Hbad as [Hlt|(s & Hs & Hbad)]; [lia|].
    exists IndexError. apply mapM_Raise_all.
    + intros x e' _. apply flatten_section_Raise.
    + assert (exists e', flatten_section attr (caches d) (sa i) i (displayName c) (l, s)
                         = Raise e') as (e' & He'); [|eauto].
      unfold flatten_section; cbn [fst snd].
      destruct (Nat.ltb_spec (sa i l) 6) as [_|Hsa]; [eauto|].
      destruct Hbad as [Hlt|Hbad]; [lia|].
      destruct (flat_record attr (caches d) i (displayName c) l s) as [r|e'] eqn:E;
        [|eauto].
      assert (section_ok (caches d) s = true) by (eapply flat_record_ok; eauto).
      congruence.
Qed.

(* ================================================================= *)
(** ** Columns of a frame *)

Lemma getcol_putcol c c' s cols :
  getcol c (putcol c' s cols) = if String.eqb c c' then Some s else getcol c cols.
Proof.
  induction cols as [|[k w] r IH]; simpl.
  - destruct (String.eqb c c'); reflexivity.
  - destruct (String.eqb_spec c' k) as [->|N]; simpl.
    + destruct (String.eqb c k); reflexivity.
    + rewrite IH. destruct (String.eqb_spec c k) as [->|N'].
      * destruct (String.eqb_spec k c'); [congruence | reflexivity].
      * reflexivity.
Qed.

Lemma getcol_drop c labels cols :
  getcol c (filter (fun cs => negb (mem (fst cs) labels)) cols) =
  if mem c labels then None else getcol c cols.
Proof.
  induction cols as [|[k w] r IH]; simpl.
  - destruct (mem c labels); reflexivity.
  - destruct (mem k labels) eqn:Hk; simpl.
    + rewrite IH. destruct (String.eqb_spec c k) as [->|N]; [|reflexivity].
      now rewrite Hk.
    + destruct (String.eqb_spec c k) as [->|N]; [now rewrite Hk | exact IH].
Qed.

Lemma getcol_select c (mask : list bool) cols :
  getcol c (map (fun cs => (fst cs, select mask (snd cs))) cols) =
  option_map (select mask) (getcol c cols).
Proof.
  induction cols as [|[k w] r IH]; simpl; [reflexivity|].
  destruct (String.eqb c k); [reflexivity | exact IH].
Qed.

Lemma mem_fst_getcol c cols :
  mem c (map fst cols) = match getcol c cols with Some _ => true | None => false end.
Proof.
  unfold mem. induction cols as [|[k w] r IH]; simpl; [reflexivity|].
  destruct (String.eqb c k); [reflexivity | exact IH].
Qed.

Lemma getcol_tabulate c (f : string -> Series) (keys : list string) :
  getcol c (map (fun k => (k, f k)) keys) = if mem c keys then Some (f c) else None.
Proof.
  unfold mem. induction keys as [|k r IH]; simpl; [reflexivity|].
  destruct (String.eqb_spec c k) as [->|N]; [reflexivity | exact IH].
Qed.

Lemma mem_In c l : mem c l = true <-> In c l.
Proof.
  unfold mem. rewrite existsb_exists. split.
  - intros (x & Hx & E). apply String.eqb_eq in E. now subst.
  - intros H. exists c. split; [assumption | apply String.eqb_refl].
Qed.

Lemma In_dedup c seen l : In c (dedup seen l) <-> In c l /\ ~ In c seen.
Proof.
  revert seen; induction l as [|k r IH]; intros seen; simpl.
  - tauto.
  - destruct (mem k seen) eqn:Hk.
    + rewrite IH. apply mem_In in Hk. split.
      * intros [? ?]; tauto.
      * intros [[->|?] ?]; tauto.
    + assert (Hk' : ~ In k seen) by (rewrite <- mem_In; congruence).
      simpl. rewrite IH. simpl. split.
      * intros [->|[? ?]]; tauto.
      * intros [[->|?] ?]; [tauto|].
        destruct (string_dec k c) as [->|N]; tauto.
Qed.

Lemma has_key_In k (d : dict) : has_key k d = true <-> In k (map fst d).
Proof.
  unfold has_key. induction d as [|[k' v] r IH]; simpl.
  - split; [discriminate | tauto].
  - destruct (String.eqb_spec k k') as [->|N]; [tauto|].
    rewrite IH. split; [tauto | intros [?|?]; [congruence | assumption]].
Qed.

(** A column exists exactly when some record has the key. *)
Lemma mem_all_keys c (rows : list dict) :
  mem c (all_keys rows) = existsb (has_key c) rows.
Proof.
  apply eq_true_iff_eq. rewrite mem_In. unfold all_keys. rewrite In_dedup.
  rewrite existsb_exists, in_concat. split.
  - intros [(l & Hl & Hc) _]. apply in_map_iff in Hl as (d & <- & Hd).
    exists d. split; [assumption | now apply has_key_In].
  - intros (d & Hd & Hk). split; [|tauto].
    exists (map fst d). split; [now apply in_map | now apply has_key_In].
Qed.

Lemma getcol_pd c (rows : list dict) :
  getcol c (columns (pd_DataFrame rows)) =
  if existsb (has_key c) rows then Some (map (cell_of c) rows) else None.
Proof.
  unfold pd_DataFrame; cbn [columns].
  rewrite (getcol_tabulate c (fun k => map (cell_of k) rows)).
  now rewrite mem_all_keys.
Qed.

(* ================================================================= *)
(** ** Masks and row selection *)

Lemma zip_and_map {X : Type} (g1 g2 : X -> bool) (xs : list X) :
  zip_with andb (zip_with andb (repeat true (List.length xs)) (map g1 xs)) (map g2 xs) =
  map (fun x => g1 x && g2 x) xs.
Proof.
  induction xs as [|x r IH]; simpl; [reflexivity | now rewrite IH].
Qed.

Lemma zip_or_map {X : Type} (g1 g2 : X -> bool) (xs : list X) :
  zip_with orb (zip_with orb (repeat false (List.length xs)) (map g1 xs)) (map g2 xs) =
  map (fun x => g1 x || g2 x) xs.
Proof.
  induction xs as [|x r IH]; simpl; [reflexivity | now rewrite IH].
Qed.

Lemma select_In {A : Type} (mask : list bool) (l : list A) (x : A) :
  In x (select mask l) -> In x l.
Proof.
  revert mask; induction l as [|y r IH]; intros [|b m]; simpl; try tauto.
  destruct b; simpl; intros H; [destruct H|]; eauto.
Qed.

Lemma mem_nat_In k l : mem_nat k l = true <-> In k l.
Proof.
  unfold mem_nat. rewrite existsb_exists. split.
  - intros (x & Hx & E). apply Nat.eqb_eq in E. now subst.
  - intros H. exists k. split; [assumption | apply Nat.eqb_refl].
Qed.

(** Dropping the labels of the selected rows keeps the others: the
    labels of a frame are pairwise distinct. *)
Lemma drop_selected (mask : list bool) (idx : list nat) :
  NoDup idx -> List.length mask = List.length idx ->
  map (fun k => negb (mem_nat k (select mask idx))) idx = map negb mask.
Proof.
  revert mask; induction idx as [|a r IH]; intros [|b m] Hnd Hlen;
    simpl in *; try discriminate; [reflexivity|].
  inversion Hnd as [|? ? Ha Hr]; subst. injection Hlen as Hlen.
  f_equal.
  - destruct b; simpl; [now rewrite Nat.eqb_refl|].
    apply negb_true_iff, not_true_is_false. rewrite mem_nat_In.
    intros H; apply Ha. eapply select_In; eassumption.
  - rewrite <- (IH m Hr Hlen). apply map_ext_in. intros k Hk. f_equal.
    destruct b; simpl; [|reflexivity].
    destruct (Nat.eqb_spec k a) as [->|N]; [contradiction | reflexivity].
Qed.

Lemma forallb_selected (mask : list bool) (idx : list nat) :
  forallb (fun k => mem_nat k idx) (select mask idx) = true.
Proof.
  apply forallb_forall. intros k Hk. apply mem_nat_In.
  eapply select_In; eassumption.
Qed.

(** The entry of a surviving row, looked up by its label. *)
Lemma assoc_select {X : Type} (keep : X -> bool) (f : X -> cell) (xs : list X)
  (a k : nat) :
  assoc_nat (a + k)
    (combine (select (map keep xs) (seq a (List.length xs)))
             (select (map keep xs) (map f xs))) =
  match nth_error xs k with
  | Some x => if keep x then Some (f x) else None
  | None => None
  end.
Proof.
  assert (E : forall (b : nat) (l : list (nat * cell)),
             (forall p, In p l -> (S b <= fst p)%nat) -> assoc_nat b l = None).
  { intros b l; induction l as [|[k' v] l IHl]; intros Hl; cbn [assoc_nat];
      [reflexivity|].
    destruct (Nat.eqb_spec b k') as [->|N].
    - specialize (Hl _ (or_introl eq_refl)); cbn [fst] in Hl; lia.
    - apply IHl. intros; apply Hl; now right. }
  revert a k; induction xs as [|x r IH]; intros a k;
    cbn -[Nat.eqb Nat.add].
  - destruct k; reflexivity.
  - destruct k as [|k]; cbn -[Nat.eqb Nat.add].
    + rewrite Nat.add_0_r. destruct (keep x); cbn -[Nat.eqb Nat.add].
      * now rewrite Nat.eqb_refl.
      * apply E. intros [k' v] Hp. apply in_combine_l in Hp.
        apply select_In in Hp. apply in_seq in Hp. cbn [fst]; lia.
    + replace (a + S k)%nat with (S a + k)%nat by lia.
      destruct (keep x); cbn -[Nat.eqb Nat.add].
      * destruct (Nat.eqb_spec (S a + k) a); [lia | apply IH].
      * apply IH.
Qed.

Lemma select_length_index {X : Type} (keep : X -> bool) (xs : list X) (a : nat) :
  forall k, In k (select (map keep xs) (seq a (List.length xs))) <->
            exists x, nth_error xs (k - a) = Some x /\ keep x = true /\ (a <= k)%nat.
Proof.
  revert a; induction xs as [|x r IH]; intros a k; simpl.
  - split; [tauto | intros (x & H & _); destruct (k - a)%nat; discriminate].
  - assert (Hr : In k (select (map keep r) (seq (S a) (List.length r))) <->
                 exists y, nth_error (x :: r) (k - a) = Some y /\ keep y = true
                           /\ (S a <= k)%nat).
    { rewrite IH. split; intros (y & Hy & Hk & Hle); exists y.
      - replace (k - a)%nat with (S (k - S a)) by lia. simpl. auto.
      - replace (k - a)%nat with (S (k - S a)) in Hy by lia. simpl in Hy. auto. }
    destruct (keep x) eqn:Hx; simpl; rewrite Hr.
    + split.
      * intros [<-|(y & Hy & Hk & Hle)].
        -- exists x. rewrite Nat.sub_diag. auto.
        -- exists y. repeat split; auto; lia.
      * intros (y & Hy & Hk & Hle).
        destruct (Nat.eq_dec a k) as [->|N]; [now left|].
        right. exists y. repeat split; auto; lia.
    + split.
      * intros (y & Hy & Hk & Hle). exists y. repeat split; auto; lia.
      * intros (y & Hy & Hk & Hle).
        destruct (Nat.eq_dec a k) as [->|N].
        -- rewrite Nat.sub_diag in Hy. simpl in Hy. congruence.
        -- exists y. repeat split; auto; lia.
Qed.

Lemma drop_columns_inv labels df df' :
  drop_columns labels df = Ok df' ->
  forallb (fun l => mem l (map fst (columns df))) labels = true /\
  index df' = index df /\
  forall c, getcol c (columns df') =
            if mem c labels then None else getcol c (columns df).
Proof.
  unfold drop_columns.
  destruct (forallb _ labels); [|discriminate].
  intros H; injection H as <-. cbn [index columns].
  repeat split. intros c; apply getcol_drop.
Qed.

Lemma df_getitem_inv c df s :
  df_getitem c df = Ok s -> getcol c (columns df) = Some s.
Proof.
  unfold df_getitem. destruct (getcol c (columns df)); congruence.
Qed.

Lemma expand_two rows s1 s2 :
  expand rows = [s1; s2] ->
  width rows = 2%nat /\ s1 = map (part 0) rows /\ s2 = map (part 1) rows.
Proof.
  unfold expand. intros H.
  assert (W : width rows = 2%nat).
  { apply (f_equal (@List.length _)) in H.
    now rewrite length_map, length_seq in H. }
  rewrite W in H. cbn [seq map] in H. injection H as <- <-. auto.
Qed.

Lemma df_setitem_list_two k1 k2 value df df' :
  df_setitem_list [k1; k2] value df = Ok df' ->
  exists s1 s2, value = [s1; s2] /\
                df' = df_setitem k2 s2 (df_setitem k1 s1 df).
Proof.
  unfold df_setitem_list.
  destruct value as [|s1 [|s2 [|s3 r]]]; cbn; try discriminate.
  intros H; injection H as <-. eauto.
Qed.

Lemma apply_inv (s s' : Series) :
  apply transform_military_time s = Ok s' -> s' = map parsed s.
Proof.
  unfold apply. intros H. apply mapM_Ok_Forall2 in H.
  induction H as [|x y xs ys Hx _ IH]; cbn [map]; [reflexivity|].
  unfold parsed at 1. rewrite Hx. now f_equal.
Qed.

Lemma getcol_setitem c c' s df :
  getcol c (columns (df_setitem c' s df)) =
  if String.eqb c c' then Some s else getcol c (columns df).
Proof. apply getcol_putcol. Qed.

Lemma index_setitem c s df : index (df_setitem c s df) = index df.
Proof. reflexivity. Qed.

Ltac inv_bind H :=
  let x := fresh "x" in
  let E := fresh "E" in
  apply bind_Ok_inv in H as (x & E & H).

Lemma dropna_two k1 k2 df df' :
  dropna [k1; k2] df = Ok df' ->
  exists s1 s2,
    getcol k1 (columns df) = Some s1 /\ getcol k2 (columns df) = Some s2 /\
    df' = select_rows
            (zip_with andb
               (zip_with andb (repeat true (List.length (index df)))
                  (map (fun c => negb (isna c)) s1))
               (map (fun c => negb (isna c)) s2)) df.
Proof.
  unfold dropna, df_getitem; cbn [mapM].
  destruct (getcol k1 (columns df)) as [s1|]; cbn [bind]; [|discriminate].
  destruct (getcol k2 (columns df)) as [s2|]; cbn [bind]; [|discriminate].
  intros H; injection H as <-. eauto.
Qed.

Lemma select_map {X Y : Type} (f : X -> Y) (mask : list bool) (xs : list X) :
  select mask (map f xs) = map f (select mask xs).
Proof.
  revert mask; induction xs as [|x r IH]; intros [|b m]; cbn [select map];
    try reflexivity.
  destruct b; cbn [map]; now rewrite IH.
Qed.

Lemma mapM_select_Forall (f : cell -> result cell) (g : dict -> cell)
  (ds : list dict) (out : Series) :
  mapM f (select (map survives ds) (map g ds)) = Ok out ->
  Forall (fun d => survives d = true -> exists v, f (g d) = Ok v) ds.
Proof.
  revert out; induction ds as [|d r IH]; intros out; cbn [map select];
    [constructor|].
  destruct (survives d) eqn:Hd.
  - cbn [mapM]. intros H.
    apply bind_Ok_inv in H as (v & Hv & H).
    apply bind_Ok_inv in H as (vs & Hvs & _).
    constructor; [eauto | eapply IH; eassumption].
  - intros H. constructor; [intros Hs; congruence | eapply IH; eassumption].
Qed.

Lemma getcol_select_rows c mask df :
  getcol c (columns (select_rows mask df)) =
  option_map (select mask) (getcol c (columns df)).
Proof. apply getcol_select. Qed.

Lemma keep_mask (ds : list dict) :
  zip_with andb
    (zip_with andb (repeat true (List.length ds))
       (map (fun c => negb (isna c))
            (map (part 0) (str_split " - " (map (cell_of "time") ds)))))
    (map (fun c => negb (isna c))
         (map (part 1) (str_split " - " (map (cell_of "time") ds)))) =
  map survives ds.
Proof.
  unfold str_split. rewrite !map_map.
  exact (zip_and_map (fun d => negb (isna (raw_start_time d)))
                     (fun d => negb (isna (raw_end_time d))) ds).
Qed.

Lemma mem_columns_pd l (ds : list dict) :
  mem l (map fst (columns (pd_DataFrame ds))) = existsb (has_key l) ds.
Proof.
  rewrite mem_fst_getcol, getcol_pd. now destruct (existsb (has_key l) ds).
Qed.

Lemma str_split_cells k (ds : list dict) :
  str_split " - " (map (cell_of k) ds) = map (parts_of k) ds.
Proof. unfold str_split. now rewrite map_map. Qed.

Lemma Forall_and_inv {X : Type} (P Q R : X -> Prop) (xs : list X) :
  Forall (fun x => R x -> P x) xs -> Forall (fun x => R x -> Q x) xs ->
  Forall (fun x => R x -> P x /\ Q x) xs.
Proof.
  intros HP HQ. rewrite Forall_forall in *. intros x Hx Hr. split; auto.
Qed.

(** The series of the final frame, as functions of the records. *)
Lemma series_forms (ds : list dict) :
  (forall p, str_contains p false
               (select (map survives ds) (map (cell_of "day_of_week") ds)) =
             select (map survives ds) (map (day_flag p) ds)) /\
  str_extract (select (map survives ds) (map (cell_of "building") ds)) =
  select (map survives ds) (map building_of ds) /\
  map parsed (select (map survives ds)
                (map (part 0) (str_split " - " (map (cell_of "time") ds)))) =
  select (map survives ds) (map (fun d => parsed (raw_start_time d)) ds) /\
  map parsed (select (map survives ds)
                (map (part 1) (str_split " - " (map (cell_of "time") ds)))) =
  select (map survives ds) (map (fun d => parsed (raw_end_time d)) ds) /\
  (forall j, map (part j) (str_split " - " (map (cell_of "date_range") ds)) =
             map (fun d => part j (parts_of "date_range" d)) ds).
Proof.
  unfold str_contains, str_extract.
  rewrite !str_split_cells, !map_map, <- !select_map, !map_map.
  repeat split; intros; rewrite ?select_map, ?map_map; reflexivity.
Qed.

Lemma keep_mask_parts (ds : list dict) :
  zip_with andb
    (zip_with andb (repeat true (List.length ds))
       (map (fun c => negb (isna c)) (map (part 0) (map (parts_of "time") ds))))
    (map (fun c => negb (isna c)) (map (part 1) (map (parts_of "time") ds))) =
  map survives ds.
Proof. rewrite <- str_split_cells. apply keep_mask. Qed.

Ltac need_key E k :=
  match type of E with
  | context [existsb (has_key k) ?ds] =>
      first [ match goal with
              | K : existsb (has_key k) ds = true |- _ => rewrite K in E
              end
            | let K := fresh "K" in
              destruct (existsb (has_key k) ds) eqn:K; [|discriminate E] ]
  end.

Ltac eval_names E :=
  cbn [mem existsb String.eqb Ascii.eqb Bool.eqb orb option_map] in E.

Lemma any_isna_two k1 k2 df mask :
  any_isna [k1; k2] df = Ok mask ->
  exists s1 s2,
    getcol k1 (columns df) = Some s1 /\ getcol k2 (columns df) = Some s2 /\
    mask = zip_with orb
             (zip_with orb (repeat false (List.length (index df))) (map isna s1))
             (map isna s2).
Proof.
  unfold any_isna, df_getitem; cbn [mapM].
  destruct (getcol k1 (columns df)) as [s1|]; cbn [bind]; [|discriminate].
  destruct (getcol k2 (columns df)) as [s2|]; cbn [bind]; [|discriminate].
  intros H; injection H as <-. eauto.
Qed.

Lemma drop_rows_inv labels df df' :
  drop_rows labels df = Ok df' ->
  df' = select_rows (map (fun k => negb (mem_nat k labels)) (index df)) df.
Proof.
  unfold drop_rows. destruct (forallb _ labels); [|discriminate].
  now intros H; injection H as <-.
Qed.

(** On the frame of [transform], whose labels are [0 .. n-1], dropping the
    labels of the rows with a missing time is [dropna]. *)
Lemma etl_mask (ds : list dict) :
  map (fun k =>
         negb (mem_nat k
           (select
              (zip_with orb
                 (zip_with orb (repeat false (List.length ds))
                    (map isna (map (part 0) (map (parts_of "time") ds))))
                 (map isna (map (part 1) (map (parts_of "time") ds))))
              (seq 0 (List.length ds)))))
      (seq 0 (List.length ds)) =
  map survives ds.
Proof.
  rewrite !map_map.
  rewrite (zip_or_map (fun d => isna (part 0 (parts_of "time" d)))
                      (fun d => isna (part 1 (parts_of "time" d))) ds).
  rewrite drop_selected.
  - rewrite map_map. apply map_ext. intros d. apply negb_orb.
  - apply seq_NoDup.
  - now rewrite length_map, length_seq.
Qed.

(** Inversion of the next statement of the program in [H]. *)
Ltac inv_drop H P I C :=
  let x := fresh "x" in
  let E := fresh "E" in
  apply bind_Ok_inv in H as (x & E & H);
  apply drop_columns_inv in E as (P & I & C).

Ltac inv_get H chain k :=
  let x := fresh "s" in
  let E := fresh "E" in
  apply bind_Ok_inv in H as (x & E & H);
  apply df_getitem_inv in E; chain E; eval_names E;
  try need_key E k; cbn [option_map] in E; injection E as <-.

Ltac inv_set2 H W :=
  let x := fresh "x" in
  let E := fresh "E" in
  let a1 := fresh "a" in
  let a2 := fresh "a" in
  apply bind_Ok_inv in H as (x & E & H);
  apply df_setitem_list_two in E as (a1 & a2 & E & ->);
  apply expand_two in E as (W & -> & ->).

Ltac inv_apply H T :=
  let x := fresh "s" in
  let E := fresh "E" in
  apply bind_Ok_inv in H as (x & E & H);
  pose proof E as T; apply apply_inv in E as ->.

(** The statements up to the removal of [date_range] and [time]. *)
Ltac inv_head H P1 I1 C1 W1 W2 P2 I2 C2 :=
  inv_drop H P1 I1 C1;
  inv_get H ltac:(fun E => rewrite C1, getcol_pd in E) "date_range";
  inv_set2 H W1;
  inv_get H ltac:(fun E => rewrite !getcol_setitem, C1, getcol_pd in E) "time";
  inv_set2 H W2;
  inv_drop H P2 I2 C2;
  cbn [index df_setitem] in I2;
  rewrite str_split_cells in *.

(** The statements after the rows without a time were dropped. *)
Ltac inv_tail H C1 C2 T1 T2 P3 I3 C3 :=
  inv_get H ltac:(fun E => rewrite getcol_select_rows, C2, !getcol_setitem in E)
          "start_time";
  inv_apply H T1;
  inv_get H ltac:(fun E => rewrite !getcol_setitem, getcol_select_rows, C2,
                             !getcol_setitem in E) "end_time";
  inv_apply H T2;
  do 5 (inv_get H ltac:(fun E => rewrite !getcol_setitem, getcol_select_rows, C2,
                                   !getcol_setitem, C1, getcol_pd in E)
                "day_of_week");
  inv_drop H P3 I3 C3;
  inv_get H ltac:(fun E => rewrite C3, !getcol_setitem, getcol_select_rows, C2,
                             !getcol_setitem, C1, getcol_pd in E) "building";
  injection H as <-.

Ltac finish_inv ds P1 I1 C1 W1 W2 I2 C2 T1 T2 I3 C3 :=
  let c := fresh "c" in
  let F1 := fresh "F" in
  let F2 := fresh "F" in
  let F3 := fresh "F" in
  let F4 := fresh "F" in
  let F5 := fresh "F" in
  let Ka := fresh "K" in
  let Kb := fresh "K" in
  let Kc := fresh "K" in
  destruct (series_forms ds) as (F1 & F2 & F3 & F4 & F5);
  cbn [forallb] in P1; rewrite !mem_columns_pd in P1;
  apply andb_prop in P1 as (Ka & P1); apply andb_prop in P1 as (Kb & P1);
  apply andb_prop in P1 as (Kc & _);
  split; [split; [|split; [|split]]|split];
  [ repeat constructor; assumption
  | assumption
  | assumption
  | rewrite map_map in T1, T2;
    apply Forall_and_inv;
    [ exact (mapM_select_Forall _ raw_start_time ds _ T1)
    | exact (mapM_select_Forall _ raw_end_time ds _ T2) ]
  | cbn [index df_setitem]; rewrite I3; cbn [index df_setitem select_rows];
    now rewrite I2, I1
  | intros c;
    rewrite getcol_setitem, C3, !getcol_setitem, getcol_select_rows, C2,
      !getcol_setitem, C1, getcol_pd;
    rewrite <- !str_split_cells;
    rewrite !F1, F2, F3, F4, !F5; unfold final_col; cbn [mem existsb];
    repeat match goal with
           | |- context [String.eqb c ?lit] =>
               destruct (String.eqb_spec c lit) as [->|?]; [reflexivity|]
           end;
    cbn [orb option_map];
    destruct (existsb (has_key c) ds); cbn [option_map];
    [now rewrite select_map | reflexivity] ].

Lemma gt_transform_inv (ds : list dict) (df : DataFrame) :
  GtClassEtl.transform ds = Ok df ->
  can_normalize ds /\ normalized "thursday" ds df.
Proof.
  unfold GtClassEtl.transform. intros H.
  inv_head H P1 I1 C1 W1 W2 P2 I2 C2.
  inv_bind H. apply dropna_two in E as (s1 & s2 & E1 & E2 & ->).
  rewrite C2, !getcol_setitem in E1, E2.
  eval_names E1. eval_names E2. injection E1 as <-. injection E2 as <-.
  rewrite I2, I1 in H. cbn [pd_DataFrame index] in H.
  rewrite length_seq, keep_mask_parts in H.
  inv_tail H C1 C2 T1 T2 P3 I3 C3.
  finish_inv ds P1 I1 C1 W1 W2 I2 C2 T1 T2 I3 C3.
Qed.

Lemma etl_transform_inv (ds : list dict) (df : DataFrame) :
  Etl.transform ds = Ok df ->
  can_normalize ds /\ normalized "thurday" ds df.
Proof.
  unfold Etl.transform. intros H.
  inv_head H P1 I1 C1 W1 W2 P2 I2 C2.
  inv_bind H. apply any_isna_two in E as (s1 & s2 & E1 & E2 & ->).
  rewrite C2, !getcol_setitem in E1, E2.
  eval_names E1. eval_names E2. injection E1 as <-. injection E2 as <-.
  inv_bind H. apply drop_rows_inv in E as ->.
  cbn [index select_rows] in H.
  rewrite I2, I1 in H. cbn [pd_DataFrame index] in H.
  rewrite length_seq, etl_mask in H.
  inv_tail H C1 C2 T1 T2 P3 I3 C3.
  finish_inv ds P1 I1 C1 W1 W2 I2 C2 T1 T2 I3 C3.
Qed.

(* ----------------------------------------------------------------- *)
(** *** The normalizer returns whenever its input allows it *)

Lemma drop_columns_ok labels df :
  Forall (fun l => exists s, getcol l (columns df) = Some s) labels ->
  exists df', drop_columns labels df = Ok df' /\
              index df' = index df /\
              forall c, getcol c (columns df') =
                        if mem c labels then None else getcol c (columns df).
Proof.
  intros H. unfold drop_columns.
  replace (forallb _ labels) with true.
  - eexists; split; [reflexivity|]. cbn [index columns].
    split; [reflexivity | intros c; apply getcol_drop].
  - symmetry. apply forallb_forall. intros l Hl.
    rewrite Forall_forall in H. destruct (H l Hl) as (s & Hs).
    now rewrite mem_fst_getcol, Hs.
Qed.

Lemma df_getitem_ok c df s :
  getcol c (columns df) = Some s -> df_getitem c df = Ok s.
Proof. unfold df_getitem. now intros ->. Qed.

Lemma expand_width_two rows :
  width rows = 2%nat -> expand rows = [map (part 0) rows; map (part 1) rows].
Proof. unfold expand. now intros ->. Qed.

Lemma df_setitem_list_ok k1 k2 s1 s2 df :
  df_setitem_list [k1; k2] [s1; s2] df =
  Ok (df_setitem k2 s2 (df_setitem k1 s1 df)).
Proof. reflexivity. Qed.

Lemma dropna_ok k1 k2 s1 s2 df :
  getcol k1 (columns df) = Some s1 -> getcol k2 (columns df) = Some s2 ->
  dropna [k1; k2] df =
  Ok (select_rows
        (zip_with andb
           (zip_with andb (repeat true (List.length (index df)))
              (map (fun c => negb (isna c)) s1))
           (map (fun c => negb (isna c)) s2)) df).
Proof.
  intros H1 H2. unfold dropna, df_getitem; cbn [mapM]. now rewrite H1, H2.
Qed.

Lemma apply_ok (g : dict -> cell) (ds : list dict) (s : Series) :
  s = map g ds ->
  Forall (fun d => survives d = true ->
                   exists v, transform_military_time (g d) = Ok v) ds ->
  apply transform_military_time (select (map survives ds) s) =
  Ok (map parsed (select (map survives ds) s)).
Proof.
  intros ->.
  unfold apply. induction 1 as [|d r Hd _ IH]; cbn [map select mapM];
    [reflexivity|].
  destruct (survives d); [|exact IH].
  destruct (Hd eq_refl) as (v & Hv). cbn [mapM map].
  unfold parsed at 1. rewrite Hv, IH. reflexivity.
Qed.

Ltac use_keys :=
  repeat match goal with
         | K : existsb (has_key ?k) ?ds = true
           |- context [existsb (has_key ?k) ?ds] => rewrite K
         end.

(** The next statement is [df[c]] and the column is there. *)
Ltac fwd_get chain :=
  match goal with
  | |- exists df, bind (df_getitem ?c ?f) _ = Ok df =>
      let G := fresh "G" in
      eassert (G : getcol c (columns f) = Some _);
      [ chain;
        cbn [mem existsb String.eqb Ascii.eqb Bool.eqb orb option_map];
        use_keys; cbn [option_map]; reflexivity
      | rewrite (df_getitem_ok _ _ _ G); cbn [bind]; clear G ]
  end.

Lemma any_isna_ok k1 k2 s1 s2 df :
  getcol k1 (columns df) = Some s1 -> getcol k2 (columns df) = Some s2 ->
  any_isna [k1; k2] df =
  Ok (zip_with orb
        (zip_with orb (repeat false (List.length (index df))) (map isna s1))
        (map isna s2)).
Proof.
  intros H1 H2. unfold any_isna, df_getitem; cbn [mapM]. now rewrite H1, H2.
Qed.

Lemma drop_rows_ok mask df :
  drop_rows (index (select_rows mask df)) df =
  Ok (select_rows
        (map (fun k => negb (mem_nat k (select mask (index df)))) (index df)) df).
Proof.
  unfold drop_rows. cbn [index select_rows]. now rewrite forallb_selected.
Qed.

Ltac fwd_drop I C :=
  match goal with
  | |- exists df, bind (drop_columns ?l ?f) _ = Ok df =>
      let x := fresh "x" in
      let E := fresh "E" in
      destruct (drop_columns_ok l f) as (x & E & I & C);
      [ | rewrite E; cbn [bind]; clear E ]
  end.

Ltac split_keys K :=
  repeat match goal with
         | H : Forall _ (_ :: _) |- _ => inversion H; subst; clear H
         end;
  match goal with H : Forall _ [] |- _ => clear H end.

Ltac has_cols :=
  cbn [mem existsb String.eqb Ascii.eqb Bool.eqb orb]; use_keys;
  cbn [option_map]; eauto.

Ltac fwd_head I1 C1 W1 W2 I2 C2 :=
  fwd_drop I1 C1;
  [ repeat constructor; rewrite getcol_pd; has_cols | ];
  fwd_get ltac:(rewrite C1, getcol_pd);
  rewrite str_split_cells, (expand_width_two _ W1), df_setitem_list_ok;
  cbn [bind];
  fwd_get ltac:(rewrite !getcol_setitem, C1, getcol_pd);
  rewrite str_split_cells, (expand_width_two _ W2), df_setitem_list_ok;
  cbn [bind];
  fwd_drop I2 C2;
  [ repeat constructor; rewrite !getcol_setitem, C1, getcol_pd; has_cols | ];
  cbn [index df_setitem] in I2.

Ltac fwd_tail ds C1 C2 T1 T2 I3 C3 :=
  fwd_get ltac:(rewrite getcol_select_rows, C2, !getcol_setitem);
  rewrite (apply_ok raw_start_time ds
             (map (part 0) (map (parts_of "time") ds)) (map_map _ _ _) T1);
  cbn [bind];
  fwd_get ltac:(rewrite !getcol_setitem, getcol_select_rows, C2, !getcol_setitem);
  rewrite (apply_ok raw_end_time ds
             (map (part 1) (map (parts_of "time") ds)) (map_map _ _ _) T2);
  cbn [bind];
  do 5 fwd_get ltac:(rewrite !getcol_setitem, getcol_select_rows, C2,
                       !getcol_setitem, C1, getcol_pd);
  fwd_drop I3 C3;
  [ repeat constructor;
    rewrite !getcol_setitem, getcol_select_rows, C2, !getcol_setitem, C1,
      getcol_pd; has_cols | ];
  fwd_get ltac:(rewrite C3, !getcol_setitem, getcol_select_rows, C2,
                  !getcol_setitem, C1, getcol_pd);
  eexists; reflexivity.

Lemma can_normalize_times (ds : list dict) :
  can_normalize ds ->
  Forall (fun d => survives d = true ->
            exists v, transform_military_time (raw_start_time d) = Ok v) ds /\
  Forall (fun d => survives d = true ->
            exists v, transform_military_time (raw_end_time d) = Ok v) ds.
Proof.
  intros (_ & _ & _ & T).
  split; (eapply Forall_impl; [|exact T]); intros d Hd Hs; apply (Hd Hs).
Qed.

Lemma gt_transform_ok (ds : list dict) :
  can_normalize ds -> exists df, GtClassEtl.transform ds = Ok df.
Proof.
  intros Hc. destruct (can_normalize_times ds Hc) as (T1 & T2).
  destruct Hc as (K & W1 & W2 & _). unfold GtClassEtl.transform.
  split_keys K.
  fwd_head I1 C1 W1 W2 I2 C2.
  erewrite dropna_ok;
    [ | rewrite C2, !getcol_setitem; reflexivity
      | rewrite C2, !getcol_setitem; reflexivity ].
  cbn [bind]. rewrite I2, I1. cbn [pd_DataFrame index].
  rewrite length_seq, keep_mask_parts.
  fwd_tail ds C1 C2 T1 T2 I3 C3.
Qed.

Lemma etl_transform_ok (ds : list dict) :
  can_normalize ds -> exists df, Etl.transform ds = Ok df.
Proof.
  intros Hc. destruct (can_normalize_times ds Hc) as (T1 & T2).
  destruct Hc as (K & W1 & W2 & _). unfold Etl.transform.
  split_keys K.
  fwd_head I1 C1 W1 W2 I2 C2.
  erewrite any_isna_ok;
    [ | rewrite C2, !getcol_setitem; reflexivity
      | rewrite C2, !getcol_setitem; reflexivity ].
  cbn [bind]. rewrite drop_rows_ok; cbn [bind].
  rewrite I2, I1. cbn [pd_DataFrame index].
  rewrite length_seq, etl_mask.
  fwd_tail ds C1 C2 T1 T2 I3 C3.
Qed.

(* ----------------------------------------------------------------- *)
(** *** The two normalizers raise the same exception *)

(** The next statement is the same in both programs: it raises in both,
    or returns the same value in both. *)
Ltac same_step H1 H2 E :=
  match type of H1 with
  | bind ?m _ = Raise _ =>
      destruct m eqn:E; cbn [bind] in H1, H2; [ | congruence ]
  end.

Ltac known_get H chain :=
  match type of H with
  | bind (df_getitem ?c ?f) _ = Raise _ =>
      let G := fresh "G" in
      eassert (G : getcol c (columns f) = Some _);
      [ chain;
        cbn [mem existsb String.eqb Ascii.eqb Bool.eqb orb option_map];
        use_keys; cbn [option_map]; reflexivity
      | rewrite (df_getitem_ok _ _ _ G) in H; cbn [bind] in H; clear G ]
  end.

Lemma transforms_raise_same (ds : list dict) (e1 e2 : exn) :
  Etl.transform ds = Raise e1 -> GtClassEtl.transform ds = Raise e2 -> e1 = e2.
Proof.
  unfold Etl.transform, GtClassEtl.transform. intros H1 H2.
  same_step H1 H2 E. apply drop_columns_inv in E as (P1 & I1 & C1).
  same_step H1 H2 E. apply df_getitem_inv in E. rewrite C1, getcol_pd in E.
  eval_names E. need_key E "date_range". injection E as <-.
  same_step H1 H2 E. apply df_setitem_list_two in E as (a1 & a2 & E & ->).
  apply expand_two in E as (W1 & -> & ->).
  same_step H1 H2 E. apply df_getitem_inv in E.
  rewrite !getcol_setitem, C1, getcol_pd in E.
  eval_names E. need_key E "time". injection E as <-.
  same_step H1 H2 E. apply df_setitem_list_two in E as (b1 & b2 & E & ->).
  apply expand_two in E as (W2 & -> & ->).
  same_step H1 H2 E. apply drop_columns_inv in E as (P2 & I2 & C2).
  cbn [index df_setitem] in I2. rewrite !str_split_cells in *.
  (* the rows without a time: [drop] of their labels, or [dropna] *)
  erewrite any_isna_ok in H1;
    [ | rewrite C2, !getcol_setitem; reflexivity
      | rewrite C2, !getcol_setitem; reflexivity ].
  cbn [bind] in H1. rewrite drop_rows_ok in H1; cbn [bind] in H1.
  erewrite dropna_ok in H2;
    [ | rewrite C2, !getcol_setitem; reflexivity
      | rewrite C2, !getcol_setitem; reflexivity ].
  cbn [bind] in H2.
  rewrite I2, I1 in H1, H2. cbn [pd_DataFrame index] in H1, H2.
  rewrite length_seq in H1, H2. rewrite etl_mask in H1. rewrite keep_mask_parts in H2.
  same_step H1 H2 E. apply df_getitem_inv in E.
  rewrite getcol_select_rows, C2, !getcol_setitem in E.
  eval_names E. injection E as <-.
  same_step H1 H2 E. apply apply_inv in E as ->.
  same_step H1 H2 E. apply df_getitem_inv in E.
  rewrite !getcol_setitem, getcol_select_rows, C2, !getcol_setitem in E.
  eval_names E. injection E as <-.
  same_step H1 H2 E. apply apply_inv in E as ->.
  same_step H1 H2 E. apply df_getitem_inv in E.
  rewrite !getcol_setitem, getcol_select_rows, C2, !getcol_setitem, C1,
    getcol_pd in E.
  eval_names E. need_key E "day_of_week". cbn [option_map] in E.
  injection E as <-.
  do 4 known_get H1 ltac:(rewrite !getcol_setitem, getcol_select_rows, C2,
                            !getcol_setitem, C1, getcol_pd).
  do 4 known_get H2 ltac:(rewrite !getcol_setitem, getcol_select_rows, C2,
                            !getcol_setitem, C1, getcol_pd).
  match type of H1 with
  | bind (drop_columns ?l ?f) _ = _ =>
      destruct (drop_columns_ok l f) as (y1 & E & J1 & D1)
  end.
  { repeat constructor.
    rewrite !getcol_setitem, getcol_select_rows, C2, !getcol_setitem, C1,
      getcol_pd. has_cols. }
  rewrite E in H1; cbn [bind] in H1; clear E.
  match type of H2 with
  | bind (drop_columns ?l ?f) _ = _ =>
      destruct (drop_columns_ok l f) as (y2 & E & J2 & D2)
  end.
  { repeat constructor.
    rewrite !getcol_setitem, getcol_select_rows, C2, !getcol_setitem, C1,
      getcol_pd. has_cols. }
  rewrite E in H2; cbn [bind] in H2; clear E.
  unfold df_getitem in H1, H2.
  rewrite D1, !getcol_setitem, getcol_select_rows, C2, !getcol_setitem, C1,
    getcol_pd in H1.
  rewrite D2, !getcol_setitem, getcol_select_rows, C2, !getcol_setitem, C1,
    getcol_pd in H2.
  cbn [mem existsb String.eqb Ascii.eqb Bool.eqb orb option_map] in H1, H2.
  destruct (existsb (has_key "building") ds); cbn [option_map bind] in H1, H2;
    congruence.
Qed.

(* ================================================================= *)
(** ** Splitting, parsing and matching *)

Lemma append_String_assoc (cur : string) (c : ascii) (r : string) :
  ((cur ++ String c "") ++ r)%string = (cur ++ String c r)%string.
Proof.
  induction cur as [|a cur IH]; cbn; [reflexivity | now rewrite IH].
Qed.

Lemma append_empty_r (s : string) : (s ++ "")%string = s.
Proof.
  induction s as [|a s IH]; cbn; [reflexivity | now rewrite IH].
Qed.

(** A string without the separator is its own single part. *)
Lemma split_go_no_sep (sep cur s : string) :
  occurs sep s = false -> split_go sep 0 cur s = [(cur ++ s)%string].
Proof.
  revert cur; induction s as [|c r IH]; intros cur H.
  - cbn. now rewrite append_empty_r.
  - cbn [occurs] in H. apply orb_false_elim in H as (Hp & Hr).
    cbn [split_go]. rewrite Hp, (IH _ Hr). now rewrite append_String_assoc.
Qed.

Lemma split_no_sep (sep s : string) :
  occurs sep s = false -> split sep s = [s].
Proof.
  intros H. unfold split. now rewrite (split_go_no_sep sep "" s H).
Qed.


(* ----------------------------------------------------------------- *)
(** *** The building pattern *)

Lemma word_then_digit_app (w : list ascii) (d : ascii) (rest : list ascii) :
  Forall (fun c => is_word c = true) w -> is_decimal d = true ->
  word_then_digit (w ++ d :: rest) = true.
Proof.
  intros Hw Hd. induction Hw as [|c w Hc _ IH]; cbn [app word_then_digit].
  - now rewrite Hd.
  - rewrite Hc, IH. apply orb_true_r.
Qed.

Lemma is_word_not_space c : is_word c = true -> (code c =? 32)%nat = false.
Proof.
  intros H. destruct (Nat.eqb_spec (code c) 32) as [E|]; [|reflexivity].
  unfold is_word, is_alpha, is_digit_char, is_decimal, between in H.
  rewrite E in H. discriminate H.
Qed.

Lemma is_decimal_is_word c : is_decimal c = true -> is_word c = true.
Proof.
  unfold is_word, is_digit_char. intros ->. now rewrite orb_true_r.
Qed.

Lemma room_at_head l : room_at l = true -> exists r, l = " "%char :: r.
Proof.
  destruct l as [|c [|w r]]; cbn [room_at]; try discriminate.
  intros H. apply andb_prop in H as (H & _). apply andb_prop in H as (H & _).
  apply Nat.eqb_eq in H. exists (w :: r). f_equal.
  rewrite <- (ascii_nat_embedding c). unfold code in H. now rewrite H.
Qed.

(** Without a space there is no match. *)
Lemma match_here_no_space l :
  Forall (fun c => (code c =? 32)%nat = false) l -> match_here l = None.
Proof.
  induction 1 as [|c l Hc _ IH]; cbn [match_here]; [reflexivity|].
  assert (R : room_at (c :: l) = false).
  { destruct l as [|w r]; cbn [room_at]; [reflexivity | now rewrite Hc]. }
  rewrite IH, R. now destruct (code c =? 10)%nat.
Qed.

(** A text on one line, a space and a trailing room token: the group is
    the text. *)
Lemma search_trailing_token (x w : list ascii) (d : ascii) :
  Forall (fun c => (code c =? 10)%nat = false) x ->
  w <> [] -> Forall (fun c => is_word c = true) w -> is_decimal d = true ->
  search_from (x ++ " "%char :: w ++ [d]) = Some x.
Proof.
  intros Hx Hne Hw Hd.
  assert (M : match_here (x ++ " "%char :: w ++ [d]) = Some x).
  { induction Hx as [|c x Hc _ IH]; cbn [app match_here].
    - change (code " " =? 10)%nat with false. cbv iota.
      rewrite match_here_no_space.
      + destruct w as [|w0 w']; [contradiction|].
        inversion Hw as [|? ? Hw0 Hw']; subst.
        cbn [app room_at]. change (code " " =? 32)%nat with true.
        now rewrite Hw0, (word_then_digit_app w' d [] Hw' Hd).
      + apply Forall_app. split.
        * eapply Forall_impl; [|exact Hw]. intros; now apply is_word_not_space.
        * constructor; [|constructor].
          now apply is_word_not_space, is_decimal_is_word.
    - now rewrite Hc, IH. }
  destruct x; cbn [app search_from] in *; now rewrite M.
Qed.

(** A match starts a room token somewhere. *)
Lemma match_here_room l g :
  match_here l = Some g -> exists suf, l = g ++ suf /\ room_at suf = true.
Proof.
  revert g; induction l as [|c r IH]; intros g; cbn [match_here]; [discriminate|].
  destruct (code c =? 10)%nat.
  - destruct (room_at (c :: r)) eqn:R; [|discriminate].
    intros H; injection H as <-. exists (c :: r). auto.
  - destruct (match_here r) as [g'|] eqn:M.
    + intros H; injection H as <-. destruct (IH g' eq_refl) as (suf & -> & R).
      exists suf. auto.
    + destruct (room_at (c :: r)) eqn:R; [|discriminate].
      intros H; injection H as <-. exists (c :: r). auto.
Qed.

Lemma match_here_at_room l : room_at l = true -> match_here l <> None.
Proof.
  intros R. destruct (room_at_head l R) as (r & ->). cbn [match_here].
  change (code " " =? 10)%nat with false. cbv iota.
  destruct (match_here r); [discriminate|]. rewrite R. discriminate.
Qed.

(** There is no match exactly when no position starts a room token. *)
Lemma search_from_None l :
  search_from l = None <->
  forall pre suf, l = pre ++ suf -> room_at suf = false.
Proof.
  induction l as [|c r IH].
  - cbn. split; [|reflexivity]. intros _ pre suf E.
    symmetry in E. apply app_eq_nil in E as (_ & ->). reflexivity.
  - cbn [search_from]. split.
    + destruct (match_here (c :: r)) eqn:M; [discriminate|].
      intros H pre suf E. destruct pre as [|p pre]; cbn [app] in E.
      * subst suf. apply not_true_is_false. intros R.
        now apply (match_here_at_room _ R).
      * injection E as _ E. now apply (proj1 IH H pre suf).
    + intros H. destruct (match_here (c :: r)) as [g|] eqn:M.
      * apply match_here_room in M as (suf & E & R).
        now rewrite (H g suf E) in R.
      * apply IH. intros pre suf E. apply (H (c :: pre) suf). now rewrite E.
Qed.

Lemma search_from_Some l g :
  search_from l = Some g ->
  exists pre suf, l = pre ++ g ++ suf /\ room_at suf = true.
Proof.
  induction l as [|c r IH]; cbn [search_from].
  - cbn [match_here]. discriminate.
  - destruct (match_here (c :: r)) as [g'|] eqn:M.
    + intros H; injection H as <-. apply match_here_room in M as (suf & E & R).
      exists [], suf. auto.
    + intros H. destruct (IH H) as (pre & suf & -> & R).
      exists (c :: pre), suf. auto.
Qed.

(* ================================================================= *)
(** ** The flatteners on a well-formed document *)

Lemma dict_get_app k (a b : dict) :
  dict_get k (a ++ b) =
  match dict_get k a with Some v => Some v | None => dict_get k b end.
Proof.
  induction a as [|[k' v] r IH]; cbn [app dict_get]; [reflexivity|].
  destruct (String.eqb k k'); [reflexivity | exact IH].
Qed.

(** Both flatteners return on a well-formed document, one record for
    each (course, section) pair. *)
Lemma flatten_well_formed attr (flatten : pyval -> result (list dict)) :
  (forall ca sa d, distinct_keys d ->
                   flatten (encode_at ca sa d) = flatten_typed attr ca sa d) ->
  forall d, well_formed d ->
  exists out,
    flatten (encode d) = Ok out /\
    Forall2 (fun x r => flat_record attr (caches d) (fst (fst (fst x)))
                          (snd (fst (fst x))) (snd (fst x)) (snd x) = Ok r)
            (doc_sections d) out.
Proof.
  intros Hspec d (Hk & Hok). unfold encode.
  rewrite (Hspec _ _ d Hk), flatten_typed_sections.
  assert (exists out, mapM (fun x => flat_record attr (caches d) (fst (fst (fst x)))
                                      (snd (fst (fst x))) (snd (fst x)) (snd x))
                           (doc_sections d) = Ok out) as (out & Hout).
  { induction Hok as [|x r Hx _ IH]; cbn [mapM]; [eauto|].
    apply (flat_record_ok attr) with (i := fst (fst (fst x)))
      (dn := snd (fst (fst x))) (l := snd (fst x)) in Hx as (y & Hy).
    destruct IH as (ys & Hys). rewrite Hy, Hys. cbn. eauto. }
  exists out. split; [assumption | now apply mapM_Ok_Forall2].
Qed.

Lemma Forall2_map_eq {X Y Z : Type} (P : X -> Y -> Prop) (g : Y -> Z) (h : X -> Z)
  (xs : list X) (ys : list Y) :
  Forall2 P xs ys -> (forall x y, P x y -> g y = h x) -> map g ys = map h xs.
Proof.
  intros H Hp. induction H as [|x y xs ys Hxy _ IH]; cbn [map]; [reflexivity|].
  now rewrite IH, (Hp x y Hxy).
Qed.

Lemma Forall2_nth {X Y : Type} (P : X -> Y -> Prop) (xs : list X) (ys : list Y)
  (k : nat) (x : X) :
  Forall2 P xs ys -> nth_error xs k = Some x ->
  exists y, nth_error ys k = Some y /\ P x y.
Proof.
  intros H; revert k; induction H as [|x0 y0 xs ys Hxy _ IH]; intros k Hk.
  - destruct k; discriminate.
  - destruct k as [|k]; cbn in *; [injection Hk as <-; eauto | now apply IH].
Qed.

(** The fields of a section's record. *)
Lemma flat_record_fields attr c i dn l s r :
  flat_record attr c i dn l s = Ok r ->
  dict_get "crn" r = Some (PStr (crn s)) /\
  dict_get "name" r = Some (PStr i) /\
  dict_get "section" r = Some (PStr l) /\
  (exists labels,
      Forall2 (fun z label => list_lookup (attributes c) z = Some label)
              (attributeIdxs s) labels /\
      dict_get "attributes" r = Some (attr labels)) /\
  (meetings s = [] -> Forall (fun k => has_key k r = false) meeting_keys).
Proof.
  intros H. apply flat_record_inv in H as (mf & st & cp & labels & Hmf & _ & _ & Hl & ->).
  assert (Hlab : Forall2 (fun z label => list_lookup (attributes c) z = Some label)
                         (attributeIdxs s) labels).
  { apply mapM_Ok_Forall2 in Hl. eapply Forall2_impl; [|exact Hl].
    intros z label. unfold list_getitem.
    destruct (list_lookup (attributes c) z); congruence. }
  apply meeting_fields_inv in Hmf
    as [[Hms ->]|(m & ms & t & loc & dr & Hms & _ & _ & _ & ->)].
  - repeat split; try reflexivity; [exists labels; split; [assumption|reflexivity]|].
    intros _. unfold meeting_keys, has_key. repeat constructor.
  - repeat split; try reflexivity; [exists labels; split; [assumption|reflexivity]|].
    rewrite Hms; discriminate.
Qed.

(** The (course, section) keys of a document are pairwise distinct. *)
Lemma doc_section_keys_NoDup d :
  distinct_keys d -> NoDup (map section_key (doc_sections d)).
Proof.
  intros (Hc & Hs). unfold doc_sections.
  induction (courses d) as [|[i c] r IH]; cbn [flat_map map]; [constructor|].
  inversion Hc as [|? ? Hi Hr]; subst. inversion Hs as [|? ? Hsi Hsr]; subst.
  rewrite map_app. apply NoDup_app; [| now apply IH |].
  - cbn [fst snd] in *. rewrite map_map. unfold section_key; cbn [fst snd].
    clear - Hsi. induction (sections c) as [|[l s] ss IHs]; cbn [map]; [constructor|].
    inversion Hsi as [|? ? Hl Hss]; subst. constructor; [|now apply IHs].
    cbn [fst]. intros Hin. apply in_map_iff in Hin as ([l' s'] & E & Hin).
    cbn [fst] in E. injection E as ->. apply Hl.
    apply in_map_iff. exists (l, s'). auto.
  - intros k Hk1 Hk2. cbn [fst snd] in *.
    apply in_map_iff in Hk1 as (x1 & <- & Hx1).
    apply in_map_iff in Hx1 as ([l1 s1] & <- & _).
    apply in_map_iff in Hk2 as (x2 & E & Hx2).
    apply in_flat_map in Hx2 as ([i2 c2] & Hic2 & Hx2).
    apply in_map_iff in Hx2 as ([l2 s2] & <- & _).
    unfold section_key in E; cbn [fst snd] in E. injection E as E _.
    apply Hi. rewrite <- E. apply in_map_iff. exists (i2, c2). auto.
Qed.

Lemma sample_doc_well_formed : well_formed sample_doc.
Proof.
  split; [split|].
  - repeat constructor; cbn; intuition discriminate.
  - repeat constructor; cbn; intuition discriminate.
  - repeat constructor.
Qed.

Lemma shared_crn_doc_well_formed : well_formed shared_crn_doc.
Proof.
  split; [split|].
  - repeat constructor; cbn; intuition discriminate.
  - repeat constructor; cbn; intuition discriminate.
  - repeat constructor.
Qed.

Lemma bad_campus_doc_distinct_keys : distinct_keys bad_campus_doc.
Proof.
  split; repeat constructor; cbn; intuition discriminate.
Qed.

(* ================================================================= *)
(** ** One record per section (C9) *)

(** C9, as stated, fails: [shared_crn_doc] has the shape of the data model
    and every index in range, its two courses have a section A with the
    same CRN, and both flatteners return two records with the same
    (crn, sectionId) pair. *)
Lemma C9_counterexample :
  well_formed shared_crn_doc /\
  exists out_etl out_gt,
    Etl.transform_json_to_list (encode shared_crn_doc) = Ok out_etl /\
    GtClassEtl.transform_json_to_list (encode shared_crn_doc) = Ok out_gt /\
    ~ NoDup (map record_crn_key out_etl) /\
    ~ NoDup (map record_crn_key out_gt).
Proof.
  split; [exact shared_crn_doc_well_formed|].
  eexists; eexists.
  split; [vm_compute; reflexivity|]. split; [vm_compute; reflexivity|].
  split; intros H; inversion H as [|? ? Hin _]; apply Hin; left; reflexivity.
Qed.

(** C9, amended: on every well-formed document both flatteners return
    exactly one record per (course, section) pair, in the document's
    iteration order; the (courseId, sectionId) pairs of the records are
    pairwise distinct; their (crn, sectionId) pairs are those of the
    sections, in order, hence without duplicates exactly when the
    document's sections have none. *)
Theorem flatten_one_record_per_section (d : CatalogDocument) :
  well_formed d ->
  exists out_etl out_gt,
    Etl.transform_json_to_list (encode d) = Ok out_etl /\
    GtClassEtl.transform_json_to_list (encode d) = Ok out_gt /\
    map record_key out_etl = map section_key (doc_sections d) /\
    map record_key out_gt = map section_key (doc_sections d) /\
    NoDup (map record_key out_etl) /\
    NoDup (map record_key out_gt) /\
    map record_crn_key out_etl = map section_crn_key (doc_sections d) /\
    map record_crn_key out_gt = map section_crn_key (doc_sections d) /\
    (NoDup (map record_crn_key out_etl) <->
     NoDup (map section_crn_key (doc_sections d))) /\
    (NoDup (map record_crn_key out_gt) <->
     NoDup (map section_crn_key (doc_sections d))).
Proof.
  intros Hwf.
  destruct (flatten_well_formed attributes_etl _ etl_flatten_typed d Hwf)
    as (o1 & E1 & F1).
  destruct (flatten_well_formed attributes_gt _ gt_flatten_typed d Hwf)
    as (o2 & E2 & F2).
  assert (K : forall attr out,
             Forall2 (fun x r => flat_record attr (caches d) (fst (fst (fst x)))
                                   (snd (fst (fst x))) (snd (fst x)) (snd x) = Ok r)
                     (doc_sections d) out ->
             map record_key out = map section_key (doc_sections d) /\
             map record_crn_key out = map section_crn_key (doc_sections d)).
  { intros attr out F. split; (eapply Forall2_map_eq; [exact F|]);
      intros x r Hr; apply flat_record_fields in Hr as (Hc & Hn & Hs & _);
      unfold record_key, record_crn_key, section_key, section_crn_key;
      now rewrite ?Hc, ?Hn, ?Hs. }
  destruct (K _ _ F1) as (K1 & K1'). destruct (K _ _ F2) as (K2 & K2').
  pose proof (doc_section_keys_NoDup d (proj1 Hwf)) as Hnd.
  exists o1, o2. rewrite K1, K2, K1', K2'. repeat split; auto.
Qed.

Lemma flatten_one_record_per_section_witness :
  well_formed sample_doc /\
  exists out_etl out_gt,
    Etl.transform_json_to_list (encode sample_doc) = Ok out_etl /\
    GtClassEtl.transform_json_to_list (encode sample_doc) = Ok out_gt /\
    map record_key out_etl = map section_key (doc_sections sample_doc) /\
    map record_key out_gt = map section_key (doc_sections sample_doc) /\
    NoDup (map record_key out_etl) /\
    NoDup (map record_key out_gt) /\
    map record_crn_key out_etl = map section_crn_key (doc_sections sample_doc) /\
    map record_crn_key out_gt = map section_crn_key (doc_sections sample_doc) /\
    (NoDup (map record_crn_key out_etl) <->
     NoDup (map section_crn_key (doc_sections sample_doc))) /\
    (NoDup (map record_crn_key out_gt) <->
     NoDup (map section_crn_key (doc_sections sample_doc))).
Proof.
  split; [exact sample_doc_well_formed|].
  apply (flatten_one_record_per_section sample_doc).
  exact sample_doc_well_formed.
Defined.

(* ================================================================= *)
(** ** The attributes field (C5) *)

(** C5, as stated, fails.  Section B of CS 1331 in [sample_doc] has no
    attribute index: [gt_class_etl.py] leaves [None] in the field, not an
    empty list.  Section A has the indices 0 and 1: [etl.py] leaves the
    label of the last one, not the list of both. *)
Lemma C5_counterexample :
  (exists out r,
      GtClassEtl.transform_json_to_list (encode sample_doc) = Ok out /\
      nth_error out 1 = Some r /\
      dict_get "attributes" r = Some PNone /\ PNone <> PList []) /\
  (exists out r,
      Etl.transform_json_to_list (encode sample_doc) = Ok out /\
      nth_error out 0 = Some r /\
      dict_get "attributes" r = Some (PStr "Online") /\
      PStr "Online" <> PList [PStr "Honors"; PStr "Online"]).
Proof.
  split; eexists; eexists.
  - split; [vm_compute; reflexivity|]. split; [reflexivity|].
    split; [reflexivity | discriminate].
  - split; [vm_compute; reflexivity|]. split; [reflexivity|].
    split; [reflexivity | discriminate].
Qed.

(** C5, amended: on every well-formed document [gt_class_etl.py] resolves
    a non-empty [attributeIdxs] by mapping each index through the
    attributes cache, producing the full list of labels; an empty
    [attributeIdxs] is no error and yields [None] in [gt_class_etl.py] and
    the empty list in [etl.py]. *)
Theorem flatten_attributes (d : CatalogDocument) :
  well_formed d ->
  exists out_etl out_gt,
    Etl.transform_json_to_list (encode d) = Ok out_etl /\
    GtClassEtl.transform_json_to_list (encode d) = Ok out_gt /\
    Forall2 (fun x r =>
               exists labels,
                 Forall2 (fun z label =>
                            list_lookup (attributes (caches d)) z = Some label)
                         (attributeIdxs (snd x)) labels /\
                 dict_get "attributes" r =
                 Some (match attributeIdxs (snd x) with
                       | [] => PNone
                       | _ => PList (map PStr labels)
                       end))
            (doc_sections d) out_gt /\
    Forall2 (fun x r =>
               attributeIdxs (snd x) = [] ->
               dict_get "attributes" r = Some (PList []))
            (doc_sections d) out_etl.
Proof.
  intros Hwf.
  destruct (flatten_well_formed attributes_etl _ etl_flatten_typed d Hwf)
    as (o1 & E1 & F1).
  destruct (flatten_well_formed attributes_gt _ gt_flatten_typed d Hwf)
    as (o2 & E2 & F2).
  exists o1, o2. repeat split; try assumption.
  - eapply Forall2_impl; [|exact F2]. intros x r Hr.
    apply flat_record_fields in Hr as (_ & _ & _ & (labels & Hl & Ha) & _).
    exists labels. split; [assumption|]. rewrite Ha. unfold attributes_gt.
    destruct Hl; reflexivity.
  - eapply Forall2_impl; [|exact F1]. intros x r Hr Hnil.
    apply flat_record_fields in Hr as (_ & _ & _ & (labels & Hl & Ha) & _).
    rewrite Ha. rewrite Hnil in Hl. inversion Hl. reflexivity.
Qed.

Lemma flatten_attributes_witness :
  well_formed sample_doc /\
  exists out_etl out_gt,
    Etl.transform_json_to_list (encode sample_doc) = Ok out_etl /\
    GtClassEtl.transform_json_to_list (encode sample_doc) = Ok out_gt /\
    Forall2 (fun x r =>
               exists labels,
                 Forall2 (fun z label =>
                            list_lookup (attributes (caches sample_doc)) z = Some label)
                         (attributeIdxs (snd x)) labels /\
                 dict_get "attributes" r =
                 Some (match attributeIdxs (snd x) with
                       | [] => PNone
                       | _ => PList (map PStr labels)
                       end))
            (doc_sections sample_doc) out_gt /\
    Forall2 (fun x r =>
               attributeIdxs (snd x) = [] ->
               dict_get "attributes" r = Some (PList []))
            (doc_sections sample_doc) out_etl.
Proof.
  split; [exact sample_doc_well_formed|].
  apply (flatten_attributes sample_doc). exact sample_doc_well_formed.
Defined.

(* ================================================================= *)
(** ** Malformed documents (C3) *)

(** C3, as stated, fails.  [unread_index_doc] contains a period index
    (99, in a second meeting block) that is out of range and a campus
    index -1: both flatteners return, the first because only meeting 0 is
    read, the second because a negative index counts from the end.  On
    [bad_campus_doc], where the campus index 7 is out of range, they raise
    Python's own [IndexError], which names no course or section: neither
    source file defines an error of its own. *)
Lemma C3_counterexample :
  in_range (periods sample_caches) 99 = false /\
  (exists out, Etl.transform_json_to_list (encode unread_index_doc) = Ok out) /\
  (exists out, GtClassEtl.transform_json_to_list (encode unread_index_doc) = Ok out) /\
  Etl.transform_json_to_list (encode bad_campus_doc) = Raise IndexError /\
  GtClassEtl.transform_json_to_list (encode bad_campus_doc) = Raise IndexError.
Proof.
  split; [reflexivity|].
  split; [eexists; vm_compute; reflexivity|].
  split; [eexists; vm_compute; reflexivity|].
  split; vm_compute; reflexivity.
Qed.

(** C3, amended: when a course tuple has fewer than 2 positions, a section
    tuple fewer than 6, or an index that the flattener consults (the
    schedule type, the campus, an attribute, or the period, location or
    date range of the first meeting) lies outside [-len, len), both
    flatteners fail the whole run, without partial output, by raising the
    built-in [IndexError]. *)
Theorem flatten_malformed_IndexError (ca : string -> nat) (sa : string -> string -> nat)
  (d : CatalogDocument) (i l : string) :
  distinct_keys d ->
  malformed_at ca sa d i l ->
  Etl.transform_json_to_list (encode_at ca sa d) = Raise IndexError /\
  GtClassEtl.transform_json_to_list (encode_at ca sa d) = Raise IndexError.
Proof.
  intros Hk Hbad.
  rewrite (etl_flatten_typed ca sa d Hk), (gt_flatten_typed ca sa d Hk).
  split; eapply flatten_typed_malformed; eassumption.
Qed.

Lemma flatten_malformed_IndexError_witness :
  distinct_keys sample_doc /\
  malformed_at (fun _ => 2%nat) (fun i l => if String.eqb l "B" then 4%nat else 6%nat)
               sample_doc "CS 1331" "B" /\
  Etl.transform_json_to_list
    (encode_at (fun _ => 2%nat) (fun i l => if String.eqb l "B" then 4%nat else 6%nat)
               sample_doc) = Raise IndexError /\
  GtClassEtl.transform_json_to_list
    (encode_at (fun _ => 2%nat) (fun i l => if String.eqb l "B" then 4%nat else 6%nat)
               sample_doc) = Raise IndexError.
Proof.
  assert (H : malformed_at (fun _ => 2%nat)
                (fun i l => if String.eqb l "B" then 4%nat else 6%nat)
                sample_doc "CS 1331" "B").
  { eexists. split; [left; reflexivity|]. right.
    eexists. split; [right; left; reflexivity|]. left. cbn. lia. }
  split; [exact (proj1 sample_doc_well_formed)|]. split; [exact H|].
  apply (flatten_malformed_IndexError _ _ sample_doc "CS 1331" "B");
    [exact (proj1 sample_doc_well_formed) | exact H].
Defined.

(* ================================================================= *)
(** ** The two flatteners compared *)

Lemma mapM_same_outcome {X Y : Type} (R : Y -> Y -> Prop) (f g : X -> result Y)
  (xs : list X) :
  (forall x, In x xs -> same_outcome R (f x) (g x)) ->
  same_outcome (Forall2 R) (mapM f xs) (mapM g xs).
Proof.
  induction xs as [|x r IH]; intros H; cbn [mapM]; [constructor|].
  pose proof (H x (or_introl eq_refl)) as Hx.
  destruct (f x) as [y1|e1], (g x) as [y2|e2]; cbn in Hx |- *;
    try contradiction; [|assumption].
  specialize (IH (fun x0 Hx0 => H x0 (or_intror Hx0))).
  destruct (mapM f r) as [ys1|e1], (mapM g r) as [ys2|e2]; cbn in IH |- *;
    try contradiction; [now constructor | assumption].
Qed.

Lemma flat_record_agree attr1 attr2 c i dn l s :
  same_outcome (agree_except "attributes")
    (flat_record attr1 c i dn l s) (flat_record attr2 c i dn l s).
Proof.
  unfold flat_record.
  destruct (meeting_fields c (meetings s)) as [mf|e]; cbn [bind]; [|reflexivity].
  destruct (list_getitem (scheduleTypes c) _) as [st|e]; cbn [bind]; [|reflexivity].
  destruct (list_getitem (campuses c) _) as [cp|e]; cbn [bind]; [|reflexivity].
  destruct (mapM _ (attributeIdxs s)) as [labels|e]; cbn [bind same_outcome];
    [|reflexivity].
  intros k Hk. rewrite !dict_get_app. cbn [dict_get].
  destruct (String.eqb_spec k "attributes"); [contradiction | reflexivity].
Qed.

Lemma flatten_typed_agree attr1 attr2 ca sa d :
  same_outcome (Forall2 (agree_except "attributes"))
    (flatten_typed attr1 ca sa d) (flatten_typed attr2 ca sa d).
Proof.
  unfold flatten_typed.
  assert (H : same_outcome (Forall2 (Forall2 (agree_except "attributes")))
                (mapM (flatten_course attr1 (caches d) ca sa) (courses d))
                (mapM (flatten_course attr2 (caches d) ca sa) (courses d))).
  { apply mapM_same_outcome. intros [i c] _. unfold flatten_course; cbn [fst snd].
    destruct (ca i <? 2)%nat; [reflexivity|].
    apply mapM_same_outcome. intros [l s] _. unfold flatten_section; cbn [fst snd].
    destruct (sa i l <? 6)%nat; [reflexivity | apply flat_record_agree]. }
  destruct (mapM (flatten_course attr1 _ ca sa) _) as [r1|e1],
           (mapM (flatten_course attr2 _ ca sa) _) as [r2|e2];
    cbn in H |- *; try contradiction; [|assumption].
  induction H as [|a b ra rb Hab _ IH]; cbn [concat]; [constructor|].
  now apply Forall2_app.
Qed.

(** The two flatteners raise the same exception or return record lists
    that differ only in [attributes]. *)
Lemma flatten_agree ca sa d :
  distinct_keys d ->
  same_outcome (Forall2 (agree_except "attributes"))
    (Etl.transform_json_to_list (encode_at ca sa d))
    (GtClassEtl.transform_json_to_list (encode_at ca sa d)).
Proof.
  intros Hk. rewrite (etl_flatten_typed ca sa d Hk), (gt_flatten_typed ca sa d Hk).
  apply flatten_typed_agree.
Qed.

(* ================================================================= *)
(** ** Reading the frame the normalizer returns *)

Lemma normalized_index thu ds df k :
  normalized thu ds df ->
  (In k (index df) <-> exists d, nth_error ds k = Some d /\ survives d = true).
Proof.
  intros (Hi & _). rewrite Hi, (select_length_index survives ds 0 k).
  rewrite Nat.sub_0_r. split.
  - intros (d & ? & ? & _); eauto.
  - intros (d & ? & ?); exists d; repeat split; auto; lia.
Qed.

Lemma normalized_loc thu ds df c (f : dict -> cell) k d :
  normalized thu ds df ->
  final_col thu ds c = Some (select (map survives ds) (map f ds)) ->
  nth_error ds k = Some d ->
  loc df k c = if survives d then Some (f d) else None.
Proof.
  intros (Hi & Hc) Hf Hk. unfold loc. rewrite Hc, Hf, Hi.
  pose proof (assoc_select survives f ds 0 k) as E. cbn [Nat.add] in E.
  rewrite E. now rewrite Hk.
Qed.

Lemma either_transform_inv ds df :
  either_transform ds df ->
  can_normalize ds /\ exists thu, normalized thu ds df /\
                                  (thu = "thurday" \/ thu = "thursday").
Proof.
  intros [H|H].
  - apply etl_transform_inv in H as (? & ?). eauto.
  - apply gt_transform_inv in H as (? & ?). eauto.
Qed.

Lemma final_col_common thu ds :
  thu = "thurday" \/ thu = "thursday" ->
  final_col thu ds "start_time" =
    Some (select (map survives ds) (map (fun d => parsed (raw_start_time d)) ds)) /\
  final_col thu ds "end_time" =
    Some (select (map survives ds) (map (fun d => parsed (raw_end_time d)) ds)) /\
  final_col thu ds "start_date" =
    Some (select (map survives ds) (map (fun d => part 0 (parts_of "date_range" d)) ds)) /\
  final_col thu ds "end_date" =
    Some (select (map survives ds) (map (fun d => part 1 (parts_of "date_range" d)) ds)) /\
  final_col thu ds "building" =
    Some (select (map survives ds) (map building_of ds)) /\
  final_col thu ds "monday" = Some (select (map survives ds) (map (day_flag "M") ds)) /\
  final_col thu ds "tuesday" = Some (select (map survives ds) (map (day_flag "T") ds)) /\
  final_col thu ds "wednesday" = Some (select (map survives ds) (map (day_flag "W") ds)) /\
  final_col thu ds thu = Some (select (map survives ds) (map (day_flag "R") ds)) /\
  final_col thu ds "friday" = Some (select (map survives ds) (map (day_flag "F") ds)).
Proof.
  intros [->| ->]; repeat split; reflexivity.
Qed.

(* ================================================================= *)
(** ** The cells of a FlatRecord *)

Lemma cell_of_time r :
  cell_of "time" (to_dict r) = option_map (fun m => PStr (m_time m)) (f_meeting r).
Proof. unfold to_dict. destruct (f_meeting r); reflexivity. Qed.

Lemma cell_of_date_range r :
  cell_of "date_range" (to_dict r) =
  option_map (fun m => PStr (m_date_range m)) (f_meeting r).
Proof. unfold to_dict. destruct (f_meeting r); reflexivity. Qed.

Lemma cell_of_day_of_week r :
  cell_of "day_of_week" (to_dict r) =
  option_map (fun m => PStr (m_day_of_week m)) (f_meeting r).
Proof. unfold to_dict. destruct (f_meeting r); reflexivity. Qed.

Lemma cell_of_building r :
  cell_of "building" (to_dict r) =
  option_map (fun m => PStr (m_building m)) (f_meeting r).
Proof. unfold to_dict. destruct (f_meeting r); reflexivity. Qed.

Lemma parts_of_time r :
  parts_of "time" (to_dict r) =
  option_map (fun m => split " - " (m_time m)) (f_meeting r).
Proof.
  unfold parts_of. rewrite cell_of_time. now destruct (f_meeting r).
Qed.

Lemma parts_of_date_range r :
  parts_of "date_range" (to_dict r) =
  option_map (fun m => split " - " (m_date_range m)) (f_meeting r).
Proof.
  unfold parts_of. rewrite cell_of_date_range. now destruct (f_meeting r).
Qed.

Lemma survives_to_dict r :
  survives (to_dict r) =
  match f_meeting r with
  | Some m => (2 <=? List.length (split " - " (m_time m)))%nat
  | None => false
  end.
Proof.
  unfold survives, raw_start_time, raw_end_time. rewrite parts_of_time.
  destruct (f_meeting r) as [m|]; [|reflexivity]. cbn [option_map part].
  destruct (split " - " (m_time m)) as [|a [|b t]]; reflexivity.
Qed.

Lemma has_meeting_keys r m k :
  f_meeting r = Some m -> In k meeting_keys -> has_key k (to_dict r) = true.
Proof.
  intros Hm Hk. unfold to_dict. rewrite Hm. unfold meeting_keys in Hk.
  cbn [In] in Hk.
  repeat (destruct Hk as [<-|Hk]; [reflexivity|]). destruct Hk.
Qed.

Lemma has_attributes r : has_key "attributes" (to_dict r) = true.
Proof. unfold to_dict. destruct (f_meeting r); reflexivity. Qed.

(* ================================================================= *)
(** ** When the normalizers return (C2) *)

Lemma width_two (rows : list (option (list string))) :
  Forall (fun r => match r with
                   | Some parts => (List.length parts <= 2)%nat
                   | None => True
                   end) rows ->
  (exists parts, In (Some parts) rows /\ List.length parts = 2%nat) ->
  width rows = 2%nat.
Proof.
  unfold width. intros Hall (parts & Hin & Hlen).
  assert (Hle : (fold_right Nat.max 0
                   (map (fun r => match r with
                                  | Some parts => List.length parts
                                  | None => 1
                                  end) rows) <= 2)%nat).
  { clear Hin. induction Hall as [|r rows Hr _ IH]; cbn [map fold_right]; [lia|].
    destruct r; lia. }
  assert (Hge : (2 <= fold_right Nat.max 0
                   (map (fun r => match r with
                                  | Some parts => List.length parts
                                  | None => 1
                                  end) rows))%nat).
  { clear Hall Hle. induction rows as [|r rows IH]; [destruct Hin|].
    cbn [map fold_right]. destruct Hin as [->|Hin]; [lia|].
    specialize (IH Hin). lia. }
  lia.
Qed.

Lemma width_two_inv (rows : list (option (list string))) :
  width rows = 2%nat ->
  Forall (fun r => match r with
                   | Some parts => (List.length parts <= 2)%nat
                   | None => True
                   end) rows /\
  (exists parts, In (Some parts) rows /\ List.length parts = 2%nat).
Proof.
  unfold width. induction rows as [|r rows IH]; cbn [map fold_right];
    [discriminate|].
  intros H.
  set (w := fold_right Nat.max 0%nat (map _ rows)) in *.
  assert (Hr : (match r with Some parts => List.length parts | None => 1%nat end <= 2)%nat)
    by lia.
  assert (Hw : (w <= 2)%nat) by lia.
  assert (Hall : Forall (fun r => match r with
                                  | Some parts => (List.length parts <= 2)%nat
                                  | None => True
                                  end) rows).
  { clear - Hw. subst w. induction rows as [|r' rows IH]; [constructor|].
    cbn [map fold_right] in Hw. constructor; [destruct r'; [lia|exact I]|].
    apply IH. lia. }
  split; [constructor; [destruct r; [lia|exact I] | exact Hall]|].
  destruct (Nat.eq_dec w 2) as [E|N].
  - destruct (IH E) as (_ & parts & Hin & Hlen). exists parts. split; [now right|assumption].
  - destruct r as [parts|]; [|lia]. exists parts. split; [now left | lia].
Qed.

Lemma two_parts_width (field : Meeting -> string) (k : string) (rs : list FlatRecord) :
  (forall r, parts_of k (to_dict r) =
             option_map (fun m => split " - " (field m)) (f_meeting r)) ->
  (two_parts field rs <-> width (map (parts_of k) (map to_dict rs)) = 2%nat).
Proof.
  intros Hp. rewrite map_map. split.
  - intros (Hall & r & m & Hin & Hm & Hlen). apply width_two.
    + apply Forall_forall. intros row Hrow.
      apply in_map_iff in Hrow as (r' & <- & Hr'). rewrite Hp.
      destruct (f_meeting r') as [m'|] eqn:Hm'; cbn [option_map]; [|exact I].
      now apply (Hall r' m').
    + exists (split " - " (field m)). split; [|assumption].
      apply in_map_iff. exists r. split; [|assumption]. now rewrite Hp, Hm.
  - intros H. apply width_two_inv in H as (Hall & parts & Hin & Hlen). split.
    + intros r m Hr Hm. rewrite Forall_forall in Hall.
      specialize (Hall (parts_of k (to_dict r))
                    ltac:(apply in_map_iff; exists r; auto)).
      now rewrite Hp, Hm in Hall.
    + apply in_map_iff in Hin as (r & E & Hr). rewrite Hp in E.
      destruct (f_meeting r) as [m|] eqn:Hm; [|discriminate].
      injection E as <-. eauto.
Qed.

Lemma transform_military_time_returns (s : string) :
  (exists v, transform_military_time (Some (PStr s)) = Ok v) <->
  (isdigit s = true -> exists hm, strptime_HM s = Ok hm).
Proof.
  cbn [transform_military_time]. destruct (isdigit s).
  - destruct (strptime_HM s) as [hm|e]; cbn [bind]; split.
    + eauto.
    + eauto.
    + intros (v & H); discriminate.
    + intros H. destruct (H eq_refl); discriminate.
  - split; [discriminate | eauto].
Qed.

(** The conditions on the records under which the normalizers return. *)
Lemma can_normalize_typed (rs : list FlatRecord) :
  can_normalize (map to_dict rs) <->
  two_parts m_date_range rs /\ two_parts m_time rs /\ times_parse rs.
Proof.
  rewrite (two_parts_width m_date_range "date_range" rs parts_of_date_range).
  rewrite (two_parts_width m_time "time" rs parts_of_time).
  unfold can_normalize. split.
  - intros (_ & W1 & W2 & T). split; [assumption|]. split; [assumption|].
    intros r m a b Hr Hm Hs. rewrite Forall_forall in T.
    specialize (T (to_dict r) ltac:(now apply in_map)).
    rewrite survives_to_dict, Hm, Hs in T. specialize (T eq_refl).
    unfold raw_start_time, raw_end_time in T. rewrite parts_of_time, Hm in T.
    cbn [option_map part] in T. rewrite Hs in T. cbn [nth_error option_map] in T.
    now rewrite !transform_military_time_returns in T.
  - intros (W1 & W2 & T).
    assert (Hm : exists r m, In r rs /\ f_meeting r = Some m).
    { apply (two_parts_width m_time "time" rs parts_of_time) in W2
        as (_ & r & m & ? & ? & _). eauto. }
    destruct Hm as (r0 & m0 & Hr0 & Hm0).
    split; [|split; [assumption|split; [assumption|]]].
    + assert (K : forall k, In k meeting_keys ->
                    existsb (has_key k) (map to_dict rs) = true).
      { intros k Hk. apply existsb_exists. exists (to_dict r0).
        split; [now apply in_map | now apply (has_meeting_keys r0 m0)]. }
      repeat constructor; try (apply K; cbn; tauto).
      apply existsb_exists. exists (to_dict r0).
      split; [now apply in_map | apply has_attributes].
    + apply Forall_forall. intros d Hd Hs.
      apply in_map_iff in Hd as (r & <- & Hr).
      rewrite survives_to_dict in Hs.
      destruct (f_meeting r) as [m|] eqn:Hm; [|discriminate].
      apply (two_parts_width m_time "time" rs parts_of_time) in W2 as (Hle & _).
      specialize (Hle r m Hr Hm).
      destruct (split " - " (m_time m)) as [|a [|b [|c t]]] eqn:Hsp;
        cbn in Hs, Hle; try discriminate; try lia.
      unfold raw_start_time, raw_end_time. rewrite parts_of_time, Hm.
      cbn [option_map part]. rewrite Hsp. cbn [nth_error option_map].
      rewrite !transform_military_time_returns. exact (T r m a b Hr Hm Hsp).
Qed.

(* ================================================================= *)
(** ** The normalizers raise (C2) *)

(** C2, as stated, fails: on the empty sequence, and on a sequence in
    which no record carries the meeting-derived fields, both normalizers
    raise [KeyError] (the columns they drop first do not exist); a time of
    digits that [strptime] rejects raises [ValueError]. *)
Lemma C2_counterexample :
  Etl.transform [] = Raise KeyError /\
  GtClassEtl.transform [] = Raise KeyError /\
  Etl.transform (map to_dict [flat_no_meeting]) = Raise KeyError /\
  GtClassEtl.transform (map to_dict [flat_no_meeting]) = Raise KeyError /\
  GtClassEtl.transform (map to_dict [flat "0800 - 2400" "MWF" "Clough G25" term])
  = Raise ValueError.
Proof. repeat split; vm_compute; reflexivity. Qed.

(** C2, amended: both normalizers complete without raising exactly when
    the date ranges of the records split into at most two parts and into
    two for some record, the times likewise, and [strptime] accepts every
    all-digit start and end of a time of two parts.  (So some record must
    carry the meeting-derived fields: the empty sequence, and a sequence
    without them, raise.) *)
Theorem normalize_returns (rs : list FlatRecord) :
  two_parts m_date_range rs /\ two_parts m_time rs /\ times_parse rs <->
  (exists df, Etl.transform (map to_dict rs) = Ok df) /\
  (exists df, GtClassEtl.transform (map to_dict rs) = Ok df).
Proof.
  rewrite <- can_normalize_typed. split.
  - intros H. split; [now apply etl_transform_ok | now apply gt_transform_ok].
  - intros (_ & df & H). now apply gt_transform_inv in H.
Qed.

(* ================================================================= *)
(** ** Time parsing (C1) *)





Lemma normalize_returns_witness :
  (exists df, Etl.transform (map to_dict sample_records) = Ok df) /\
  (exists df, GtClassEtl.transform (map to_dict sample_records) = Ok df).
Proof.
  apply (proj1 (normalize_returns sample_records)).
  split; [|split].
  - split.
    + intros r m Hr Hm. cbn in Hr.
      repeat (destruct Hr as [<-|Hr]; [try discriminate Hm; injection Hm as <-;
                                       vm_compute; lia|]).
      destruct Hr.
    + exists (flat "0800 - 0915" "MWF" "Clough Undergraduate Learning Commons G25" term).
      eexists. split; [cbn; tauto|]. split; reflexivity.
  - split.
    + intros r m Hr Hm. cbn in Hr.
      repeat (destruct Hr as [<-|Hr]; [try discriminate Hm; injection Hm as <-;
                                       vm_compute; lia|]).
      destruct Hr.
    + exists (flat "0800 - 0915" "MWF" "Clough Undergraduate Learning Commons G25" term).
      eexists. split; [cbn; tauto|]. split; reflexivity.
  - intros r m a b Hr Hm Hs. cbn in Hr.
    repeat (destruct Hr as [<-|Hr];
            [try discriminate Hm; injection Hm as <-; vm_compute in Hs;
             try discriminate Hs; injection Hs as <- <-;
             split; intros D; try discriminate D; eexists; vm_compute; reflexivity|]).
    destruct Hr.
Defined.

(* ================================================================= *)
(** ** A field without the separator (C4) *)

(** C4, as stated, fails.  In [sample_records] the record of label 3 has
    the date range ["2025"], without the separator: its [start_date] is
    not absent, it is the whole string (only [end_date] is absent).  And a
    sequence none of whose date ranges contains the separator makes the
    normalizer raise. *)
Lemma C4_counterexample :
  (exists df,
      GtClassEtl.transform (map to_dict sample_records) = Ok df /\
      loc df 3 "start_date" = Some (Some (PStr "2025")) /\
      loc df 3 "end_date" = Some None) /\
  (exists df,
      Etl.transform (map to_dict sample_records) = Ok df /\
      loc df 3 "start_date" = Some (Some (PStr "2025")) /\
      loc df 3 "end_date" = Some None) /\
  GtClassEtl.transform (map to_dict [flat "0800 - 0915" "MWF" "Clough G25" "2025"])
  = Raise ValueError.
Proof.
  split; [|split].
  - eexists. split; [vm_compute; reflexivity|]. split; reflexivity.
  - eexists. split; [vm_compute; reflexivity|]. split; reflexivity.
  - vm_compute. reflexivity.
Qed.

(** C4, amended: when a normalizer returns, a record whose [time] is
    present without the separator has the whole string as raw start and no
    raw end, and is therefore dropped; a kept record whose [dateRange] is
    present without the separator has the whole string as [start_date] and
    an absent [end_date]. *)
Theorem normalize_without_separator (rs : list FlatRecord) (df : DataFrame)
  (k : nat) (r : FlatRecord) (m : Meeting) :
  either_transform (map to_dict rs) df ->
  nth_error rs k = Some r ->
  f_meeting r = Some m ->
  (occurs " - " (m_time m) = false ->
   raw_start_time (to_dict r) = Some (PStr (m_time m)) /\
   raw_end_time (to_dict r) = None /\
   ~ In k (index df)) /\
  (occurs " - " (m_date_range m) = false ->
   In k (index df) ->
   loc df k "start_date" = Some (Some (PStr (m_date_range m))) /\
   loc df k "end_date" = Some None).
Proof.
  intros H Hk Hm.
  apply either_transform_inv in H as (Hc & thu & Hn & Hthu).
  assert (Hd : nth_error (map to_dict rs) k = Some (to_dict r))
    by (rewrite nth_error_map, Hk; reflexivity).
  destruct (final_col_common thu (map to_dict rs) Hthu)
    as (_ & _ & F3 & F4 & _).
  split.
  - intros Hno. unfold raw_start_time, raw_end_time.
    rewrite parts_of_time, Hm. cbn [option_map part].
    rewrite (split_no_sep _ _ Hno). cbn [nth_error option_map].
    split; [reflexivity|]. split; [reflexivity|].
    rewrite (normalized_index thu _ df k Hn). intros (d & Hd' & Hs).
    rewrite Hd in Hd'. injection Hd' as <-.
    rewrite survives_to_dict, Hm, (split_no_sep _ _ Hno) in Hs. discriminate Hs.
  - intros Hno Hin.
    apply (normalized_index thu _ df k Hn) in Hin as (d & Hd' & Hs).
    rewrite Hd in Hd'. injection Hd' as <-.
    rewrite (normalized_loc _ _ _ _ _ _ _ Hn F3 Hd),
            (normalized_loc _ _ _ _ _ _ _ Hn F4 Hd), Hs.
    rewrite parts_of_date_range, Hm. cbn [option_map part].
    rewrite (split_no_sep _ _ Hno). split; reflexivity.
Qed.

Lemma normalize_without_separator_witness :
  exists df,
    either_transform (map to_dict sample_records) df /\
    nth_error sample_records 3 = Some (flat "800 - TBA" "R" "Clough G25 West" "2025") /\
    occurs " - " "2025" = false /\
    In 3%nat (index df) /\
    loc df 3 "start_date" = Some (Some (PStr "2025")) /\
    loc df 3 "end_date" = Some None.
Proof.
  eexists. split; [right; vm_compute; reflexivity|]. split; [reflexivity|].
  split; [reflexivity|]. split; [cbn; tauto|].
  eapply (proj2 (normalize_without_separator sample_records _ 3 _ _
                   ltac:(right; vm_compute; reflexivity) eq_refl eq_refl));
    [reflexivity | cbn; tauto].
Defined.

(* ================================================================= *)
(** ** Sections without a meeting (C6) *)

Lemma no_time_no_survival (r : dict) :
  has_key "time" r = false -> survives r = false.
Proof.
  unfold has_key, survives, raw_start_time, parts_of, cell_of.
  destruct (dict_get "time" r); [discriminate | reflexivity].
Qed.

Lemma not_kept thu (ds : list dict) (df : DataFrame) (k : nat) (r : dict) :
  normalized thu ds df -> nth_error ds k = Some r -> survives r = false ->
  ~ In k (index df).
Proof.
  intros Hn Hk Hs Hin. apply (normalized_index thu ds df k Hn) in Hin
    as (d & Hd & Hsd). congruence.
Qed.

Lemma no_meeting_keys_KeyError (ds : list dict) :
  Forall (fun r => Forall (fun key => has_key key r = false) meeting_keys) ds ->
  Etl.transform ds = Raise KeyError /\
  GtClassEtl.transform ds = Raise KeyError.
Proof.
  intros H.
  assert (Hb : existsb (has_key "building_coords") ds = false).
  { induction H as [|r ds Hr _ IH]; [reflexivity|].
    cbn [existsb]. rewrite IH, orb_false_r.
    unfold meeting_keys in Hr. rewrite Forall_forall in Hr.
    apply Hr. cbn; tauto. }
  assert (E : drop_columns ["attributes"; "building_coords"; "professors"]
                (pd_DataFrame ds) = Raise KeyError).
  { unfold drop_columns. cbn [forallb]. rewrite !mem_columns_pd, Hb.
    cbn [andb]. now rewrite andb_false_r. }
  unfold Etl.transform, GtClassEtl.transform. rewrite E. split; reflexivity.
Qed.

(** C6, as stated, fails: there need be no final sequence at all.  The
    only section of [no_meeting_doc] has no meeting; the flatteners return
    its record, and both normalizers raise [KeyError] on it.  In [tba_doc]
    a section without a meeting stands beside one whose time is ["TBA"]:
    both normalizers raise [ValueError]. *)
Lemma C6_counterexample :
  (well_formed no_meeting_doc /\
   (exists x, nth_error (doc_sections no_meeting_doc) 0 = Some x /\
              meetings (snd x) = []) /\
   (exists out, Etl.transform_json_to_list (encode no_meeting_doc) = Ok out /\
                Etl.transform out = Raise KeyError) /\
   (exists out, GtClassEtl.transform_json_to_list (encode no_meeting_doc) = Ok out /\
                GtClassEtl.transform out = Raise KeyError)) /\
  (well_formed tba_doc /\
   (exists x, nth_error (doc_sections tba_doc) 1 = Some x /\
              meetings (snd x) = []) /\
   (exists out, Etl.transform_json_to_list (encode tba_doc) = Ok out /\
                Etl.transform out = Raise ValueError) /\
   (exists out, GtClassEtl.transform_json_to_list (encode tba_doc) = Ok out /\
                GtClassEtl.transform out = Raise ValueError)).
Proof.
  split; (split; [|split; [|split]]).
  - split; [split|]; repeat constructor; cbn; intuition discriminate.
  - eexists. split; reflexivity.
  - eexists. split; [vm_compute; reflexivity|]. vm_compute; reflexivity.
  - eexists. split; [vm_compute; reflexivity|]. vm_compute; reflexivity.
  - split; [split|]; repeat constructor; cbn; intuition discriminate.
  - eexists. split; reflexivity.
  - eexists. split; [vm_compute; reflexivity|]. vm_compute; reflexivity.
  - eexists. split; [vm_compute; reflexivity|]. vm_compute; reflexivity.
Qed.

(** C6, amended: on every well-formed document, the record that either
    flattener emits for a section whose [meetings] is empty has none of
    the meeting-derived keys (they are left out, not set to a null), and
    that record is in no frame that the normalizer returns for the
    flattener's output.  The normalizer need not return: when no section
    of the document has a meeting, it raises [KeyError]. *)
Theorem flatten_no_meeting_excluded (d : CatalogDocument) :
  well_formed d ->
  exists out_etl out_gt,
    Etl.transform_json_to_list (encode d) = Ok out_etl /\
    GtClassEtl.transform_json_to_list (encode d) = Ok out_gt /\
    (forall k x,
      nth_error (doc_sections d) k = Some x ->
      meetings (snd x) = [] ->
      (exists r, nth_error out_etl k = Some r /\
                 Forall (fun key => has_key key r = false) meeting_keys /\
                 forall df, Etl.transform out_etl = Ok df -> ~ In k (index df)) /\
      (exists r, nth_error out_gt k = Some r /\
                 Forall (fun key => has_key key r = false) meeting_keys /\
                 forall df, GtClassEtl.transform out_gt = Ok df -> ~ In k (index df))) /\
    ((forall x, In x (doc_sections d) -> meetings (snd x) = []) ->
     Etl.transform out_etl = Raise KeyError /\
     GtClassEtl.transform out_gt = Raise KeyError).
Proof.
  intros Hwf.
  destruct (flatten_well_formed attributes_etl _ etl_flatten_typed d Hwf)
    as (o1 & E1 & F1).
  destruct (flatten_well_formed attributes_gt _ gt_flatten_typed d Hwf)
    as (o2 & E2 & F2).
  exists o1, o2. split; [assumption|]. split; [assumption|]. split.
  - intros k x Hk Hnil. split.
    + destruct (Forall2_nth _ _ _ k x F1 Hk) as (r & Hr & Hrec).
      apply flat_record_fields in Hrec as (_ & _ & _ & _ & Hkeys).
      specialize (Hkeys Hnil). exists r. split; [assumption|]. split; [assumption|].
      intros df Hdf. apply etl_transform_inv in Hdf as (_ & Hn).
      eapply not_kept; [exact Hn | exact Hr |].
      apply no_time_no_survival. inversion Hkeys; assumption.
    + destruct (Forall2_nth _ _ _ k x F2 Hk) as (r & Hr & Hrec).
      apply flat_record_fields in Hrec as (_ & _ & _ & _ & Hkeys).
      specialize (Hkeys Hnil). exists r. split; [assumption|]. split; [assumption|].
      intros df Hdf. apply gt_transform_inv in Hdf as (_ & Hn).
      eapply not_kept; [exact Hn | exact Hr |].
      apply no_time_no_survival. inversion Hkeys; assumption.
  - intros Hall. split.
    + apply no_meeting_keys_KeyError.
      clear E1 E2 F2. induction F1 as [|x r xs rs Hrec _ IH]; constructor.
      * apply flat_record_fields in Hrec as (_ & _ & _ & _ & Hkeys).
        apply Hkeys, Hall. now left.
      * apply IH. intros y Hy. apply Hall. now right.
    + apply no_meeting_keys_KeyError.
      clear E1 E2 F1. induction F2 as [|x r xs rs Hrec _ IH]; constructor.
      * apply flat_record_fields in Hrec as (_ & _ & _ & _ & Hkeys).
        apply Hkeys, Hall. now left.
      * apply IH. intros y Hy. apply Hall. now right.
Qed.

Lemma flatten_no_meeting_excluded_witness :
  well_formed sample_doc /\
  exists out_etl out_gt,
    Etl.transform_json_to_list (encode sample_doc) = Ok out_etl /\
    GtClassEtl.transform_json_to_list (encode sample_doc) = Ok out_gt /\
    (forall k x,
      nth_error (doc_sections sample_doc) k = Some x ->
      meetings (snd x) = [] ->
      (exists r, nth_error out_etl k = Some r /\
                 Forall (fun key => has_key key r = false) meeting_keys /\
                 forall df, Etl.transform out_etl = Ok df -> ~ In k (index df)) /\
      (exists r, nth_error out_gt k = Some r /\
                 Forall (fun key => has_key key r = false) meeting_keys /\
                 forall df, GtClassEtl.transform out_gt = Ok df -> ~ In k (index df))) /\
    ((forall x, In x (doc_sections sample_doc) -> meetings (snd x) = []) ->
     Etl.transform out_etl = Raise KeyError /\
     GtClassEtl.transform out_gt = Raise KeyError).
Proof.
  split; [exact sample_doc_well_formed|].
  apply (flatten_no_meeting_excluded sample_doc). exact sample_doc_well_formed.
Defined.

(** The pipeline does return on [sample_doc], and drops its section
    without a meeting (label 1) only. *)
Lemma sample_doc_pipeline :
  exists out df,
    GtClassEtl.transform_json_to_list (encode sample_doc) = Ok out /\
    GtClassEtl.transform out = Ok df /\
    index df = [0; 2]%nat.
Proof.
  eexists; eexists. split; [vm_compute; reflexivity|].
  split; [vm_compute; reflexivity | reflexivity].
Qed.

(** The scenario of the specification: one course, one section with one
    meeting; the pipeline returns one row. *)
Lemma end_to_end_scenario :
  exists out df,
    GtClassEtl.transform_json_to_list (encode scenario_doc) = Ok out /\
    GtClassEtl.transform out = Ok df /\
    index df = [0%nat] /\
    columns df =
      [ ("crn", [Some (PStr "12345")]);
        ("name", [Some (PStr "CS 1331")]);
        ("actual_name", [Some (PStr "Object-Oriented Programming")]);
        ("section", [Some (PStr "A")]);
        ("building", [Some (PStr "Clough")]);
        ("credits", [Some (PInt 3)]);
        ("schedule_type", [Some (PStr "Lecture")]);
        ("campus", [Some (PStr "Atlanta")]);
        ("start_date", [Some (PStr "2025-01-06")]);
        ("end_date", [Some (PStr "2025-05-02")]);
        ("start_time", [Some (PTime 8 0)]);
        ("end_time", [Some (PTime 9 15)]);
        ("monday", [Some (PBool true)]);
        ("tuesday", [Some (PBool false)]);
        ("wednesday", [Some (PBool true)]);
        ("thursday", [Some (PBool false)]);
        ("friday", [Some (PBool true)]) ].
Proof.
  eexists; eexists. split; [vm_compute; reflexivity|].
  split; [vm_compute; reflexivity|]. split; reflexivity.
Qed.

(* ================================================================= *)
(** ** The weekday columns (C7) *)

(** C7 on [etl.py]: the flag of Thursday is written to a column named
    [thurday]; the frame has no column [thursday]. *)
Theorem etl_thursday_column_misnamed :
  exists df,
    Etl.transform (map to_dict sample_records) = Ok df /\
    getcol "thursday" (columns df) = None /\
    getcol "thurday" (columns df) =
      Some [Some (PBool false); Some (PBool true); Some (PBool true)] /\
    map fst (columns df) =
      ["crn"; "name"; "actual_name"; "section"; "credits"; "schedule_type";
       "campus"; "building"; "start_date"; "end_date"; "start_time"; "end_time";
       "monday"; "tuesday"; "wednesday"; "thurday"; "friday"].
Proof.
  eexists. split; [vm_compute; reflexivity|]. repeat split; reflexivity.
Qed.

(** What C7 states holds of [gt_class_etl.py]: each kept record has the
    five flags [monday] .. [friday], true exactly when its day codes
    contain M, T, W, R, F. *)
Lemma gt_weekday_flags (rs : list FlatRecord) (df : DataFrame)
  (k : nat) (r : FlatRecord) (m : Meeting) :
  GtClassEtl.transform (map to_dict rs) = Ok df ->
  nth_error rs k = Some r ->
  f_meeting r = Some m ->
  In k (index df) ->
  loc df k "monday" = Some (Some (PBool (occurs "M" (m_day_of_week m)))) /\
  loc df k "tuesday" = Some (Some (PBool (occurs "T" (m_day_of_week m)))) /\
  loc df k "wednesday" = Some (Some (PBool (occurs "W" (m_day_of_week m)))) /\
  loc df k "thursday" = Some (Some (PBool (occurs "R" (m_day_of_week m)))) /\
  loc df k "friday" = Some (Some (PBool (occurs "F" (m_day_of_week m)))).
Proof.
  intros H Hk Hm Hin. apply gt_transform_inv in H as (_ & Hn).
  assert (Hd : nth_error (map to_dict rs) k = Some (to_dict r))
    by (rewrite nth_error_map, Hk; reflexivity).
  apply (normalized_index _ _ df k Hn) in Hin as (d & Hd' & Hs).
  rewrite Hd in Hd'. injection Hd' as <-.
  destruct (final_col_common "thursday" (map to_dict rs) (or_intror eq_refl))
    as (_ & _ & _ & _ & _ & G1 & G2 & G3 & G4 & G5).
  rewrite (normalized_loc _ _ _ _ _ _ _ Hn G1 Hd),
          (normalized_loc _ _ _ _ _ _ _ Hn G2 Hd),
          (normalized_loc _ _ _ _ _ _ _ Hn G3 Hd),
          (normalized_loc _ _ _ _ _ _ _ Hn G4 Hd),
          (normalized_loc _ _ _ _ _ _ _ Hn G5 Hd), Hs.
  unfold day_flag. rewrite cell_of_day_of_week, Hm. repeat split; reflexivity.
Qed.

(** The flags of a record without day codes are all false. *)
Lemma day_flag_absent (letter : string) (d : dict) :
  has_key "day_of_week" d = false -> day_flag letter d = Some (PBool false).
Proof.
  unfold has_key, day_flag, cell_of.
  destruct (dict_get "day_of_week" d); [discriminate | reflexivity].
Qed.

(* ================================================================= *)
(** ** The building name (C8) *)

(** C8, as stated, fails.  The record of label 4 in [sample_records] has
    the building ["Hall 5"], a text followed by the token ["5"], which
    ends in a digit: its [building] is absent, because the pattern wants a
    token of two characters at least.  The record of label 3 has
    ["Clough G25 West"], whose trailing token ends in no digit: its
    [building] is ["Clough"], because the pattern is not anchored at the
    end. *)
Lemma C8_counterexample :
  (exists df,
      GtClassEtl.transform (map to_dict sample_records) = Ok df /\
      loc df 4 "building" = Some None /\
      loc df 3 "building" = Some (Some (PStr "Clough"))) /\
  (exists df,
      Etl.transform (map to_dict sample_records) = Ok df /\
      loc df 4 "building" = Some None /\
      loc df 3 "building" = Some (Some (PStr "Clough"))).
Proof.
  split; eexists; (split; [vm_compute; reflexivity|]); split; reflexivity.
Qed.

(** C8, amended: for every kept record, [building] is what [re.search]
    finds for [building_pattern] in [buildingRaw]: a piece of it that is
    directly followed by a space, one or more word characters and then a
    decimal digit (a room token of two characters at least, trailing or
    not).  When [buildingRaw] is a text on one line, a space and a trailing
    token of word characters that ends in a decimal digit and has two
    characters at least, [building] is that text; when no position of
    [buildingRaw] starts such a token, and only then, [building] is
    absent, and the record is kept. *)
Theorem normalize_building (rs : list FlatRecord) (df : DataFrame)
  (k : nat) (r : FlatRecord) (m : Meeting) :
  either_transform (map to_dict rs) df ->
  nth_error rs k = Some r ->
  f_meeting r = Some m ->
  In k (index df) ->
  loc df k "building" = Some (option_map PStr (extract_building (m_building m))) /\
  (forall x w d,
      m_building m = string_of_list_ascii (x ++ " "%char :: w ++ [d]) ->
      Forall (fun c => (code c =? 10)%nat = false) x ->
      w <> [] -> Forall (fun c => is_word c = true) w -> is_decimal d = true ->
      loc df k "building" = Some (Some (PStr (string_of_list_ascii x)))) /\
  (loc df k "building" = Some None <->
   forall pre suf, list_ascii_of_string (m_building m) = pre ++ suf ->
                   room_at suf = false) /\
  (forall b, loc df k "building" = Some (Some (PStr b)) ->
             exists pre suf,
               list_ascii_of_string (m_building m) =
               pre ++ list_ascii_of_string b ++ suf /\ room_at suf = true).
Proof.
  intros H Hk Hm Hin.
  apply either_transform_inv in H as (_ & thu & Hn & Hthu).
  assert (Hd : nth_error (map to_dict rs) k = Some (to_dict r))
    by (rewrite nth_error_map, Hk; reflexivity).
  apply (normalized_index _ _ df k Hn) in Hin as (d0 & Hd' & Hs).
  rewrite Hd in Hd'. injection Hd' as <-.
  destruct (final_col_common thu (map to_dict rs) Hthu)
    as (_ & _ & _ & _ & F & _).
  rewrite (normalized_loc _ _ _ _ _ _ _ Hn F Hd), Hs.
  unfold building_of. rewrite cell_of_building, Hm. cbn [option_map extract_cell].
  unfold extract_building.
  split; [reflexivity|]. split; [|split].
  - intros x w d -> Hx Hne Hw Hdec.
    rewrite list_ascii_of_string_of_list_ascii.
    now rewrite (search_trailing_token x w d Hx Hne Hw Hdec).
  - rewrite <- search_from_None.
    destruct (search_from (list_ascii_of_string (m_building m)));
      cbn [option_map]; split; intros E;
      first [discriminate E | reflexivity].
  - intros b Hb.
    destruct (search_from (list_ascii_of_string (m_building m))) as [g|] eqn:S;
      cbn [option_map] in Hb; [|discriminate].
    injection Hb as <-. rewrite list_ascii_of_string_of_list_ascii.
    now apply search_from_Some.
Qed.

Lemma normalize_building_witness :
  exists df,
    either_transform (map to_dict sample_records) df /\
    nth_error sample_records 1 =
      Some (flat "0800 - 0915" "MWF" "Clough Undergraduate Learning Commons G25" term) /\
    In 1%nat (index df) /\
    extract_building "Clough Undergraduate Learning Commons G25" =
      Some "Clough Undergraduate Learning Commons" /\
    loc df 1 "building" = Some (Some (PStr "Clough Undergraduate Learning Commons")).
Proof.
  eexists. split; [right; vm_compute; reflexivity|]. split; [reflexivity|].
  split; [cbn; tauto|]. split; [reflexivity|].
  exact (proj1 (normalize_building sample_records _ 1 _ _
                  ltac:(right; vm_compute; reflexivity) eq_refl eq_refl
                  ltac:(cbn; tauto))).
Defined.

(* ================================================================= *)
(** ** The two implementations compared (C10) *)

(** C10, as stated, fails: on [sample_doc] the two flatteners return
    different record lists (they differ in [attributes]), and on
    [sample_records] the two normalizers return different frames (the
    column of Thursday has two names). *)
Lemma C10_counterexample :
  Etl.transform_json_to_list (encode sample_doc) <>
  GtClassEtl.transform_json_to_list (encode sample_doc) /\
  Etl.transform (map to_dict sample_records) <>
  GtClassEtl.transform (map to_dict sample_records).
Proof.
  split; intros H; vm_compute in H; discriminate H.
Qed.

Lemma final_col_other (ds : list dict) (c : string) :
  c <> "thursday" -> c <> "thurday" ->
  final_col "thurday" ds c = final_col "thursday" ds c.
Proof.
  intros N1 N2. unfold final_col.
  destruct (String.eqb_spec c "thurday"); [contradiction|].
  destruct (String.eqb_spec c "thursday"); [contradiction|]. reflexivity.
Qed.

(** C10, amended: on every document with distinct keys the two flatteners
    raise the same exception or return record lists of the same length
    whose records agree in every field but [attributes]; on every sequence
    of FlatRecords the two normalizers raise the same exception or return
    frames that have the same rows and, under every name but [thursday]
    and [thurday], the same column. *)
Theorem implementations_agree (ca : string -> nat) (sa : string -> string -> nat)
  (d : CatalogDocument) (rs : list FlatRecord) :
  distinct_keys d ->
  same_outcome (Forall2 (agree_except "attributes"))
    (Etl.transform_json_to_list (encode_at ca sa d))
    (GtClassEtl.transform_json_to_list (encode_at ca sa d)) /\
  same_outcome
    (fun df1 df2 =>
       index df1 = index df2 /\
       forall c, c <> "thursday" -> c <> "thurday" ->
                 getcol c (columns df1) = getcol c (columns df2))
    (Etl.transform (map to_dict rs))
    (GtClassEtl.transform (map to_dict rs)).
Proof.
  intros Hk. split; [now apply flatten_agree|].
  destruct (Etl.transform (map to_dict rs)) as [df1|e1] eqn:H1,
           (GtClassEtl.transform (map to_dict rs)) as [df2|e2] eqn:H2;
    cbn [same_outcome].
  - apply etl_transform_inv in H1 as (_ & I1 & C1).
    apply gt_transform_inv in H2 as (_ & I2 & C2).
    split; [congruence|]. intros c N1 N2.
    rewrite C1, C2. now apply final_col_other.
  - apply etl_transform_inv in H1 as (Hc & _).
    apply gt_transform_ok in Hc as (df & Hdf). congruence.
  - apply gt_transform_inv in H2 as (Hc & _).
    apply etl_transform_ok in Hc as (df & Hdf). congruence.
  - eapply transforms_raise_same; eassumption.
Qed.

Lemma implementations_agree_witness :
  distinct_keys sample_doc /\
  same_outcome (Forall2 (agree_except "attributes"))
    (Etl.transform_json_to_list (encode sample_doc))
    (GtClassEtl.transform_json_to_list (encode sample_doc)) /\
  same_outcome
    (fun df1 df2 =>
       index df1 = index df2 /\
       forall c, c <> "thursday" -> c <> "thurday" ->
                 getcol c (columns df1) = getcol c (columns df2))
    (Etl.transform (map to_dict sample_records))
    (GtClassEtl.transform (map to_dict sample_records)).
Proof.
  split; [exact (proj1 sample_doc_well_formed)|].
  exact (implementations_agree (fun _ => 2%nat) (fun _ _ => 6%nat)
           sample_doc sample_records (proj1 sample_doc_well_formed)).
Defined.

(* ================================================================= *)
(** ** More on the flatteners *)

(* ----------------------------------------------------------------- *)
(** *** When a flattener raises *)

Lemma flatten_typed_Raise_inv attr ca sa d e :
  flatten_typed attr ca sa d = Raise e ->
  e = IndexError /\ exists i l, malformed_at ca sa d i l.
Proof.
  unfold flatten_typed.
  destruct (mapM _ (courses d)) as [rr|e'] eqn:E; cbn [bind]; [discriminate|].
  intros H; injection H as ->.
  apply mapM_Raise_inv in E as ([i c] & Hin & Hc).
  unfold flatten_course in Hc; cbn [fst snd] in Hc.
  destruct (ca i <? 2)%nat eqn:Hca.
  - injection Hc as <-. split; [reflexivity|].
    exists i, "", c. split; [exact Hin|]. left. now apply Nat.ltb_lt.
  - apply mapM_Raise_inv in Hc as ([l s] & Hin' & Hs).
    unfold flatten_section in Hs; cbn [fst snd] in Hs.
    destruct (sa i l <? 6)%nat eqn:Hsa.
    + injection Hs as <-. split; [reflexivity|].
      exists i, l, c. split; [exact Hin|]. right.
      exists s. split; [exact Hin'|]. left. now apply Nat.ltb_lt.
    + split; [eapply flat_record_Raise; eassumption|].
      exists i, l, c. split; [exact Hin|]. right.
      exists s. split; [exact Hin'|]. right.
      destruct (section_ok (caches d) s) eqn:Hok; [|reflexivity].
      apply (flat_record_ok attr (caches d) i (displayName c) l s) in Hok
        as (r & Hr).
      rewrite Hr in Hs. discriminate Hs.
Qed.

Lemma flatten_typed_cases attr ca sa d :
  (forall e, flatten_typed attr ca sa d = Raise e -> e = IndexError) /\
  (flatten_typed attr ca sa d = Raise IndexError <->
   exists i l, malformed_at ca sa d i l) /\
  ((exists out, flatten_typed attr ca sa d = Ok out) <->
   forall i l, ~ malformed_at ca sa d i l).
Proof.
  split; [|split].
  - intros e H. now apply flatten_typed_Raise_inv in H.
  - split.
    + intros H. now apply flatten_typed_Raise_inv in H.
    + intros (i & l & H). now apply flatten_typed_malformed with (i := i) (l := l).
  - split.
    + intros (out & H) i l Hm.
      rewrite (flatten_typed_malformed attr ca sa d i l Hm) in H. discriminate H.
    + intros H. destruct (flatten_typed attr ca sa d) as [out|e] eqn:E; [eauto|].
      apply flatten_typed_Raise_inv in E as (_ & i & l & Hm).
      now destruct (H i l).
Qed.

(** X1.  On a document of the data model, whatever the lengths of its
    course and section tuples, a flattener raises nothing but
    [IndexError]; it raises exactly when some course or section is
    malformed (a tuple shorter than its fixed positions, or a consulted
    cache index out of range), and returns exactly when none is. *)
Theorem flatten_failure (ca : string -> nat) (sa : string -> string -> nat)
  (d : CatalogDocument) :
  distinct_keys d ->
  ((forall e, Etl.transform_json_to_list (encode_at ca sa d) = Raise e ->
              e = IndexError) /\
   (Etl.transform_json_to_list (encode_at ca sa d) = Raise IndexError <->
    exists i l, malformed_at ca sa d i l) /\
   ((exists out, Etl.transform_json_to_list (encode_at ca sa d) = Ok out) <->
    forall i l, ~ malformed_at ca sa d i l)) /\
  ((forall e, GtClassEtl.transform_json_to_list (encode_at ca sa d) = Raise e ->
              e = IndexError) /\
   (GtClassEtl.transform_json_to_list (encode_at ca sa d) = Raise IndexError <->
    exists i l, malformed_at ca sa d i l) /\
   ((exists out, GtClassEtl.transform_json_to_list (encode_at ca sa d) = Ok out) <->
    forall i l, ~ malformed_at ca sa d i l)).
Proof.
  intros Hd. rewrite (etl_flatten_typed ca sa d Hd), (gt_flatten_typed ca sa d Hd).
  split; apply flatten_typed_cases.
Qed.

Lemma flatten_failure_witness :
  distinct_keys bad_campus_doc /\
  (Etl.transform_json_to_list (encode bad_campus_doc) = Raise IndexError <->
   exists i l, malformed_at (fun _ => 2%nat) (fun _ _ => 6%nat) bad_campus_doc i l) /\
  ((exists out, GtClassEtl.transform_json_to_list (encode sample_doc) = Ok out) <->
   forall i l, ~ malformed_at (fun _ => 2%nat) (fun _ _ => 6%nat) sample_doc i l).
Proof.
  split; [exact bad_campus_doc_distinct_keys|]. split.
  - exact (proj1 (proj2 (proj1
             (flatten_failure (fun _ => 2%nat) (fun _ _ => 6%nat) bad_campus_doc
                bad_campus_doc_distinct_keys)))).
  - exact (proj2 (proj2 (proj2
             (flatten_failure (fun _ => 2%nat) (fun _ _ => 6%nat) sample_doc
                (proj1 sample_doc_well_formed))))).
Defined.

(* ----------------------------------------------------------------- *)
(** *** Only the first meeting block is read *)

Lemma mapM_map {X Y Z : Type} (f : Y -> result Z) (g : X -> Y) (xs : list X) :
  mapM f (map g xs) = mapM (fun x => f (g x)) xs.
Proof.
  induction xs as [|x r IH]; cbn [map mapM]; [reflexivity|]. now rewrite IH.
Qed.

Lemma meeting_fields_first c ms :
  meeting_fields c (firstn 1 ms) = meeting_fields c ms.
Proof. now destruct ms. Qed.

Lemma flat_record_first attr c i dn l s :
  flat_record attr c i dn l (first_meeting s) = flat_record attr c i dn l s.
Proof.
  unfold flat_record, first_meeting.
  cbn [meetings scheduleTypeIdx campusIdx attributeIdxs crn credits].
  now rewrite meeting_fields_first.
Qed.

Lemma flatten_typed_first attr ca sa d :
  flatten_typed attr ca sa (first_meetings d) = flatten_typed attr ca sa d.
Proof.
  unfold flatten_typed, first_meetings; cbn [courses caches].
  rewrite mapM_map. f_equal. apply mapM_ext_in. intros [i c] _.
  unfold flatten_course; cbn [fst snd displayName sections].
  destruct (ca i <? 2)%nat; [reflexivity|].
  rewrite mapM_map. apply mapM_ext_in. intros [l s] _.
  unfold flatten_section; cbn [fst snd].
  destruct (sa i l <? 6)%nat; [reflexivity|]. apply flat_record_first.
Qed.

Lemma distinct_keys_first d : distinct_keys (first_meetings d) <-> distinct_keys d.
Proof.
  unfold distinct_keys, first_meetings; cbn [courses].
  rewrite map_map; cbn [fst]. rewrite Forall_map.
  assert (E : forall ic : string * Course,
             NoDup (map fst (sections (snd
               (fst ic,
                {| displayName := displayName (snd ic);
                   sections := map (fun ls : string * SectionRecord =>
                                      (fst ls, first_meeting (snd ls)))
                                   (sections (snd ic)) |})))) <->
             NoDup (map fst (sections (snd ic)))).
  { intros ic. cbn [snd sections]. rewrite map_map. cbn [fst]. reflexivity. }
  split; intros (H1 & H2); (split; [exact H1|]);
    (eapply Forall_impl; [|exact H2]); intros ic; apply E.
Qed.

(** X2.  A flattener reads the first meeting block of a section and no
    other: two documents that differ only in the meeting blocks after the
    first give the same result, the same records or the same exception. *)
Theorem flatten_reads_first_meeting (ca : string -> nat)
  (sa : string -> string -> nat) (d d' : CatalogDocument) :
  distinct_keys d ->
  first_meetings d = first_meetings d' ->
  Etl.transform_json_to_list (encode_at ca sa d) =
  Etl.transform_json_to_list (encode_at ca sa d') /\
  GtClassEtl.transform_json_to_list (encode_at ca sa d) =
  GtClassEtl.transform_json_to_list (encode_at ca sa d').
Proof.
  intros Hd E.
  assert (Hd' : distinct_keys d').
  { apply distinct_keys_first. rewrite <- E. now apply distinct_keys_first. }
  rewrite (etl_flatten_typed ca sa d Hd), (etl_flatten_typed ca sa d' Hd').
  rewrite (gt_flatten_typed ca sa d Hd), (gt_flatten_typed ca sa d' Hd').
  rewrite <- (flatten_typed_first attributes_etl ca sa d).
  rewrite <- (flatten_typed_first attributes_gt ca sa d).
  rewrite <- (flatten_typed_first attributes_etl ca sa d').
  rewrite <- (flatten_typed_first attributes_gt ca sa d').
  now rewrite E.
Qed.

Lemma unread_index_doc_distinct_keys : distinct_keys unread_index_doc.
Proof.
  split; repeat constructor; cbn; intuition discriminate.
Qed.

Lemma flatten_reads_first_meeting_witness :
  distinct_keys unread_index_doc /\
  first_meetings unread_index_doc <> unread_index_doc /\
  Etl.transform_json_to_list (encode unread_index_doc) =
  Etl.transform_json_to_list (encode (first_meetings unread_index_doc)) /\
  GtClassEtl.transform_json_to_list (encode unread_index_doc) =
  GtClassEtl.transform_json_to_list (encode (first_meetings unread_index_doc)).
Proof.
  split; [exact unread_index_doc_distinct_keys|].
  split; [intros H; vm_compute in H; discriminate H|].
  exact (flatten_reads_first_meeting (fun _ => 2%nat) (fun _ _ => 6%nat)
           unread_index_doc (first_meetings unread_index_doc)
           unread_index_doc_distinct_keys eq_refl).
Defined.

(* ----------------------------------------------------------------- *)
(** *** The records are the resolved sections *)

Lemma list_getitem_lookup {A : Type} (l : list A) (z : Z) (v : A) :
  list_getitem l z = Ok v <-> list_lookup l z = Some v.
Proof.
  unfold list_getitem. destruct (list_lookup l z); split; intros H;
    try discriminate H; now injection H as ->.
Qed.

Lemma mapM_lookup_all {A : Type} (table : list A) (idxs : list Z) (vs : list A) :
  mapM (list_getitem table) idxs = Ok vs <-> lookup_all table idxs = Some vs.
Proof.
  revert vs. induction idxs as [|z r IH]; intros vs; cbn [mapM lookup_all].
  - split; intros H; now injection H as <-.
  - unfold list_getitem at 1.
    destruct (list_lookup table z) as [v|]; cbn [bind];
      [|split; intros H; discriminate H].
    destruct (mapM (list_getitem table) r) as [ws|e];
      destruct (lookup_all table r) as [ws'|]; cbn [bind].
    + destruct (IH ws) as (H1 & _). specialize (H1 eq_refl).
      injection H1 as ->. split; intros H; now injection H as <-.
    + destruct (IH ws) as (H1 & _). discriminate (H1 eq_refl).
    + destruct (IH ws') as (_ & H2). discriminate (H2 eq_refl).
    + split; intros H; discriminate H.
Qed.

Lemma flat_record_resolved attr c i dn l s r :
  flat_record attr c i dn l s = Ok r <->
  exists fr, resolved attr c (i, dn, l, s) = Some fr /\ r = to_dict fr.
Proof.
  unfold resolved; cbn [fst snd]. split.
  - intros H.
    apply flat_record_inv in H as (mf & st & cp & labels & Hm & Hst & Hcp & Hl & ->).
    apply list_getitem_lookup in Hst, Hcp. apply mapM_lookup_all in Hl.
    rewrite Hst, Hcp, Hl.
    apply meeting_fields_inv in Hm
      as [[-> ->]|(m & ms & t & loc & dr & -> & Ht & Hloc & Hdr & ->)].
    + eexists. split; reflexivity.
    + apply list_getitem_lookup in Ht, Hloc, Hdr.
      unfold resolved_meeting. rewrite Ht, Hloc, Hdr. cbn [option_map].
      eexists. split; reflexivity.
  - intros (fr & H & ->). unfold flat_record.
    destruct (list_lookup (scheduleTypes c) (scheduleTypeIdx s)) as [st|] eqn:Hst;
      [|destruct (match meetings s with [] => _ | _ => _ end); discriminate H].
    destruct (list_lookup (campuses c) (campusIdx s)) as [cp|] eqn:Hcp;
      [|destruct (match meetings s with [] => _ | _ => _ end); discriminate H].
    destruct (lookup_all (attributes c) (attributeIdxs s)) as [labels|] eqn:Hl;
      [|destruct (match meetings s with [] => _ | _ => _ end); discriminate H].
    apply list_getitem_lookup in Hst, Hcp. apply mapM_lookup_all in Hl.
    rewrite Hst, Hcp, Hl.
    destruct (meetings s) as [|m ms]; cbn [meeting_fields].
    + injection H as <-. reflexivity.
    + unfold resolved_meeting in H.
      destruct (list_lookup (periods c) (periodIdx m)) as [t|] eqn:Ht;
        [|discriminate H].
      destruct (list_lookup (locations c) (locationIdx m)) as [loc|] eqn:Hloc;
        [|discriminate H].
      destruct (list_lookup (dateRanges c) (dateRangeIdx m)) as [dr|] eqn:Hdr;
        [|discriminate H].
      apply list_getitem_lookup in Ht, Hloc, Hdr. rewrite Ht, Hloc, Hdr.
      injection H as <-. reflexivity.
Qed.

(** What a returned list is made of: the records of the sections, in the
    order of the document. *)
Lemma flatten_typed_Ok_inv attr ca sa d out :
  flatten_typed attr ca sa d = Ok out ->
  mapM (fun x => flat_record attr (caches d) (fst (fst (fst x)))
                   (snd (fst (fst x))) (snd (fst x)) (snd x))
       (doc_sections d) = Ok out.
Proof.
  unfold flatten_typed, doc_sections. intros H.
  rewrite <- (mapM_flat_map
                (fun x => flat_record attr (caches d) (fst (fst (fst x)))
                            (snd (fst (fst x))) (snd (fst x)) (snd x))).
  apply bind_Ok_inv in H as (rr & E & H).
  replace (mapM _ (courses d)) with (Ok (A := list (list dict)) rr); [exact H|].
  symmetry. apply mapM_Ok_Forall2. apply mapM_Ok_Forall2 in E.
  eapply Forall2_impl; [|exact E]. intros [i c] r Hc.
  unfold flatten_course in Hc; cbn [fst snd] in Hc |- *.
  destruct (ca i <? 2)%nat; [discriminate Hc|].
  rewrite mapM_map; cbn [fst snd].
  apply mapM_Ok_Forall2. apply mapM_Ok_Forall2 in Hc.
  eapply Forall2_impl; [|exact Hc]. intros [l s] r' Hs.
  unfold flatten_section in Hs; cbn [fst snd] in Hs.
  destruct (sa i l <? 6)%nat; [discriminate Hs|exact Hs].
Qed.

Lemma Forall2_resolved {X Y W : Type} (h : X -> option Y) (g : Y -> W)
  (xs : list X) (out : list W) :
  Forall2 (fun x r => exists y, h x = Some y /\ r = g y) xs out ->
  exists ys, out = map g ys /\ map h xs = map Some ys.
Proof.
  induction 1 as [|x r xs out (y & Hy & ->) _ (ys & -> & IH)].
  - exists []. split; reflexivity.
  - exists (y :: ys). cbn [map]. rewrite Hy, IH. split; reflexivity.
Qed.

Lemma flatten_typed_resolved attr ca sa d out :
  flatten_typed attr ca sa d = Ok out ->
  exists rs, out = map to_dict rs /\
             map (resolved attr (caches d)) (doc_sections d) = map Some rs.
Proof.
  intros H. apply flatten_typed_Ok_inv in H. apply mapM_Ok_Forall2 in H.
  apply Forall2_resolved. eapply Forall2_impl; [|exact H].
  intros [[[i dn] l] s] r Hr; cbn [fst snd] in Hr.
  now apply flat_record_resolved.
Qed.

(** X3.  Whenever a flattener returns, its records are the FlatRecords of
    the (course, section) pairs, in the order of the document: [crn],
    [credits] and the keys copied, [actual_name] the display name of the
    course, every index replaced by the entry of its cache table, the
    meeting fields those of the first meeting block and absent when there
    is none. *)
Theorem flatten_resolves (ca : string -> nat) (sa : string -> string -> nat)
  (d : CatalogDocument) :
  distinct_keys d ->
  (forall out, Etl.transform_json_to_list (encode_at ca sa d) = Ok out ->
     exists rs, out = map to_dict rs /\
                map (resolved attributes_etl (caches d)) (doc_sections d) =
                map Some rs) /\
  (forall out, GtClassEtl.transform_json_to_list (encode_at ca sa d) = Ok out ->
     exists rs, out = map to_dict rs /\
                map (resolved attributes_gt (caches d)) (doc_sections d) =
                map Some rs).
Proof.
  intros Hd. rewrite (etl_flatten_typed ca sa d Hd), (gt_flatten_typed ca sa d Hd).
  split; intros out; apply flatten_typed_resolved.
Qed.

Lemma flatten_resolves_witness :
  distinct_keys sample_doc /\
  exists out rs,
    GtClassEtl.transform_json_to_list (encode sample_doc) = Ok out /\
    out = map to_dict rs /\
    map (resolved attributes_gt (caches sample_doc)) (doc_sections sample_doc) =
    map Some rs /\
    map has_meeting rs = [true; false; true].
Proof.
  split; [exact (proj1 sample_doc_well_formed)|].
  destruct (proj2 (flatten_resolves (fun _ => 2%nat) (fun _ _ => 6%nat) sample_doc
                     (proj1 sample_doc_well_formed))
              _ eq_refl) as (rs & H1 & H2).
  exists (map to_dict rs), rs. rewrite <- H1.
  split; [reflexivity|]. split; [reflexivity|]. split; [exact H2|].
  vm_compute in H2.
  repeat (destruct rs as [|? rs]; [discriminate H2|]).
  destruct rs; [|discriminate H2].
  injection H2 as <- <- <-. reflexivity.
Defined.

(* ----------------------------------------------------------------- *)
(** *** Negative indices *)

Lemma list_lookup_from_start {A : Type} (l : list A) (z : Z) :
  list_lookup l (from_start (List.length l) z) = list_lookup l z.
Proof.
  unfold from_start.
  destruct ((z <? 0) && (- Z.of_nat (List.length l) <=? z))%Z eqn:C;
    [|reflexivity].
  apply andb_prop in C as (C1 & C2). apply Z.ltb_lt in C1. apply Z.leb_le in C2.
  unfold list_lookup, normalize_index.
  rewrite (proj2 (Z.ltb_lt z 0) C1).
  replace (z + Z.of_nat (List.length l) <? 0)%Z with false
    by (symmetry; apply Z.ltb_ge; lia).
  reflexivity.
Qed.

Lemma list_getitem_from_start {A : Type} (l : list A) (z : Z) :
  list_getitem l (from_start (List.length l) z) = list_getitem l z.
Proof. unfold list_getitem. now rewrite list_lookup_from_start. Qed.

Lemma meeting_fields_from_start c ms :
  meeting_fields c (map (meeting_from_start c) ms) = meeting_fields c ms.
Proof.
  destruct ms as [|m ms]; [reflexivity|].
  cbn [map meeting_fields meeting_from_start periodIdx locationIdx dateRangeIdx
       dayCodes buildingRaw professors].
  now rewrite !list_getitem_from_start.
Qed.

Lemma mapM_from_start {A : Type} (l : list A) (zs : list Z) :
  mapM (list_getitem l) (map (from_start (List.length l)) zs) =
  mapM (list_getitem l) zs.
Proof.
  rewrite mapM_map. apply mapM_ext_in. intros z _.
  apply list_getitem_from_start.
Qed.

Lemma flat_record_from_start attr c i dn l s :
  flat_record attr c i dn l (section_from_start c s) = flat_record attr c i dn l s.
Proof.
  unfold flat_record, section_from_start.
  cbn [meetings scheduleTypeIdx campusIdx attributeIdxs crn credits].
  rewrite meeting_fields_from_start.
  destruct (meeting_fields c (meetings s)) as [mf|e]; cbn [bind]; [|reflexivity].
  rewrite list_getitem_from_start.
  destruct (list_getitem (scheduleTypes c) (scheduleTypeIdx s)) as [st|e];
    cbn [bind]; [|reflexivity].
  rewrite list_getitem_from_start.
  destruct (list_getitem (campuses c) (campusIdx s)) as [cp|e];
    cbn [bind]; [|reflexivity].
  now rewrite mapM_from_start.
Qed.

Lemma flatten_typed_from_start attr ca sa d :
  flatten_typed attr ca sa (indices_from_start d) = flatten_typed attr ca sa d.
Proof.
  unfold flatten_typed, indices_from_start; cbn [courses caches].
  rewrite mapM_map. f_equal. apply mapM_ext_in. intros [i c] _.
  unfold flatten_course; cbn [fst snd displayName sections].
  destruct (ca i <? 2)%nat; [reflexivity|].
  rewrite mapM_map. apply mapM_ext_in. intros [l s] _.
  unfold flatten_section; cbn [fst snd].
  destruct (sa i l <? 6)%nat; [reflexivity|]. apply flat_record_from_start.
Qed.

Lemma distinct_keys_from_start d :
  distinct_keys (indices_from_start d) <-> distinct_keys d.
Proof.
  unfold distinct_keys, indices_from_start; cbn [courses].
  rewrite map_map; cbn [fst]. rewrite Forall_map.
  assert (E : forall ic : string * Course,
             NoDup (map fst (sections (snd
               (fst ic,
                {| displayName := displayName (snd ic);
                   sections := map (fun ls : string * SectionRecord =>
                                      (fst ls, section_from_start (caches d) (snd ls)))
                                   (sections (snd ic)) |})))) <->
             NoDup (map fst (sections (snd ic)))).
  { intros ic. cbn [snd sections]. rewrite map_map. cbn [fst]. reflexivity. }
  split; intros (H1 & H2); (split; [exact H1|]);
    (eapply Forall_impl; [|exact H2]); intros ic; apply E.
Qed.

(** X18.  A negative index of a cache table is accepted when it is in
    range and counts from the end of the table, as for any Python list:
    the document in which every such index is replaced by the index of
    the same entry counted from the start gives the same result. *)
Theorem flatten_negative_indices (ca : string -> nat)
  (sa : string -> string -> nat) (d : CatalogDocument) :
  distinct_keys d ->
  Etl.transform_json_to_list (encode_at ca sa (indices_from_start d)) =
  Etl.transform_json_to_list (encode_at ca sa d) /\
  GtClassEtl.transform_json_to_list (encode_at ca sa (indices_from_start d)) =
  GtClassEtl.transform_json_to_list (encode_at ca sa d).
Proof.
  intros Hd.
  assert (Hd' : distinct_keys (indices_from_start d))
    by now apply distinct_keys_from_start.
  rewrite (etl_flatten_typed ca sa d Hd), (gt_flatten_typed ca sa d Hd).
  rewrite (etl_flatten_typed ca sa _ Hd'), (gt_flatten_typed ca sa _ Hd').
  now rewrite !flatten_typed_from_start.
Qed.

Lemma flatten_negative_indices_witness :
  distinct_keys unread_index_doc /\
  indices_from_start unread_index_doc <> unread_index_doc /\
  (exists out,
     Etl.transform_json_to_list (encode unread_index_doc) = Ok out) /\
  Etl.transform_json_to_list (encode (indices_from_start unread_index_doc)) =
  Etl.transform_json_to_list (encode unread_index_doc) /\
  GtClassEtl.transform_json_to_list (encode (indices_from_start unread_index_doc)) =
  GtClassEtl.transform_json_to_list (encode unread_index_doc).
Proof.
  split; [exact unread_index_doc_distinct_keys|].
  split; [intros H; vm_compute in H; discriminate H|].
  split; [eexists; vm_compute; reflexivity|].
  exact (flatten_negative_indices (fun _ => 2%nat) (fun _ _ => 6%nat)
           unread_index_doc unread_index_doc_distinct_keys).
Defined.

(* ================================================================= *)
(** ** More on [split], [strptime] and [contains] *)

(* ----------------------------------------------------------------- *)
(** *** Joining the parts gives the string back *)

Lemma prefix_app (p s : string) :
  String.prefix p s = true -> exists rest, s = (p ++ rest)%string.
Proof.
  revert s. induction p as [|a p IH]; intros s H; cbn [String.prefix] in H.
  - exists s. reflexivity.
  - destruct s as [|b s]; [discriminate H|].
    cbn [String.prefix] in H.
    destruct (ascii_dec a b) as [->|]; [|discriminate H].
    destruct (IH s H) as (rest & ->). exists rest. reflexivity.
Qed.

Lemma length_append (s1 s2 : string) :
  String.length (s1 ++ s2) = (String.length s1 + String.length s2)%nat.
Proof. induction s1 as [|a s1 IH]; cbn; [reflexivity | now rewrite IH]. Qed.

(** The characters of a separator still to pass are passed. *)
Lemma split_go_skip (sep p cur rest : string) :
  split_go sep (String.length p) cur (p ++ rest) = split_go sep 0 cur rest.
Proof.
  induction p as [|a p IH]; cbn [String.length append].
  - reflexivity.
  - cbn [split_go]. exact IH.
Qed.

Lemma split_go_nonempty (sep : string) (skip : nat) (cur s : string) :
  exists x l, split_go sep skip cur s = x :: l.
Proof.
  revert skip cur. induction s as [|c r IH]; intros skip cur; cbn [split_go].
  - eauto.
  - destruct skip as [|k]; [|apply IH].
    destruct (String.prefix sep (String c r)); [eauto|apply IH].
Qed.

Lemma split_go_join (sep : string) (n : nat) :
  sep <> "" ->
  forall s cur, (String.length s <= n)%nat ->
    String.concat sep (split_go sep 0 cur s) = (cur ++ s)%string.
Proof.
  intros Hsep. induction n as [|n IH]; intros s cur Hn.
  - destruct s; [|cbn in Hn; lia]. cbn. now rewrite append_empty_r.
  - destruct s as [|c r]; [cbn; now rewrite append_empty_r|].
    cbn [split_go]. destruct (String.prefix sep (String c r)) eqn:Hp.
    + destruct sep as [|a sep']; [now destruct Hsep|].
      destruct (prefix_app _ _ Hp) as (rest & E).
      cbn [append] in E. injection E as <- ->.
      cbn [String.length]. rewrite Nat.sub_succ, Nat.sub_0_r, split_go_skip.
      destruct (split_go_nonempty (String c sep') 0 "" rest) as (x & l & E).
      assert (J := IH rest "" ltac:(cbn [String.length] in Hn;
                                   rewrite length_append in Hn; lia)).
      rewrite E in J |- *.
      change (String.concat (String c sep') (cur :: x :: l))
        with (cur ++ String c sep' ++ String.concat (String c sep') (x :: l))%string.
      rewrite J. reflexivity.
    + rewrite IH by (cbn [String.length] in Hn; lia).
      apply append_String_assoc.
Qed.

Lemma split_join (sep s : string) :
  sep <> "" -> String.concat sep (split sep s) = s.
Proof.
  intros H. unfold split. now rewrite (split_go_join sep (String.length s) H).
Qed.

(** A string that contains the separator has at least two parts. *)
Lemma split_go_occurs (sep : string) (cur s : string) :
  sep <> "" -> occurs sep s = true ->
  (2 <= List.length (split_go sep 0 cur s))%nat.
Proof.
  intros Hsep. revert cur. induction s as [|c r IH]; intros cur H.
  - cbn in H. destruct sep; [now destruct Hsep|discriminate H].
  - cbn [occurs] in H. cbn [split_go].
    destruct (String.prefix sep (String c r)) eqn:Hp.
    + destruct (split_go_nonempty sep (String.length sep - 1) "" r)
        as (x & l & ->).
      cbn [List.length]. lia.
    + cbn [orb] in H. now apply IH.
Qed.

Lemma split_occurs (sep s : string) :
  sep <> "" ->
  (occurs sep s = true <-> (2 <= List.length (split sep s))%nat).
Proof.
  intros Hsep. split.
  - now apply split_go_occurs.
  - intros H. destruct (occurs sep s) eqn:E; [reflexivity|].
    rewrite (split_no_sep _ _ E) in H. cbn in H. lia.
Qed.

(* ----------------------------------------------------------------- *)
(** *** A one-letter pattern *)

Lemma prefix_empty (s : string) : String.prefix "" s = true.
Proof. now destruct s. Qed.

Lemma occurs_letter (c : ascii) (s : string) :
  occurs (String c "") s = existsb (Ascii.eqb c) (list_ascii_of_string s).
Proof.
  induction s as [|a s IH]; [reflexivity|].
  cbn [occurs list_ascii_of_string existsb String.prefix]. rewrite IH.
  destruct (ascii_dec c a) as [->|N].
  - now rewrite prefix_empty, Ascii.eqb_refl.
  - destruct (Ascii.eqb_spec c a) as [E|_]; [now destruct N|reflexivity].
Qed.

(* ----------------------------------------------------------------- *)
(** *** What [strptime] accepts *)

Ltac digit_facts :=
  unfold is_decimal, between, digit_value in *;
  repeat match goal with
         | H : _ && _ = true |- _ => apply andb_prop in H; destruct H
         | H : (_ <=? _)%nat = true |- _ => apply Nat.leb_le in H
         | H : (_ =? _)%nat = true |- _ => apply Nat.eqb_eq in H
         end.

Ltac digit_goal :=
  cbn [forallb]; unfold is_decimal, between, digit_value;
  repeat match goal with
         | |- _ && _ = true => apply andb_true_intro; split
         | |- (_ <=? _)%nat = true => apply Nat.leb_le
         | |- true = true => reflexivity
         end; try lia.

Lemma hour_alts_spec (l : list ascii) (h : Z) (r : list ascii) :
  In (h, r) (hour_alts l) ->
  (0 <= h <= 23)%Z /\
  exists pre, l = pre ++ r /\ (1 <= List.length pre <= 2)%nat /\
              forallb is_decimal pre = true.
Proof.
  unfold hour_alts. intros H.
  apply in_app_or in H as [H|H]; [|apply in_app_or in H as [H|H]].
  - destruct l as [|a [|b r0]]; try contradiction.
    destruct ((code a =? 50)%nat && between 48 51 b) eqn:C; [|contradiction].
    destruct H as [H|[]]. apply pair_equal_spec in H as [<- <-]. digit_facts.
    split; [lia|]. exists [a; b]. split; [reflexivity|].
    split; [cbn; lia|]. digit_goal.
  - destruct l as [|a [|b r0]]; try contradiction.
    destruct (between 48 49 a && is_decimal b) eqn:C; [|contradiction].
    destruct H as [H|[]]. apply pair_equal_spec in H as [<- <-]. digit_facts.
    split; [lia|]. exists [a; b]. split; [reflexivity|].
    split; [cbn; lia|]. digit_goal.
  - destruct l as [|a r0]; try contradiction.
    destruct (is_decimal a) eqn:C; [|contradiction].
    destruct H as [H|[]]. apply pair_equal_spec in H as [<- <-]. digit_facts.
    split; [lia|]. exists [a]. split; [reflexivity|].
    split; [cbn; lia|]. digit_goal.
Qed.

Lemma minute_alts_spec (l : list ascii) (mi : Z) (r : list ascii) :
  In (mi, r) (minute_alts l) ->
  (0 <= mi <= 59)%Z /\
  exists pre, l = pre ++ r /\ (1 <= List.length pre <= 2)%nat /\
              forallb is_decimal pre = true.
Proof.
  unfold minute_alts. intros H.
  apply in_app_or in H as [H|H].
  - destruct l as [|a [|b r0]]; try contradiction.
    destruct (between 48 53 a && is_decimal b) eqn:C; [|contradiction].
    destruct H as [H|[]]. apply pair_equal_spec in H as [<- <-]. digit_facts.
    split; [lia|]. exists [a; b]. split; [reflexivity|].
    split; [cbn; lia|]. digit_goal.
  - destruct l as [|a r0]; try contradiction.
    destruct (is_decimal a) eqn:C; [|contradiction].
    destruct H as [H|[]]. apply pair_equal_spec in H as [<- <-]. digit_facts.
    split; [lia|]. exists [a]. split; [reflexivity|].
    split; [cbn; lia|]. digit_goal.
Qed.

Lemma length_list_ascii (s : string) :
  List.length (list_ascii_of_string s) = String.length s.
Proof. induction s as [|a s IH]; cbn; [reflexivity | now rewrite IH]. Qed.

(** An accepted string is made of two to four decimal digits, and the
    time read from it is one of the 24-hour clock. *)
Lemma strptime_HM_Ok (s : string) (h mi : Z) :
  strptime_HM s = Ok (h, mi) ->
  (0 <= h <= 23)%Z /\ (0 <= mi <= 59)%Z /\
  (2 <= String.length s <= 4)%nat /\
  forallb is_decimal (list_ascii_of_string s) = true.
Proof.
  unfold strptime_HM.
  destruct (flat_map _ (hour_alts (list_ascii_of_string s)))
    as [|[[h' m'] rest] found] eqn:E; [discriminate|].
  destruct rest; [|discriminate]. intros H; injection H as -> ->.
  assert (Hin : In (h, mi, @nil ascii)
                  (flat_map (fun hr => map (fun mr => (fst hr, fst mr, snd mr))
                                           (minute_alts (snd hr)))
                            (hour_alts (list_ascii_of_string s)))).
  { rewrite E. now left. }
  apply in_flat_map in Hin as ([h0 r0] & Hh & Hm).
  apply in_map_iff in Hm as ([m0 r1] & Hm & Hm').
  cbn [fst snd] in Hm, Hm'. injection Hm as -> -> ->.
  apply hour_alts_spec in Hh as (Bh & p1 & E1 & L1 & D1).
  apply minute_alts_spec in Hm' as (Bm & p2 & E2 & L2 & D2).
  subst r0. rewrite app_nil_r in E1.
  split; [exact Bh|]. split; [exact Bm|].
  rewrite <- length_list_ascii, E1, length_app, forallb_app, D1, D2.
  split; [lia|reflexivity].
Qed.

Lemma strptime_HM_Raise (s : string) (e : exn) :
  strptime_HM s = Raise e -> e = ValueError.
Proof.
  unfold strptime_HM.
  destruct (flat_map _ _) as [|[[h m] rest] found].
  - now intros H; injection H as <-.
  - destruct rest; [discriminate|]. now intros H; injection H as <-.
Qed.

Lemma transform_military_time_Raise (c : cell) (e : exn) :
  transform_military_time c = Raise e ->
  (exists s, c = Some (PStr s) /\ isdigit s = true /\ e = ValueError) \/
  ((forall s, c <> Some (PStr s)) /\ e = AttributeError).
Proof.
  unfold transform_military_time.
  destruct c as [[| | | |s| | |]|];
    try (intros H; injection H as <-; right; split;
         [intros s' Hs; discriminate Hs | reflexivity]).
  destruct (isdigit s) eqn:D; [|discriminate].
  destruct (strptime_HM s) as [hm|e'] eqn:P; cbn [bind]; [discriminate|].
  intros H; injection H as <-. left. exists s.
  split; [reflexivity|]. split; [exact D|]. now apply strptime_HM_Raise in P.
Qed.

Lemma parsed_time (c : cell) (v : pyval) :
  parsed c = Some v ->
  exists s h mi, c = Some (PStr s) /\ isdigit s = true /\
                 strptime_HM s = Ok (h, mi) /\ v = PTime h mi.
Proof.
  unfold parsed, transform_military_time.
  destruct c as [[| | | |s| | |]|]; try discriminate.
  destruct (isdigit s) eqn:D; [|discriminate].
  destruct (strptime_HM s) as [[h mi]|e'] eqn:P; cbn [bind fst snd];
    [|discriminate].
  intros H; injection H as <-. exists s, h, mi. auto.
Qed.

(* ================================================================= *)
(** ** More on the normalizers: the shape of the returned frame *)

(* ----------------------------------------------------------------- *)
(** *** The names of the columns *)

Lemma names_putcol c s cols :
  map fst (putcol c s cols) = add_name c (map fst cols).
Proof.
  unfold add_name. induction cols as [|[c' s'] r IH]; cbn [putcol map fst mem existsb].
  - reflexivity.
  - destruct (String.eqb_spec c c') as [->|N]; cbn [orb map fst].
    + reflexivity.
    + rewrite IH. fold (mem c (map fst r)).
      destruct (mem c (map fst r)); reflexivity.
Qed.

Lemma names_setitem c s df :
  map fst (columns (df_setitem c s df)) = add_name c (map fst (columns df)).
Proof. apply names_putcol. Qed.

Lemma names_select_rows mask df :
  map fst (columns (select_rows mask df)) = map fst (columns df).
Proof. cbn [select_rows columns]. now rewrite map_map. Qed.

Lemma names_drop labels df df' :
  drop_columns labels df = Ok df' ->
  map fst (columns df') = remove_names labels (map fst (columns df)).
Proof.
  unfold drop_columns. destruct (forallb _ labels); [|discriminate].
  intros H; injection H as <-. cbn [columns]. unfold remove_names.
  induction (columns df) as [|[c s] r IH]; cbn [filter map fst]; [reflexivity|].
  destruct (mem c labels); cbn [negb map fst]; now rewrite IH.
Qed.

Lemma names_pd (ds : list dict) :
  map fst (columns (pd_DataFrame ds)) = all_keys ds.
Proof. cbn [pd_DataFrame columns]. rewrite map_map. apply map_id. Qed.

(** One statement of [transform], for the names only. *)
Ltac names_step H :=
  let x := fresh "x" in
  let E := fresh "N" in
  apply bind_Ok_inv in H as (x & E & H);
  match type of E with
  | drop_columns _ _ = Ok _ => apply names_drop in E
  | df_getitem _ _ = Ok _ => clear E
  | df_setitem_list _ _ _ = Ok _ =>
      apply df_setitem_list_two in E as (? & ? & _ & ->)
  | dropna _ _ = Ok _ => apply dropna_two in E as (? & ? & _ & _ & ->)
  | any_isna _ _ = Ok _ => clear E
  | drop_rows _ _ = Ok _ => apply drop_rows_inv in E as ->
  | apply _ _ = Ok _ => clear E
  end.

Lemma gt_transform_names (ds : list dict) (df : DataFrame) :
  GtClassEtl.transform ds = Ok df ->
  map fst (columns df) = column_names "thursday" (all_keys ds).
Proof.
  unfold GtClassEtl.transform. intros H.
  do 18 names_step H. injection H as <-.
  rewrite names_setitem, N1, !names_setitem, names_select_rows, N0,
    !names_setitem, N, names_pd.
  unfold column_names. reflexivity.
Qed.

Lemma etl_transform_names (ds : list dict) (df : DataFrame) :
  Etl.transform ds = Ok df ->
  map fst (columns df) = column_names "thurday" (all_keys ds).
Proof.
  unfold Etl.transform. intros H.
  do 19 names_step H. injection H as <-.
  rewrite names_setitem, N1, !names_setitem, names_select_rows, N0,
    !names_setitem, N, names_pd.
  unfold column_names. reflexivity.
Qed.

(** The names are pairwise distinct. *)
Lemma NoDup_dedup seen l :
  NoDup (dedup seen l) /\ forall k, In k (dedup seen l) -> ~ In k seen.
Proof.
  revert seen. induction l as [|k r IH]; intros seen; cbn [dedup].
  - split; [constructor | intros k []].
  - destruct (mem k seen) eqn:M; [apply IH|].
    destruct (IH (k :: seen)) as (H1 & H2). split.
    + constructor; [|exact H1]. intros Hin. apply (H2 k Hin). now left.
    + intros k' [<-|Hin].
      * intros Hs. apply mem_In in Hs. rewrite Hs in M. discriminate M.
      * intros Hs. apply (H2 k' Hin). now right.
Qed.

Lemma NoDup_add_name c names : NoDup names -> NoDup (add_name c names).
Proof.
  intros H. unfold add_name. destruct (mem c names) eqn:M; [exact H|].
  apply NoDup_app; [exact H | repeat constructor; cbn; tauto |].
  intros k Hk [<-|Hf]; [|destruct Hf].
  apply mem_In in Hk. rewrite Hk in M. discriminate M.
Qed.

Lemma NoDup_remove_names labels names :
  NoDup names -> NoDup (remove_names labels names).
Proof. apply NoDup_filter. Qed.

Lemma NoDup_column_names thu keys :
  NoDup keys -> NoDup (column_names thu keys).
Proof.
  intros H. unfold column_names.
  repeat first [ apply NoDup_add_name | apply NoDup_remove_names ]. exact H.
Qed.

Lemma either_transform_names ds df :
  either_transform ds df ->
  exists thu, map fst (columns df) = column_names thu (all_keys ds).
Proof.
  intros [H|H].
  - exists "thurday". now apply etl_transform_names.
  - exists "thursday". now apply gt_transform_names.
Qed.

(* ----------------------------------------------------------------- *)
(** *** Full columns, ordered labels *)

Lemma In_getcol c s cols :
  NoDup (map fst cols) -> In (c, s) cols -> getcol c cols = Some s.
Proof.
  induction cols as [|[c' s'] r IH]; cbn [map fst getcol]; intros Hn Hin;
    [destruct Hin|]. destruct Hin as [E|Hin].
  - injection E as -> ->. now rewrite String.eqb_refl.
  - inversion Hn as [|? ? Hc Hr]; subst.
    destruct (String.eqb_spec c c') as [->|_].
    + destruct Hc. apply in_map_iff. exists (c', s). auto.
    + now apply IH.
Qed.

Lemma select_length {X Y : Type} (mask : list bool) (xs : list X) (ys : list Y) :
  List.length xs = List.length ys ->
  List.length (select mask xs) = List.length (select mask ys).
Proof.
  revert xs ys. induction mask as [|b m IH]; intros [|x xs] [|y ys] H;
    cbn [select]; try reflexivity; try discriminate H.
  injection H as H. destruct b; cbn [List.length]; now rewrite (IH xs ys H).
Qed.

Lemma final_col_length thu ds c s :
  final_col thu ds c = Some s ->
  List.length s =
  List.length (select (map survives ds) (seq 0 (List.length ds))).
Proof.
  unfold final_col.
  repeat match goal with
         | |- (if ?b then _ else _) = _ -> _ => destruct b
         end;
    intros H; try discriminate H; injection H as <-;
    apply select_length; now rewrite length_map, length_seq.
Qed.

Lemma select_sorted (mask : list bool) (a n : nat) :
  StronglySorted lt (select mask (seq a n)) /\
  Forall (fun k => a <= k < a + n)%nat (select mask (seq a n)).
Proof.
  revert a n. induction mask as [|b m IH]; intros a [|n]; cbn [seq select];
    try (split; constructor).
  destruct (IH (S a) n) as (H1 & H2).
  assert (H3 : Forall (fun k => a <= k < a + S n)%nat (select m (seq (S a) n))).
  { eapply Forall_impl; [|exact H2]. cbn beta. intros k Hk. lia. }
  destruct b; [|split; assumption]. split.
  - constructor; [exact H1|]. eapply Forall_impl; [|exact H2].
    cbn beta. intros k Hk. lia.
  - constructor; [lia|exact H3].
Qed.

Lemma select_survivor (ds : list dict) :
  (exists d, In d ds /\ survives d = true) ->
  select (map survives ds) (seq 0 (List.length ds)) <> [].
Proof.
  intros (d & Hin & Hs). apply In_nth_error in Hin as (k & Hk).
  intros E.
  assert (Hk' : In k (select (map survives ds) (seq 0 (List.length ds)))).
  { apply (select_length_index survives ds 0 k). exists d.
    rewrite Nat.sub_0_r. repeat split; [assumption..|lia]. }
  rewrite E in Hk'. destruct Hk'.
Qed.

Lemma can_normalize_survivor (ds : list dict) :
  can_normalize ds -> exists d, In d ds /\ survives d = true.
Proof.
  intros (_ & _ & W & _). apply width_two_inv in W as (_ & parts & Hin & Hlen).
  apply in_map_iff in Hin as (d & Hd & Hin). exists d. split; [exact Hin|].
  unfold survives, raw_start_time, raw_end_time. rewrite Hd.
  destruct parts as [|a [|b [|]]]; cbn in Hlen; try discriminate Hlen.
  reflexivity.
Qed.

Lemma frame_names_distinct (ds : list dict) (df : DataFrame) :
  either_transform ds df -> NoDup (map fst (columns df)).
Proof.
  intros H. destruct (either_transform_names ds df H) as (thu & ->).
  apply NoDup_column_names. apply NoDup_dedup.
Qed.

Lemma frame_rectangular (ds : list dict) (df : DataFrame) :
  either_transform ds df -> rectangular df.
Proof.
  intros H. pose proof (frame_names_distinct ds df H) as Hnd.
  apply either_transform_inv in H as (_ & thu & (Hi & Hg) & _).
  apply Forall_forall. intros [c s] Hin. cbn [snd].
  apply (In_getcol c s _ Hnd) in Hin. rewrite Hg in Hin.
  rewrite Hi. now apply final_col_length with (thu := thu) (c := c).
Qed.

Lemma frame_labels (ds : list dict) (df : DataFrame) :
  either_transform ds df ->
  StronglySorted lt (index df) /\
  Forall (fun k => (k < List.length ds)%nat) (index df) /\
  index df <> [].
Proof.
  intros H. apply either_transform_inv in H as (Hc & thu & (Hi & _) & _).
  rewrite Hi. split; [apply select_sorted|]. split.
  - eapply Forall_impl; [|apply select_sorted]. cbn beta. intros k Hk. lia.
  - apply select_survivor. now apply can_normalize_survivor.
Qed.

(** X4.  A frame a normalizer returns for FlatRecords has pairwise
    distinct column names and columns as long as the list of its row
    labels; the labels are positions of the input in increasing order
    (the rows keep their order and their original labels), and there is at
    least one row: an input none of whose rows would be kept makes the
    normalizer raise. *)
Theorem normalize_frame_shape (rs : list FlatRecord) (df : DataFrame) :
  either_transform (map to_dict rs) df ->
  NoDup (map fst (columns df)) /\
  rectangular df /\
  StronglySorted lt (index df) /\
  Forall (fun k => (k < List.length rs)%nat) (index df) /\
  index df <> [].
Proof.
  intros H.
  split; [now apply frame_names_distinct with (ds := map to_dict rs)|].
  split; [now apply frame_rectangular with (ds := map to_dict rs)|].
  rewrite <- (length_map to_dict rs). now apply frame_labels.
Qed.

Lemma normalize_frame_shape_witness :
  exists df,
    either_transform (map to_dict sample_records) df /\
    NoDup (map fst (columns df)) /\
    rectangular df /\
    StronglySorted lt (index df) /\
    Forall (fun k => (k < List.length sample_records)%nat) (index df) /\
    index df <> [].
Proof.
  eexists. split; [right; vm_compute; reflexivity|].
  exact (normalize_frame_shape sample_records _
           ltac:(right; vm_compute; reflexivity)).
Defined.

(* ================================================================= *)
(** ** More on the normalizers: FlatRecords *)

(* ----------------------------------------------------------------- *)
(** *** The keys of FlatRecords *)

Lemma keys_to_dict r : map fst (to_dict r) = record_keys (has_meeting r).
Proof. unfold to_dict, has_meeting. now destruct (f_meeting r). Qed.

Lemma has_key_meeting r k :
  In k meeting_keys -> has_key k (to_dict r) = has_meeting r.
Proof.
  intros Hk. unfold has_meeting.
  destruct (f_meeting r) as [m|] eqn:Hm.
  - now apply (has_meeting_keys r m).
  - unfold has_key, to_dict. rewrite Hm.
    cbn in Hk. decompose [or] Hk; subst; try reflexivity. contradiction.
Qed.

Lemma exists_key_meeting rs k :
  In k meeting_keys ->
  existsb (has_key k) (map to_dict rs) = existsb has_meeting rs.
Proof.
  intros Hk. induction rs as [|r rs IH]; cbn [map existsb]; [reflexivity|].
  now rewrite IH, has_key_meeting.
Qed.

Lemma has_key_fixed r k :
  In k (record_keys false) -> has_key k (to_dict r) = true.
Proof.
  intros Hk. unfold has_key, to_dict.
  cbn in Hk. decompose [or] Hk; subst; try contradiction;
    destruct (f_meeting r); reflexivity.
Qed.

Lemma exists_key_fixed rs k :
  In k (record_keys false) ->
  existsb (has_key k) (map to_dict rs) = match rs with [] => false | _ => true end.
Proof.
  intros Hk. destruct rs as [|r rs]; [reflexivity|].
  cbn [map existsb]. now rewrite has_key_fixed.
Qed.

Lemma existsb_has_meeting rs :
  existsb has_meeting rs = true <->
  exists r m, In r rs /\ f_meeting r = Some m.
Proof.
  rewrite existsb_exists. unfold has_meeting. split.
  - intros (r & Hin & H). destruct (f_meeting r) as [m|] eqn:Hm; [|discriminate].
    eauto.
  - intros (r & m & Hin & Hm). exists r. now rewrite Hm.
Qed.

Lemma can_normalize_has_meeting rs :
  can_normalize (map to_dict rs) -> existsb has_meeting rs = true.
Proof.
  intros (K & _). inversion K as [|? ? _ K']; subst.
  inversion K' as [|? ? Hb _]; subst.
  rewrite exists_key_meeting in Hb; [exact Hb|cbn; tauto].
Qed.

(* ----------------------------------------------------------------- *)
(** *** The columns of the frame, in order *)

Lemma dedup_ext (s1 s2 l : list string) :
  (forall k, mem k s1 = mem k s2) -> dedup s1 l = dedup s2 l.
Proof.
  revert s1 s2. induction l as [|k r IH]; intros s1 s2 H; cbn [dedup];
    [reflexivity|].
  rewrite (H k). destruct (mem k s2); [now apply IH|].
  f_equal. apply IH. intros k'. cbn [mem existsb]. fold (mem k' s1) (mem k' s2).
  now rewrite H.
Qed.

Lemma dedup_app (seen a b : list string) :
  dedup seen (a ++ b) =
  dedup seen a ++ dedup (rev (dedup seen a) ++ seen) b.
Proof.
  revert seen. induction a as [|k a IH]; intros seen; cbn [app dedup];
    [reflexivity|].
  destruct (mem k seen); [apply IH|].
  cbn [rev app]. rewrite IH, <- app_assoc. reflexivity.
Qed.

Lemma dedup_seen (seen l : list string) :
  (forall k, In k l -> In k seen) -> dedup seen l = [].
Proof.
  induction l as [|k r IH]; intros H; cbn [dedup]; [reflexivity|].
  replace (mem k seen) with true
    by (symmetry; apply mem_In, H; now left).
  apply IH. intros k' Hk'. apply H. now right.
Qed.

Lemma keys_in_record_keys (rs : list FlatRecord) (k : string) :
  In k (concat (map (map fst) (map to_dict rs))) -> In k (record_keys true).
Proof.
  intros H. apply in_concat in H as (ks & Hks & Hk).
  rewrite map_map in Hks. apply in_map_iff in Hks as (r & <- & _).
  rewrite keys_to_dict in Hk. destruct (has_meeting r); [exact Hk|].
  cbn in Hk |- *. tauto.
Qed.

Lemma dedup_after_fixed (rs : list FlatRecord) :
  dedup (record_keys false) (concat (map (map fst) (map to_dict rs))) =
  if existsb has_meeting rs then meeting_keys else [].
Proof.
  induction rs as [|r rs IH]; cbn [map concat existsb]; [reflexivity|].
  rewrite dedup_app, keys_to_dict. destruct (has_meeting r); cbn [orb].
  - replace (dedup (record_keys false) (record_keys true)) with meeting_keys
      by reflexivity.
    rewrite dedup_seen; [reflexivity|].
    intros k Hk. apply keys_in_record_keys in Hk. cbn in Hk |- *. tauto.
  - replace (dedup (record_keys false) (record_keys false)) with (@nil string)
      by reflexivity.
    exact IH.
Qed.

Lemma all_keys_typed (rs : list FlatRecord) :
  all_keys (map to_dict rs) =
  match rs with
  | [] => []
  | r :: rest =>
      if has_meeting r then record_keys true
      else if existsb has_meeting rest then record_keys false ++ meeting_keys
           else record_keys false
  end.
Proof.
  unfold all_keys. destruct rs as [|r rest]; [reflexivity|].
  cbn [map concat]. rewrite dedup_app, keys_to_dict.
  destruct (has_meeting r).
  - replace (dedup [] (record_keys true)) with (record_keys true) by reflexivity.
    rewrite dedup_seen; [apply app_nil_r|].
    intros k Hk. apply keys_in_record_keys in Hk.
    rewrite app_nil_r. now apply -> in_rev.
  - replace (dedup [] (record_keys false)) with (record_keys false) by reflexivity.
    rewrite (dedup_ext _ (record_keys false)).
    + rewrite dedup_after_fixed.
      destruct (existsb has_meeting rest); [reflexivity|apply app_nil_r].
    + intros k. rewrite app_nil_r.
      destruct (mem k (record_keys false)) eqn:M.
      * apply mem_In. apply -> in_rev. now apply mem_In.
      * destruct (mem k (rev (record_keys false))) eqn:M'; [|reflexivity].
        apply mem_In in M'. apply in_rev in M'. apply mem_In in M'.
        rewrite M' in M. discriminate M.
Qed.

Lemma column_names_typed (thu : string) (rs : list FlatRecord) :
  thu = "thurday" \/ thu = "thursday" ->
  existsb has_meeting rs = true ->
  column_names thu (all_keys (map to_dict rs)) =
  if meeting_first rs then columns_meeting_first thu
  else columns_meeting_later thu.
Proof.
  intros Ht Hm. rewrite all_keys_typed.
  destruct rs as [|r rest]; [discriminate Hm|].
  cbn [existsb meeting_first] in Hm |- *.
  destruct (has_meeting r); cbn [orb] in Hm.
  - destruct Ht as [-> | ->]; reflexivity.
  - rewrite Hm. destruct Ht as [-> | ->]; reflexivity.
Qed.

Lemma typed_columns (rs : list FlatRecord) (df : DataFrame) (thu : string) :
  (thu = "thurday" /\ Etl.transform (map to_dict rs) = Ok df) \/
  (thu = "thursday" /\ GtClassEtl.transform (map to_dict rs) = Ok df) ->
  map fst (columns df) =
    (if meeting_first rs then columns_meeting_first thu
     else columns_meeting_later thu) /\
  List.length (columns df) = 17%nat.
Proof.
  intros H.
  assert (Hn : map fst (columns df) = column_names thu (all_keys (map to_dict rs))).
  { destruct H as [(-> & H)|(-> & H)];
      [now apply etl_transform_names | now apply gt_transform_names]. }
  assert (He : either_transform (map to_dict rs) df /\
               (thu = "thurday" \/ thu = "thursday")).
  { destruct H as [(-> & H)|(-> & H)]; split; auto; [now left|now right]. }
  destruct He as (He & Ht).
  apply either_transform_inv in He as (Hc & _).
  rewrite column_names_typed in Hn
    by (assumption || now apply can_normalize_has_meeting).
  split; [exact Hn|].
  rewrite <- (length_map fst), Hn.
  destruct (meeting_first rs); reflexivity.
Qed.

(** X5.  The columns of the frame returned for FlatRecords, in order: the
    four identifying fields, [building] at the place the first record
    gives it (after [section] when the first record has a meeting, after
    [campus] when it has none), [credits], [schedule_type] and [campus],
    then the two dates, the two times and the five weekday flags.  There
    are always seventeen, and none of [attributes], [building_coords],
    [professors], [date_range], [time] and [day_of_week]. *)
Theorem normalize_columns (rs : list FlatRecord) (df : DataFrame) (thu : string) :
  (thu = "thurday" /\ Etl.transform (map to_dict rs) = Ok df) \/
  (thu = "thursday" /\ GtClassEtl.transform (map to_dict rs) = Ok df) ->
  map fst (columns df) =
    (if meeting_first rs then columns_meeting_first thu
     else columns_meeting_later thu) /\
  List.length (columns df) = 17%nat /\
  (forall c, In c ["attributes"; "building_coords"; "professors";
                   "date_range"; "time"; "day_of_week"] ->
             getcol c (columns df) = None).
Proof.
  intros H. destruct (typed_columns rs df thu H) as (Hn & Hl).
  split; [exact Hn|]. split; [exact Hl|].
  assert (He : either_transform (map to_dict rs) df).
  { destruct H as [(_ & H)|(_ & H)]; [now left|now right]. }
  apply either_transform_inv in He as (_ & thu' & (_ & Hg) & _).
  intros c Hin. rewrite Hg. unfold final_col.
  replace (mem c _) with true; [reflexivity|].
  symmetry. now apply mem_In.
Qed.

Lemma normalize_columns_witness :
  exists df,
    Etl.transform (map to_dict sample_records) = Ok df /\
    meeting_first sample_records = false /\
    map fst (columns df) = columns_meeting_later "thurday" /\
    List.length (columns df) = 17%nat /\
    (forall c, In c ["attributes"; "building_coords"; "professors";
                     "date_range"; "time"; "day_of_week"] ->
               getcol c (columns df) = None).
Proof.
  eexists. split; [vm_compute; reflexivity|]. split; [reflexivity|].
  apply (normalize_columns sample_records _ "thurday").
  left. split; [reflexivity | vm_compute; reflexivity].
Defined.

(* ----------------------------------------------------------------- *)
(** *** What a normalizer raises *)

Lemma drop_columns_Raise labels df e :
  drop_columns labels df = Raise e ->
  e = KeyError /\
  exists l, In l labels /\ mem l (map fst (columns df)) = false.
Proof.
  unfold drop_columns.
  destruct (forallb _ labels) eqn:F; [discriminate|].
  intros H; injection H as <-. split; [reflexivity|].
  induction labels as [|l r IH]; cbn [forallb] in F; [discriminate F|].
  destruct (mem l (map fst (columns df))) eqn:M.
  - destruct (IH F) as (l' & Hin & Hl'). exists l'. split; [now right|exact Hl'].
  - exists l. split; [now left|exact M].
Qed.

Lemma df_getitem_Raise c df e :
  df_getitem c df = Raise e -> e = KeyError /\ getcol c (columns df) = None.
Proof.
  unfold df_getitem. destruct (getcol c (columns df)); [discriminate|].
  intros H; injection H as <-. split; reflexivity.
Qed.

Lemma df_setitem_list_Raise keys value df e :
  df_setitem_list keys value df = Raise e -> e = ValueError.
Proof.
  unfold df_setitem_list. destruct (_ =? _)%nat; [discriminate|].
  now intros H; injection H as <-.
Qed.

Lemma select_mask_In {X : Type} (f : X -> bool) (xs : list X) (x : X) :
  In x (select (map f xs) xs) -> f x = true.
Proof.
  induction xs as [|y r IH]; cbn [map select]; [intros []|].
  destruct (f y) eqn:F; [|exact IH]. intros [<-|H]; [exact F|now apply IH].
Qed.

Lemma survivor_parts (d : dict) :
  survives d = true ->
  (exists x, part 0 (parts_of "time" d) = Some (PStr x)) /\
  (exists x, part 1 (parts_of "time" d) = Some (PStr x)).
Proof.
  unfold survives, raw_start_time, raw_end_time.
  destruct (parts_of "time" d) as [parts|]; cbn [part isna negb andb];
    [|discriminate].
  destruct (nth_error parts 0) as [a|]; cbn [option_map isna negb andb];
    [|discriminate].
  destruct (nth_error parts 1) as [b|]; cbn [option_map isna negb andb];
    [|discriminate].
  intros _. split; eexists; reflexivity.
Qed.

(** On the rows that are kept, [transform_military_time] meets strings
    only: it raises nothing but the [ValueError] of [strptime]. *)
Lemma apply_times_Raise (j : nat) (ds : list dict) (e : exn) :
  j = 0%nat \/ j = 1%nat ->
  apply transform_military_time
    (select (map survives ds) (map (part j) (map (parts_of "time") ds))) = Raise e ->
  e = ValueError.
Proof.
  intros Hj H. unfold apply in H. apply mapM_Raise_inv in H as (c & Hin & Hc).
  rewrite map_map, select_map in Hin. apply in_map_iff in Hin as (d & <- & Hd).
  apply select_mask_In in Hd. apply survivor_parts in Hd as ((x0 & H0) & (x1 & H1)).
  apply transform_military_time_Raise in Hc as [(s & _ & _ & ->)|(Hn & _)];
    [reflexivity|].
  destruct Hj as [-> | ->]; [now destruct (Hn x0) | now destruct (Hn x1)].
Qed.

(** The next statement either raises the exception of the whole, or
    returns. *)
Ltac raise_step H E :=
  match type of H with
  | bind ?m _ = Raise _ =>
      destruct m eqn:E; cbn [bind] in H; [ | injection H as <- ]
  end.

Ltac missing_key k :=
  left; split; [reflexivity|]; exists k; split; [cbn; tauto|].

(** A statement that raises [KeyError]: the key is in no record. *)
Ltac key_error E k :=
  left; split; [reflexivity|]; exists k; split; [cbn; tauto|];
  eval_names E; use_keys; cbn [option_map] in E;
  match type of E with
  | context [existsb (has_key k) ?ds] =>
      destruct (existsb (has_key k) ds); [discriminate E|reflexivity]
  end.

(** The statements up to the removal of [date_range] and [time]. *)
Ltac raise_head H ds P1 I1 C1 W1 W2 I2 C2 :=
  let E := fresh "E" in
  let l := fresh "l" in
  let Hl := fresh "Hl" in
  let a1 := fresh "part0" in
  let a2 := fresh "part1" in
  let y := fresh "y" in
  raise_step H E;
  [ | apply drop_columns_Raise in E as (-> & l & Hl & E);
      rewrite mem_columns_pd in E; left; split; [reflexivity|];
      exists l; split; [cbn in Hl |- *; tauto|exact E] ];
  apply drop_columns_inv in E as (P1 & I1 & C1);
  raise_step H E;
  [ | apply df_getitem_Raise in E as (-> & E); rewrite C1, getcol_pd in E;
      key_error E "date_range" ];
  apply df_getitem_inv in E; rewrite C1, getcol_pd in E;
  eval_names E; need_key E "date_range"; injection E as <-;
  raise_step H E; [ | right; now apply df_setitem_list_Raise in E ];
  apply df_setitem_list_two in E as (a1 & a2 & E & ->);
  apply expand_two in E as (W1 & -> & ->);
  raise_step H E;
  [ | apply df_getitem_Raise in E as (-> & E);
      rewrite !getcol_setitem, C1, getcol_pd in E; key_error E "time" ];
  apply df_getitem_inv in E; rewrite !getcol_setitem, C1, getcol_pd in E;
  eval_names E; need_key E "time"; injection E as <-;
  raise_step H E; [ | right; now apply df_setitem_list_Raise in E ];
  apply df_setitem_list_two in E as (a1 & a2 & E & ->);
  apply expand_two in E as (W2 & -> & ->);
  match type of H with
  | bind (drop_columns ?l ?f) _ = _ =>
      destruct (drop_columns_ok l f) as (y & E & I2 & C2);
      [ repeat constructor; rewrite !getcol_setitem, C1, getcol_pd; has_cols | ]
  end;
  rewrite E in H; cbn [bind] in H; clear E;
  cbn [index df_setitem] in I2; rewrite !str_split_cells in *.

(** The statements after the rows without a time were dropped. *)
Ltac raise_tail H ds C1 C2 :=
  let E := fresh "E" in
  let y := fresh "y" in
  let I3 := fresh "I" in
  let C3 := fresh "C" in
  known_get H ltac:(rewrite getcol_select_rows, C2, !getcol_setitem);
  raise_step H E;
  [ | right; exact (apply_times_Raise 0 ds _ (or_introl eq_refl) E) ];
  apply apply_inv in E as ->;
  known_get H ltac:(rewrite !getcol_setitem, getcol_select_rows, C2,
                      !getcol_setitem);
  raise_step H E;
  [ | right; exact (apply_times_Raise 1 ds _ (or_intror eq_refl) E) ];
  apply apply_inv in E as ->;
  raise_step H E;
  [ | apply df_getitem_Raise in E as (-> & E);
      rewrite !getcol_setitem, getcol_select_rows, C2, !getcol_setitem, C1,
        getcol_pd in E;
      key_error E "day_of_week" ];
  apply df_getitem_inv in E;
  rewrite !getcol_setitem, getcol_select_rows, C2, !getcol_setitem, C1,
    getcol_pd in E;
  eval_names E; need_key E "day_of_week"; cbn [option_map] in E;
  injection E as <-;
  do 4 known_get H ltac:(rewrite !getcol_setitem, getcol_select_rows, C2,
                           !getcol_setitem, C1, getcol_pd);
  match type of H with
  | bind (drop_columns ?l ?f) _ = _ =>
      destruct (drop_columns_ok l f) as (y & E & I3 & C3);
      [ repeat constructor;
        rewrite !getcol_setitem, getcol_select_rows, C2, !getcol_setitem, C1,
          getcol_pd; has_cols | ]
  end;
  rewrite E in H; cbn [bind] in H; clear E;
  raise_step H E;
  [ discriminate H
  | apply df_getitem_Raise in E as (-> & E);
    rewrite C3, !getcol_setitem, getcol_select_rows, C2, !getcol_setitem, C1,
      getcol_pd in E;
    key_error E "building" ].

Lemma gt_transform_Raise (ds : list dict) (e : exn) :
  GtClassEtl.transform ds = Raise e ->
  (e = KeyError /\
   exists k, In k ["attributes"; "building_coords"; "professors"; "date_range";
                   "time"; "day_of_week"; "building"] /\
             existsb (has_key k) ds = false) \/
  e = ValueError.
Proof.
  unfold GtClassEtl.transform. intros H.
  raise_head H ds P1 I1 C1 W1 W2 I2 C2.
  erewrite dropna_ok in H;
    [ | rewrite C2, !getcol_setitem; reflexivity
      | rewrite C2, !getcol_setitem; reflexivity ].
  cbn [bind] in H. rewrite I2, I1 in H. cbn [pd_DataFrame index] in H.
  rewrite length_seq, keep_mask_parts in H.
  raise_tail H ds C1 C2.
Qed.

Lemma etl_transform_Raise (ds : list dict) (e : exn) :
  Etl.transform ds = Raise e ->
  (e = KeyError /\
   exists k, In k ["attributes"; "building_coords"; "professors"; "date_range";
                   "time"; "day_of_week"; "building"] /\
             existsb (has_key k) ds = false) \/
  e = ValueError.
Proof.
  unfold Etl.transform. intros H.
  raise_head H ds P1 I1 C1 W1 W2 I2 C2.
  erewrite any_isna_ok in H;
    [ | rewrite C2, !getcol_setitem; reflexivity
      | rewrite C2, !getcol_setitem; reflexivity ].
  cbn [bind] in H. rewrite drop_rows_ok in H; cbn [bind] in H.
  rewrite I2, I1 in H. cbn [pd_DataFrame index] in H.
  rewrite length_seq, etl_mask in H.
  raise_tail H ds C1 C2.
Qed.

Lemma no_meeting_KeyError (rs : list FlatRecord) :
  existsb has_meeting rs = false ->
  Etl.transform (map to_dict rs) = Raise KeyError /\
  GtClassEtl.transform (map to_dict rs) = Raise KeyError.
Proof.
  intros Hm.
  assert (E : drop_columns ["attributes"; "building_coords"; "professors"]
                (pd_DataFrame (map to_dict rs)) = Raise KeyError).
  { unfold drop_columns. cbn [forallb]. rewrite !mem_columns_pd.
    rewrite (exists_key_meeting rs "building_coords") by (cbn; tauto).
    rewrite Hm. cbn [andb]. now rewrite andb_false_r. }
  unfold Etl.transform, GtClassEtl.transform. rewrite E. split; reflexivity.
Qed.

Lemma meeting_has_keys (rs : list FlatRecord) (k : string) :
  existsb has_meeting rs = true ->
  In k ["attributes"; "building_coords"; "professors"; "date_range";
        "time"; "day_of_week"; "building"] ->
  existsb (has_key k) (map to_dict rs) = true.
Proof.
  intros Hm [<-|Hk].
  - rewrite exists_key_fixed by (cbn; tauto). now destruct rs.
  - rewrite exists_key_meeting; [exact Hm|]. cbn in Hk |- *. tauto.
Qed.

Lemma has_meeting_false (rs : list FlatRecord) :
  existsb has_meeting rs = false <-> forall r, In r rs -> f_meeting r = None.
Proof.
  split.
  - intros H r Hr. destruct (f_meeting r) as [m|] eqn:Hm; [|reflexivity].
    assert (T : existsb has_meeting rs = true)
      by (apply existsb_has_meeting; eauto).
    rewrite T in H. discriminate H.
  - intros H. destruct (existsb has_meeting rs) eqn:E; [|reflexivity].
    apply existsb_has_meeting in E as (r & m & Hr & Hm).
    rewrite (H r Hr) in Hm. discriminate Hm.
Qed.

Section Failure.

Variable transform : list dict -> result DataFrame.

Hypothesis transform_Raise : forall ds e,
  transform ds = Raise e ->
  (e = KeyError /\
   exists k, In k ["attributes"; "building_coords"; "professors"; "date_range";
                   "time"; "day_of_week"; "building"] /\
             existsb (has_key k) ds = false) \/
  e = ValueError.

Hypothesis transform_returns : forall ds,
  can_normalize ds <-> exists df, transform ds = Ok df.

Hypothesis transform_no_meeting : forall rs,
  existsb has_meeting rs = false -> transform (map to_dict rs) = Raise KeyError.

Lemma typed_failure (rs : list FlatRecord) :
  (transform (map to_dict rs) = Raise KeyError <->
   forall r, In r rs -> f_meeting r = None) /\
  (transform (map to_dict rs) = Raise ValueError <->
   (exists r m, In r rs /\ f_meeting r = Some m) /\
   ~ (two_parts m_date_range rs /\ two_parts m_time rs /\ times_parse rs)).
Proof.
  assert (V : existsb has_meeting rs = true ->
              forall e, transform (map to_dict rs) = Raise e -> e = ValueError).
  { intros Hm e H. apply transform_Raise in H as [(_ & k & Hk & E)|H];
      [|exact H].
    rewrite (meeting_has_keys rs k Hm Hk) in E. discriminate E. }
  rewrite <- has_meeting_false, <- existsb_has_meeting, <- can_normalize_typed.
  split; split.
  - intros H. destruct (existsb has_meeting rs) eqn:Hm; [|reflexivity].
    discriminate (V eq_refl _ H).
  - apply transform_no_meeting.
  - intros H. split.
    + destruct (existsb has_meeting rs) eqn:Hm; [reflexivity|].
      rewrite (transform_no_meeting rs Hm) in H. discriminate H.
    + intros Hc. apply transform_returns in Hc as (df & Hdf).
      rewrite Hdf in H. discriminate H.
  - intros (Hm & Hn).
    destruct (transform (map to_dict rs)) as [df|e] eqn:E.
    + destruct Hn. apply transform_returns. eauto.
    + f_equal. now apply V.
Qed.

End Failure.

Lemma etl_typed_failure (rs : list FlatRecord) :
  (Etl.transform (map to_dict rs) = Raise KeyError <->
   forall r, In r rs -> f_meeting r = None) /\
  (Etl.transform (map to_dict rs) = Raise ValueError <->
   (exists r m, In r rs /\ f_meeting r = Some m) /\
   ~ (two_parts m_date_range rs /\ two_parts m_time rs /\ times_parse rs)).
Proof.
  apply (typed_failure Etl.transform etl_transform_Raise).
  - intros ds'. split; [apply etl_transform_ok|].
    intros (df & H). now apply etl_transform_inv in H.
  - intros rs' H. now apply no_meeting_KeyError.
Qed.

Lemma gt_typed_failure (rs : list FlatRecord) :
  (GtClassEtl.transform (map to_dict rs) = Raise KeyError <->
   forall r, In r rs -> f_meeting r = None) /\
  (GtClassEtl.transform (map to_dict rs) = Raise ValueError <->
   (exists r m, In r rs /\ f_meeting r = Some m) /\
   ~ (two_parts m_date_range rs /\ two_parts m_time rs /\ times_parse rs)).
Proof.
  apply (typed_failure GtClassEtl.transform gt_transform_Raise).
  - intros ds'. split; [apply gt_transform_ok|].
    intros (df & H). now apply gt_transform_inv in H.
  - intros rs' H. now apply no_meeting_KeyError.
Qed.

(** X6.  What a normalizer raises on FlatRecords: nothing but [KeyError]
    and [ValueError]; [KeyError] exactly when no record has a meeting (the
    empty list included), and [ValueError] exactly when some record has
    one but the date ranges or the times do not split into two parts, or
    a time made of digits is rejected by [strptime]. *)
Theorem normalize_failure (rs : list FlatRecord) :
  ((forall e, Etl.transform (map to_dict rs) = Raise e ->
              e = KeyError \/ e = ValueError) /\
   (Etl.transform (map to_dict rs) = Raise KeyError <->
    forall r, In r rs -> f_meeting r = None) /\
   (Etl.transform (map to_dict rs) = Raise ValueError <->
    (exists r m, In r rs /\ f_meeting r = Some m) /\ ~ normalizable rs)) /\
  ((forall e, GtClassEtl.transform (map to_dict rs) = Raise e ->
              e = KeyError \/ e = ValueError) /\
   (GtClassEtl.transform (map to_dict rs) = Raise KeyError <->
    forall r, In r rs -> f_meeting r = None) /\
   (GtClassEtl.transform (map to_dict rs) = Raise ValueError <->
    (exists r m, In r rs /\ f_meeting r = Some m) /\ ~ normalizable rs)).
Proof.
  split; (split; [|split]).
  - intros e H. apply etl_transform_Raise in H as [(-> & _)| ->]; auto.
  - apply etl_typed_failure.
  - apply etl_typed_failure.
  - intros e H. apply gt_transform_Raise in H as [(-> & _)| ->]; auto.
  - apply gt_typed_failure.
  - apply gt_typed_failure.
Qed.

(* ================================================================= *)
(** ** More on the normalizers: the rows and their entries *)

(* ----------------------------------------------------------------- *)
(** *** The rows that are kept *)

Lemma length_two {X : Type} (l : list X) :
  List.length l = 2%nat <-> exists a b, l = [a; b].
Proof.
  split.
  - destruct l as [|a [|b [|c t]]]; intros H; try discriminate H. eauto.
  - intros (a & b & ->). reflexivity.
Qed.

Lemma timed_parts (r : FlatRecord) :
  timed r = true <->
  exists m a b, f_meeting r = Some m /\ split " - " (m_time m) = [a; b].
Proof.
  unfold timed. split.
  - destruct (f_meeting r) as [m|]; [|discriminate]. intros H.
    apply Nat.eqb_eq, length_two in H as (a & b & H). eauto.
  - intros (m & a & b & -> & H). now rewrite H.
Qed.

Lemma separator_not_empty : " - " <> "".
Proof. discriminate. Qed.

(** Where the normalizer returns, the rows with a separator in their time
    are those with exactly two parts. *)
Lemma survives_timed (rs : list FlatRecord) (r : FlatRecord) :
  two_parts m_time rs -> In r rs -> survives (to_dict r) = timed r.
Proof.
  intros (Hle & _) Hr. rewrite survives_to_dict. unfold timed.
  destruct (f_meeting r) as [m|] eqn:Hm; [|reflexivity].
  specialize (Hle r m Hr Hm).
  destruct (Nat.leb_spec 2 (List.length (split " - " (m_time m))));
    destruct (Nat.eqb_spec (List.length (split " - " (m_time m))) 2);
    try reflexivity; lia.
Qed.

Lemma select_filter_length {X : Type} (f : X -> bool) (xs : list X) (a : nat) :
  List.length (select (map f xs) (seq a (List.length xs))) =
  List.length (filter f xs).
Proof.
  revert a. induction xs as [|x r IH]; intros a; [reflexivity|].
  cbn [map List.length seq select filter].
  destruct (f x); cbn [List.length]; now rewrite IH.
Qed.

Lemma typed_index (rs : list FlatRecord) (df : DataFrame) :
  either_transform (map to_dict rs) df ->
  two_parts m_time rs /\
  index df = select (map timed rs) (seq 0 (List.length rs)).
Proof.
  intros H. apply either_transform_inv in H as (Hc & thu & (Hi & _) & _).
  apply can_normalize_typed in Hc as (_ & Ht & _). split; [exact Ht|].
  rewrite Hi, length_map, map_map. f_equal.
  apply map_ext_in. intros r Hr. now apply survives_timed with (rs := rs).
Qed.

(** X7.  The rows of the frame returned for FlatRecords: the records with
    a meeting whose time contains the separator, which then has exactly
    two parts; each row is labelled with the position of its record. *)
Theorem normalize_rows (rs : list FlatRecord) (df : DataFrame) :
  either_transform (map to_dict rs) df ->
  index df = select (map timed rs) (seq 0 (List.length rs)) /\
  List.length (index df) = List.length (filter timed rs) /\
  (forall k, In k (index df) <->
             exists r m a b, nth_error rs k = Some r /\ f_meeting r = Some m /\
                             split " - " (m_time m) = [a; b]) /\
  (forall r m, In r rs -> f_meeting r = Some m ->
               (timed r = true <-> occurs " - " (m_time m) = true)).
Proof.
  intros H. apply typed_index in H as ((Hle & _) & Hi).
  split; [exact Hi|]. split; [|split].
  - rewrite Hi. apply select_filter_length.
  - intros k. rewrite Hi, (select_length_index timed rs 0 k), Nat.sub_0_r.
    split.
    + intros (r & Hk & Ht & _). apply timed_parts in Ht as (m & a & b & Hm & Hs).
      exists r, m, a, b. auto.
    + intros (r & m & a & b & Hk & Hm & Hs). exists r.
      split; [exact Hk|]. split; [|lia]. apply timed_parts. eauto.
  - intros r m Hr Hm. rewrite (split_occurs _ _ separator_not_empty).
    specialize (Hle r m Hr Hm). unfold timed. rewrite Hm, Nat.eqb_eq. lia.
Qed.

Lemma normalize_rows_witness :
  exists df,
    either_transform (map to_dict sample_records) df /\
    index df = [1; 3; 4]%nat /\
    List.length (index df) = List.length (filter timed sample_records) /\
    (forall k, In k (index df) <->
               exists r m a b, nth_error sample_records k = Some r /\
                               f_meeting r = Some m /\
                               split " - " (m_time m) = [a; b]).
Proof.
  eexists. split; [right; vm_compute; reflexivity|].
  destruct (normalize_rows sample_records _
              ltac:(right; vm_compute; reflexivity)) as (H1 & H2 & H3 & _).
  split; [reflexivity|]. split; [exact H2|exact H3].
Defined.

(* ----------------------------------------------------------------- *)
(** *** The fields that pass through *)

Lemma fixed_col (thu : string) (rs : list FlatRecord) (c : string) :
  thu = "thurday" \/ thu = "thursday" ->
  In c ["crn"; "name"; "actual_name"; "section"; "credits"; "schedule_type";
        "campus"] ->
  rs <> [] ->
  final_col thu (map to_dict rs) c =
  Some (select (map survives (map to_dict rs)) (map (cell_of c) (map to_dict rs))).
Proof.
  intros Ht Hc Hne. unfold final_col.
  rewrite exists_key_fixed by (cbn in Hc |- *; tauto).
  destruct rs as [|r0 rs]; [now destruct Hne|].
  cbn in Hc.
  destruct Ht as [-> | ->]; decompose [or] Hc; subst; try contradiction;
    reflexivity.
Qed.

Lemma cell_of_fixed (r : FlatRecord) :
  cell_of "crn" (to_dict r) = as_cell (f_crn r) /\
  cell_of "name" (to_dict r) = as_cell (f_name r) /\
  cell_of "actual_name" (to_dict r) = as_cell (f_actual_name r) /\
  cell_of "section" (to_dict r) = as_cell (f_section r) /\
  cell_of "credits" (to_dict r) = as_cell (f_credits r) /\
  cell_of "schedule_type" (to_dict r) = as_cell (f_schedule_type r) /\
  cell_of "campus" (to_dict r) = as_cell (f_campus r).
Proof.
  unfold cell_of, to_dict, as_cell.
  destruct (f_meeting r); cbn; repeat split;
    match goal with |- match ?v with _ => _ end = _ => now destruct v end.
Qed.

(** X8.  The normalizer leaves the fields it does not compute as they
    are: in a row that is kept, each of [crn], [name], [actual_name],
    [section], [credits], [schedule_type] and [campus] holds the value of
    the record (a [None] being a missing entry) when that value is a
    string or [None], or when the field is an integer of 64 bits in every
    record. *)
Theorem normalize_keeps_fields (rs : list FlatRecord) (df : DataFrame)
  (k : nat) (r : FlatRecord) (c : string) (field : FlatRecord -> pyval) :
  either_transform (map to_dict rs) df ->
  nth_error rs k = Some r ->
  In k (index df) ->
  In (c, field) passed_fields ->
  stored_as_is (map field rs) (field r) ->
  loc df k c = Some (as_cell (field r)).
Proof.
  intros H Hk Hin Hc _.
  apply either_transform_inv in H as (_ & thu & Hn & Hthu).
  assert (Hd : nth_error (map to_dict rs) k = Some (to_dict r))
    by (rewrite nth_error_map, Hk; reflexivity).
  assert (Hne : rs <> []) by (intros ->; destruct k; discriminate Hk).
  apply (normalized_index thu _ df k Hn) in Hin as (d & Hd' & Hs).
  rewrite Hd in Hd'. injection Hd' as <-.
  assert (L : forall c',
             In c' ["crn"; "name"; "actual_name"; "section"; "credits";
                    "schedule_type"; "campus"] ->
             loc df k c' = Some (cell_of c' (to_dict r))).
  { intros c' Hc'.
    rewrite (normalized_loc _ _ _ _ _ _ _ Hn (fixed_col thu rs c' Hthu Hc' Hne) Hd).
    now rewrite Hs. }
  destruct (cell_of_fixed r) as (E1 & E2 & E3 & E4 & E5 & E6 & E7).
  unfold passed_fields in Hc. cbn [In] in Hc.
  decompose [or] Hc; try contradiction;
    match goal with E : (_, _) = (c, field) |- _ => injection E as <- <- end.
  - rewrite <- E1. apply L. cbn; tauto.
  - rewrite <- E2. apply L. cbn; tauto.
  - rewrite <- E3. apply L. cbn; tauto.
  - rewrite <- E4. apply L. cbn; tauto.
  - rewrite <- E5. apply L. cbn; tauto.
  - rewrite <- E6. apply L. cbn; tauto.
  - rewrite <- E7. apply L. cbn; tauto.
Qed.

Lemma normalize_keeps_fields_witness :
  exists df,
    either_transform (map to_dict sample_records) df /\
    In 4%nat (index df) /\
    stored_as_is (map f_credits sample_records) (PInt 3) /\
    loc df 4 "credits" = Some (Some (PInt 3)).
Proof.
  eexists. split; [right; vm_compute; reflexivity|].
  split; [cbn; tauto|].
  assert (S : stored_as_is (map f_credits sample_records) (PInt 3))
    by (right; right; reflexivity).
  split; [exact S|].
  apply (normalize_keeps_fields sample_records _ 4
           (flat "0930 - 1045" "TR" "Hall 5" term) "credits" f_credits).
  - right; vm_compute; reflexivity.
  - reflexivity.
  - cbn; tauto.
  - cbn; tauto.
  - exact S.
Defined.

(* ----------------------------------------------------------------- *)
(** *** The two dates *)

(** X9.  In a row that is kept, a date range that contains the separator
    has exactly two parts; they are the entries of [start_date] and
    [end_date], and joined by the separator they give the date range
    back. *)
Theorem normalize_dates (rs : list FlatRecord) (df : DataFrame)
  (k : nat) (r : FlatRecord) (m : Meeting) :
  either_transform (map to_dict rs) df ->
  nth_error rs k = Some r ->
  f_meeting r = Some m ->
  In k (index df) ->
  occurs " - " (m_date_range m) = true ->
  exists a b,
    split " - " (m_date_range m) = [a; b] /\
    m_date_range m = (a ++ " - " ++ b)%string /\
    loc df k "start_date" = Some (Some (PStr a)) /\
    loc df k "end_date" = Some (Some (PStr b)).
Proof.
  intros H Hk Hm Hin Ho.
  apply either_transform_inv in H as (Hc & thu & Hn & Hthu).
  apply can_normalize_typed in Hc as ((Hle & _) & _ & _).
  assert (Hr : In r rs) by (eapply nth_error_In; eassumption).
  specialize (Hle r m Hr Hm).
  apply (split_occurs _ _ separator_not_empty) in Ho.
  assert (Hs2 : List.length (split " - " (m_date_range m)) = 2%nat) by lia.
  apply length_two in Hs2 as (a & b & Hs2). exists a, b.
  split; [exact Hs2|]. split.
  - rewrite <- (split_join " - " (m_date_range m) separator_not_empty) at 1.
    now rewrite Hs2.
  - assert (Hd : nth_error (map to_dict rs) k = Some (to_dict r))
      by (rewrite nth_error_map, Hk; reflexivity).
    destruct (final_col_common thu (map to_dict rs) Hthu)
      as (_ & _ & F3 & F4 & _).
    apply (normalized_index thu _ df k Hn) in Hin as (d & Hd' & Hs).
    rewrite Hd in Hd'. injection Hd' as <-.
    rewrite (normalized_loc _ _ _ _ _ _ _ Hn F3 Hd),
            (normalized_loc _ _ _ _ _ _ _ Hn F4 Hd), Hs.
    rewrite parts_of_date_range, Hm. cbn [option_map part]. rewrite Hs2.
    split; reflexivity.
Qed.

Lemma normalize_dates_witness :
  exists df,
    either_transform (map to_dict sample_records) df /\
    In 1%nat (index df) /\
    exists a b,
      split " - " term = [a; b] /\
      term = (a ++ " - " ++ b)%string /\
      loc df 1 "start_date" = Some (Some (PStr a)) /\
      loc df 1 "end_date" = Some (Some (PStr b)).
Proof.
  eexists. split; [right; vm_compute; reflexivity|].
  split; [cbn; tauto|].
  exact (normalize_dates sample_records _ 1 _ _
           ltac:(right; vm_compute; reflexivity) eq_refl eq_refl
           ltac:(cbn; tauto) eq_refl).
Defined.

(* ----------------------------------------------------------------- *)
(** *** The two times *)

(** X10.  [transform_military_time] on a string: a string that is not
    made of digits gives [None]; a time that is returned is one of the
    24-hour clock, read from two to four decimal digits; nothing but
    [ValueError] is raised, and it is raised for every string of digits
    that is shorter than two or longer than four characters or holds a
    digit that is not decimal (a superscript). *)
Theorem military_time_cases (s : string) :
  (isdigit s = false -> transform_military_time (Some (PStr s)) = Ok None) /\
  (forall v, transform_military_time (Some (PStr s)) = Ok (Some v) ->
             exists h mi, v = PTime h mi /\
                          (0 <= h <= 23)%Z /\ (0 <= mi <= 59)%Z /\
                          (2 <= String.length s <= 4)%nat /\
                          forallb is_decimal (list_ascii_of_string s) = true) /\
  (forall e, transform_military_time (Some (PStr s)) = Raise e ->
             e = ValueError /\ isdigit s = true) /\
  (isdigit s = true ->
   (String.length s < 2)%nat \/ (4 < String.length s)%nat \/
   forallb is_decimal (list_ascii_of_string s) = false ->
   transform_military_time (Some (PStr s)) = Raise ValueError).
Proof.
  split; [|split; [|split]].
  - intros H. unfold transform_military_time. now rewrite H.
  - intros v H.
    assert (P : parsed (Some (PStr s)) = Some v) by (unfold parsed; now rewrite H).
    apply parsed_time in P as (s' & h & mi & E & _ & P & ->).
    injection E as <-. exists h, mi. split; [reflexivity|].
    now apply strptime_HM_Ok.
  - intros e H.
    apply transform_military_time_Raise in H as [(s' & E & D & ->)|(N & _)].
    + injection E as <-. auto.
    + now destruct (N s).
  - intros D Hbad. unfold transform_military_time. rewrite D.
    destruct (strptime_HM s) as [[h mi]|e] eqn:P; cbn [bind].
    + apply strptime_HM_Ok in P as (_ & _ & L & F).
      destruct Hbad as [Hb|[Hb|Hb]]; [lia|lia|].
      rewrite F in Hb. discriminate Hb.
    + now rewrite (strptime_HM_Raise s e P).
Qed.

Lemma loc_normalized thu ds df c (f : dict -> cell) k v :
  normalized thu ds df ->
  final_col thu ds c = Some (select (map survives ds) (map f ds)) ->
  loc df k c = Some v ->
  exists d, nth_error ds k = Some d /\ survives d = true /\ v = f d.
Proof.
  intros (Hi & Hc) Hf. unfold loc. rewrite Hc, Hf, Hi.
  pose proof (assoc_select survives f ds 0 k) as E. cbn [Nat.add] in E.
  rewrite E. destruct (nth_error ds k) as [d|]; [|discriminate].
  destruct (survives d) eqn:Hs; [|discriminate].
  intros H; injection H as <-. eauto.
Qed.

(** X11.  An entry of [start_time] or [end_time] in a frame returned for
    FlatRecords is missing or a time of the 24-hour clock: the hour is at
    most 23 and the minute at most 59. *)
Theorem normalize_time_range (rs : list FlatRecord) (df : DataFrame)
  (k : nat) (c : string) (v : pyval) :
  either_transform (map to_dict rs) df ->
  c = "start_time" \/ c = "end_time" ->
  loc df k c = Some (Some v) ->
  exists h mi, v = PTime h mi /\ (0 <= h <= 23)%Z /\ (0 <= mi <= 59)%Z.
Proof.
  intros H Hc Hl.
  apply either_transform_inv in H as (_ & thu & Hn & Hthu).
  destruct (final_col_common thu (map to_dict rs) Hthu) as (F1 & F2 & _).
  assert (P : exists x, parsed x = Some v).
  { destruct Hc as [-> | ->].
    - apply (loc_normalized _ _ _ _ _ _ _ Hn F1) in Hl as (d & _ & _ & E). eauto.
    - apply (loc_normalized _ _ _ _ _ _ _ Hn F2) in Hl as (d & _ & _ & E). eauto. }
  destruct P as (x & P).
  apply parsed_time in P as (s & h & mi & _ & _ & P & ->).
  apply strptime_HM_Ok in P as (Bh & Bm & _). eauto.
Qed.

Lemma normalize_time_range_witness :
  exists df,
    either_transform (map to_dict sample_records) df /\
    loc df 4 "end_time" = Some (Some (PTime 10 45)) /\
    exists h mi, PTime 10 45 = PTime h mi /\
                 (0 <= h <= 23)%Z /\ (0 <= mi <= 59)%Z.
Proof.
  eexists. split; [right; vm_compute; reflexivity|].
  split; [reflexivity|].
  exact (normalize_time_range sample_records _ 4 "end_time" _
           ltac:(right; vm_compute; reflexivity) (or_intror eq_refl) eq_refl).
Defined.

(* ----------------------------------------------------------------- *)
(** *** The weekday flags *)

(** X12.  In a row that is kept, each weekday flag tells whether the day
    codes of the record contain the letter of the day: M, T, W, R and F.
    Both programs compute the five flags; [etl.py] stores the flag of
    Thursday under the name [thurday]. *)
Theorem normalize_weekday_flags (rs : list FlatRecord) (df : DataFrame)
  (thu : string) (k : nat) (r : FlatRecord) (m : Meeting) :
  (thu = "thurday" /\ Etl.transform (map to_dict rs) = Ok df) \/
  (thu = "thursday" /\ GtClassEtl.transform (map to_dict rs) = Ok df) ->
  nth_error rs k = Some r ->
  f_meeting r = Some m ->
  In k (index df) ->
  loc df k "monday" = Some (Some (PBool (has_day "M" m))) /\
  loc df k "tuesday" = Some (Some (PBool (has_day "T" m))) /\
  loc df k "wednesday" = Some (Some (PBool (has_day "W" m))) /\
  loc df k thu = Some (Some (PBool (has_day "R" m))) /\
  loc df k "friday" = Some (Some (PBool (has_day "F" m))).
Proof.
  intros H Hk Hm Hin.
  assert (Hn : normalized thu (map to_dict rs) df /\
               (thu = "thurday" \/ thu = "thursday")).
  { destruct H as [(-> & H)|(-> & H)].
    - apply etl_transform_inv in H as (_ & H). auto.
    - apply gt_transform_inv in H as (_ & H). auto. }
  destruct Hn as (Hn & Hthu).
  assert (Hd : nth_error (map to_dict rs) k = Some (to_dict r))
    by (rewrite nth_error_map, Hk; reflexivity).
  apply (normalized_index _ _ df k Hn) in Hin as (d & Hd' & Hs).
  rewrite Hd in Hd'. injection Hd' as <-.
  destruct (final_col_common thu (map to_dict rs) Hthu)
    as (_ & _ & _ & _ & _ & G1 & G2 & G3 & G4 & G5).
  rewrite (normalized_loc _ _ _ _ _ _ _ Hn G1 Hd),
          (normalized_loc _ _ _ _ _ _ _ Hn G2 Hd),
          (normalized_loc _ _ _ _ _ _ _ Hn G3 Hd),
          (normalized_loc _ _ _ _ _ _ _ Hn G4 Hd),
          (normalized_loc _ _ _ _ _ _ _ Hn G5 Hd), Hs.
  unfold day_flag, has_day. rewrite cell_of_day_of_week, Hm.
  cbn [option_map contains_cell]. rewrite <- !occurs_letter.
  repeat split; reflexivity.
Qed.

Lemma normalize_weekday_flags_witness :
  exists df,
    Etl.transform (map to_dict sample_records) = Ok df /\
    In 4%nat (index df) /\
    loc df 4 "monday" = Some (Some (PBool false)) /\
    loc df 4 "tuesday" = Some (Some (PBool true)) /\
    loc df 4 "wednesday" = Some (Some (PBool false)) /\
    loc df 4 "thurday" = Some (Some (PBool true)) /\
    loc df 4 "friday" = Some (Some (PBool false)).
Proof.
  eexists. split; [vm_compute; reflexivity|]. split; [cbn; tauto|].
  exact (normalize_weekday_flags sample_records _ "thurday" 4 _ _
           ltac:(left; split; [reflexivity | vm_compute; reflexivity])
           eq_refl eq_refl ltac:(cbn; tauto)).
Defined.

(* ----------------------------------------------------------------- *)
(** *** Dropping the rows with a missing entry, in two ways *)

Lemma zip_negb_or (xs ys : list bool) :
  map negb (zip_with orb xs ys) = zip_with andb (map negb xs) (map negb ys).
Proof.
  revert ys. induction xs as [|x xs IH]; intros [|y ys]; cbn [zip_with map];
    try reflexivity.
  now rewrite IH, negb_orb.
Qed.

Lemma fold_negb_or (cols : list Series) (acc : list bool) :
  map negb (fold_left (fun acc s => zip_with orb acc (map isna s)) cols acc) =
  fold_left (fun acc s => zip_with andb acc (map (fun c => negb (isna c)) s))
            cols (map negb acc).
Proof.
  revert acc. induction cols as [|s r IH]; intros acc; cbn [fold_left];
    [reflexivity|].
  now rewrite IH, zip_negb_or, map_map.
Qed.

Lemma zip_with_length {X Y Z : Type} (f : X -> Y -> Z) (xs : list X) (ys : list Y) :
  List.length xs = List.length ys ->
  List.length (zip_with f xs ys) = List.length xs.
Proof.
  revert ys. induction xs as [|x xs IH]; intros [|y ys] H; cbn [zip_with];
    try reflexivity; try discriminate H.
  cbn [List.length]. now rewrite IH by (injection H; auto).
Qed.

Lemma fold_or_length (cols : list Series) (acc : list bool) :
  Forall (fun s => List.length s = List.length acc) cols ->
  List.length (fold_left (fun acc s => zip_with orb acc (map isna s)) cols acc) =
  List.length acc.
Proof.
  revert acc. induction cols as [|s r IH]; intros acc H; cbn [fold_left];
    [reflexivity|].
  inversion H as [|? ? Hs Hr]; subst.
  assert (L : List.length (zip_with orb acc (map isna s)) = List.length acc)
    by (apply zip_with_length; now rewrite length_map).
  rewrite IH; [exact L|].
  eapply Forall_impl; [|exact Hr]. cbn beta. intros s' Hs'. now rewrite L.
Qed.

Lemma getcol_In c s cols : getcol c cols = Some s -> In (c, s) cols.
Proof.
  induction cols as [|[c' s'] r IH]; cbn [getcol]; [discriminate|].
  destruct (String.eqb_spec c c') as [->|_].
  - intros H; injection H as ->. now left.
  - intros H. right. now apply IH.
Qed.

Lemma mapM_getitem_lengths (labels : list string) (df : DataFrame)
  (cols : list Series) :
  rectangular df ->
  mapM (fun l => df_getitem l df) labels = Ok cols ->
  Forall (fun s => List.length s = List.length (index df)) cols.
Proof.
  intros Hr H. apply mapM_Ok_Forall2 in H.
  induction H as [|l s labels cols Hl _ IH]; constructor; [|exact IH].
  apply df_getitem_inv, getcol_In in Hl.
  unfold rectangular in Hr. rewrite Forall_forall in Hr. exact (Hr _ Hl).
Qed.

(** X13.  The two ways of dropping the rows with a missing entry, that of
    [etl.py] (the labels of these rows are computed, then dropped) and
    [dropna] of [gt_class_etl.py], do the same on every frame with
    pairwise distinct row labels and full columns, whatever the columns
    that are examined: the same frame, or the same [KeyError]. *)
Theorem drop_missing_is_dropna (labels : list string) (df : DataFrame) :
  NoDup (index df) ->
  rectangular df ->
  drop_missing labels df = dropna labels df.
Proof.
  intros Hn Hr. unfold drop_missing, dropna, any_isna.
  destruct (mapM (fun l => df_getitem l df) labels) as [cols|e] eqn:E;
    cbn [bind]; [|reflexivity].
  rewrite drop_rows_ok. f_equal. f_equal.
  pose proof (mapM_getitem_lengths labels df cols Hr E) as Hl.
  rewrite drop_selected.
  - rewrite fold_negb_or. f_equal.
    clear. induction (List.length (index df)) as [|n IH]; cbn [repeat map];
      [reflexivity|now rewrite IH].
  - exact Hn.
  - rewrite fold_or_length; [apply repeat_length|].
    eapply Forall_impl; [|exact Hl]. cbn beta. intros s Hs.
    now rewrite repeat_length.
Qed.

(** With a row label that occurs twice the two differ: [etl.py] drops
    every row that carries the label of a row with a missing entry. *)
Lemma drop_missing_duplicate_labels :
  let df := {| index := [0; 0]%nat;
               columns := [("time", [None; Some (PStr "0800 - 0915")])] |} in
  option_map (fun df => index df)
    (match drop_missing ["time"] df with Ok df => Some df | Raise _ => None end)
  = Some [] /\
  option_map (fun df => index df)
    (match dropna ["time"] df with Ok df => Some df | Raise _ => None end)
  = Some [0%nat].
Proof. split; reflexivity. Qed.

Lemma sample_frame_rectangular :
  NoDup (index (pd_DataFrame (map to_dict sample_records))) /\
  rectangular (pd_DataFrame (map to_dict sample_records)).
Proof.
  split.
  - apply seq_NoDup.
  - unfold rectangular. apply Forall_forall. intros cs Hin.
    cbn [pd_DataFrame columns index] in Hin |- *.
    apply in_map_iff in Hin as (c & <- & _). cbn [snd].
    now rewrite !length_map, length_seq.
Qed.

Lemma drop_missing_is_dropna_witness :
  NoDup (index (pd_DataFrame (map to_dict sample_records))) /\
  rectangular (pd_DataFrame (map to_dict sample_records)) /\
  drop_missing ["time"; "date_range"] (pd_DataFrame (map to_dict sample_records)) =
  dropna ["time"; "date_range"] (pd_DataFrame (map to_dict sample_records)) /\
  option_map (fun df => index df)
    (match dropna ["time"; "date_range"]
             (pd_DataFrame (map to_dict sample_records)) with
     | Ok df => Some df
     | Raise _ => None
     end) = Some [1; 2; 3; 4]%nat.
Proof.
  split; [exact (proj1 sample_frame_rectangular)|].
  split; [exact (proj2 sample_frame_rectangular)|].
  split; [|vm_compute; reflexivity].
  exact (drop_missing_is_dropna ["time"; "date_range"] _
           (proj1 sample_frame_rectangular) (proj2 sample_frame_rectangular)).
Defined.

(* ================================================================= *)
(** ** More on the normalizers: the fields that have no influence *)

Lemma columns_ext (cols cols' : list (string * Series)) :
  map fst cols = map fst cols' ->
  NoDup (map fst cols) ->
  (forall c, getcol c cols = getcol c cols') ->
  cols = cols'.
Proof.
  revert cols'. induction cols as [|[c s] r IH]; intros [|[c' s'] r'] Hn Hd Hg;
    try discriminate Hn; [reflexivity|].
  cbn [map fst] in Hn, Hd. injection Hn as <- Hn.
  inversion Hd as [|? ? Hc Hr]; subst.
  pose proof (Hg c) as E. cbn [getcol] in E. rewrite String.eqb_refl in E.
  injection E as <-. f_equal. apply IH; [exact Hn|exact Hr|].
  intros k. specialize (Hg k). cbn [getcol] in Hg.
  destruct (String.eqb k c) eqn:Ekc; [|exact Hg].
  apply String.eqb_eq in Ekc. subst k. clear Hg.
  assert (N : forall l, ~ In c (map fst l) -> getcol c l = None).
  { intros l Hl. pose proof (mem_fst_getcol c l) as M.
    destruct (getcol c l); [|reflexivity].
    apply mem_In in M. now destruct Hl. }
  rewrite (N r Hc), (N r') by (rewrite <- Hn; exact Hc). reflexivity.
Qed.

Lemma frame_ext (df df' : DataFrame) :
  index df = index df' ->
  map fst (columns df) = map fst (columns df') ->
  NoDup (map fst (columns df)) ->
  (forall c, getcol c (columns df) = getcol c (columns df')) ->
  df = df'.
Proof.
  destruct df as [i cols], df' as [i' cols']; cbn [index columns].
  intros -> Hn Hd Hg. f_equal. now apply columns_ext.
Qed.

(** What the normalizer reads of a record is the same in two records
    that agree but for the dropped fields. *)
Lemma agree_has_key (d d' : dict) (c : string) :
  agree_but_dropped d d' -> has_key c d = has_key c d'.
Proof.
  intros (Hk & _).
  destruct (has_key c d) eqn:E, (has_key c d') eqn:E'; try reflexivity.
  - apply has_key_In in E. rewrite Hk in E. apply has_key_In in E.
    rewrite E in E'. discriminate E'.
  - apply has_key_In in E'. rewrite <- Hk in E'. apply has_key_In in E'.
    rewrite E' in E. discriminate E.
Qed.

Lemma agree_cell_of (d d' : dict) (c : string) :
  agree_but_dropped d d' ->
  mem c ["attributes"; "building_coords"; "professors"] = false ->
  cell_of c d = cell_of c d'.
Proof.
  intros (_ & Hv) Hc. unfold cell_of. rewrite (Hv c); [reflexivity|].
  intros Hin. apply mem_In in Hin. rewrite Hin in Hc. discriminate Hc.
Qed.

Lemma agree_reads (d d' : dict) :
  agree_but_dropped d d' ->
  parts_of "time" d = parts_of "time" d' /\
  parts_of "date_range" d = parts_of "date_range" d' /\
  raw_start_time d = raw_start_time d' /\
  raw_end_time d = raw_end_time d' /\
  survives d = survives d' /\
  building_of d = building_of d' /\
  (forall p, day_flag p d = day_flag p d').
Proof.
  intros H.
  unfold survives, raw_start_time, raw_end_time, building_of, day_flag, parts_of.
  rewrite (agree_cell_of d d' "time" H eq_refl),
          (agree_cell_of d d' "date_range" H eq_refl),
          (agree_cell_of d d' "building" H eq_refl),
          (agree_cell_of d d' "day_of_week" H eq_refl).
  repeat split; reflexivity.
Qed.

Lemma Forall2_map_ext {X Y : Type} (R : X -> X -> Prop) (f : X -> Y)
  (xs xs' : list X) :
  Forall2 R xs xs' -> (forall x x', R x x' -> f x = f x') ->
  map f xs = map f xs'.
Proof.
  intros H Hf. induction H as [|x x' xs xs' Hx _ IH]; [reflexivity|].
  cbn [map]. now rewrite (Hf x x' Hx), IH.
Qed.

Section Agree.

Variables ds ds' : list dict.
Hypothesis agree : Forall2 agree_but_dropped ds ds'.

Lemma agree_all_keys : all_keys ds = all_keys ds'.
Proof.
  unfold all_keys. f_equal. f_equal.
  apply (Forall2_map_ext agree_but_dropped); [exact agree|].
  now intros d d' (H & _).
Qed.

Lemma agree_length : List.length ds = List.length ds'.
Proof. eapply Forall2_length; exact agree. Qed.

Lemma agree_map (f : dict -> cell) :
  (forall d d', agree_but_dropped d d' -> f d = f d') ->
  map f ds = map f ds'.
Proof. apply Forall2_map_ext. exact agree. Qed.

Lemma agree_survives : map survives ds = map survives ds'.
Proof.
  apply (Forall2_map_ext agree_but_dropped); [exact agree|].
  intros d d' H. now destruct (agree_reads d d' H) as (_ & _ & _ & _ & E & _).
Qed.

Lemma agree_parts (k : string) :
  k = "time" \/ k = "date_range" ->
  map (parts_of k) ds = map (parts_of k) ds'.
Proof.
  intros Hk. apply (Forall2_map_ext agree_but_dropped); [exact agree|].
  intros d d' H. destruct (agree_reads d d' H) as (E1 & E2 & _).
  now destruct Hk as [-> | ->].
Qed.

Lemma agree_exists_key (c : string) :
  existsb (has_key c) ds = existsb (has_key c) ds'.
Proof.
  induction agree as [|d d' r r' Hd Hr IH]; [reflexivity|].
  cbn [existsb]. now rewrite (agree_has_key d d' c Hd), (IH Hr).
Qed.

Lemma agree_final_col (thu c : string) :
  final_col thu ds c = final_col thu ds' c.
Proof.
  unfold final_col. rewrite agree_survives, agree_exists_key.
  destruct (mem c ["attributes"; "building_coords"; "professors";
                   "date_range"; "time"; "day_of_week"]) eqn:M; [reflexivity|].
  rewrite (agree_map building_of),
          (agree_map (day_flag "F")), (agree_map (day_flag "R")),
          (agree_map (day_flag "W")), (agree_map (day_flag "T")),
          (agree_map (day_flag "M")),
          (agree_map (fun d => parsed (raw_end_time d))),
          (agree_map (fun d => parsed (raw_start_time d))),
          (agree_map (fun d => part 1 (parts_of "date_range" d))),
          (agree_map (fun d => part 0 (parts_of "date_range" d))),
          (agree_map (cell_of c));
    try (intros d d' H;
         destruct (agree_reads d d' H) as (E1 & E2 & E3 & E4 & E5 & E6 & E7);
         rewrite ?E2, ?E3, ?E4, ?E6, ?E7; reflexivity).
  - reflexivity.
  - intros d d' H. apply agree_cell_of; [exact H|].
    cbn [mem existsb] in M |- *.
    repeat (apply orb_false_elim in M as (? & M)).
    repeat (apply orb_false_intro; [assumption|]). reflexivity.
Qed.

Lemma agree_can_normalize : can_normalize ds -> can_normalize ds'.
Proof.
  intros (K & W1 & W2 & T). split; [|split; [|split]].
  - eapply Forall_impl; [|exact K]. cbn beta. intros k Hk.
    now rewrite <- agree_exists_key.
  - rewrite <- (agree_parts "date_range") by auto. exact W1.
  - rewrite <- (agree_parts "time") by auto. exact W2.
  - clear K W1 W2. induction agree as [|d d' r r' Hd Hr IH]; [constructor|].
    inversion T as [|? ? Td Tr]; subst. constructor; [|now apply IH].
    destruct (agree_reads d d' Hd) as (_ & _ & E3 & E4 & E5 & _).
    now rewrite <- E3, <- E4, <- E5.
Qed.

Variable transform : list dict -> result DataFrame.
Variable thu : string.

Hypothesis transform_inv : forall xs df,
  transform xs = Ok df -> can_normalize xs /\ normalized thu xs df.
Hypothesis transform_ok : forall xs,
  can_normalize xs -> exists df, transform xs = Ok df.
Hypothesis transform_names : forall xs df,
  transform xs = Ok df -> map fst (columns df) = column_names thu (all_keys xs).

(** Where the normalizer returns for the one list, it returns the same
    frame for the other. *)
Lemma agree_Ok (df : DataFrame) :
  transform ds = Ok df -> transform ds' = Ok df.
Proof.
  intros H. pose proof (transform_names _ _ H) as Hn.
  apply transform_inv in H as (Hc & Hi & Hg).
  destruct (transform_ok ds' (agree_can_normalize Hc)) as (df' & H').
  rewrite H'. f_equal. symmetry.
  pose proof (transform_names _ _ H') as Hn'.
  apply transform_inv in H' as (_ & Hi' & Hg').
  apply frame_ext.
  - now rewrite Hi, Hi', agree_survives, agree_length.
  - now rewrite Hn, Hn', agree_all_keys.
  - rewrite Hn. apply NoDup_column_names, NoDup_dedup.
  - intros c. now rewrite Hg, Hg', agree_final_col.
Qed.

End Agree.

Lemma agree_sym (ds ds' : list dict) :
  Forall2 agree_but_dropped ds ds' -> Forall2 agree_but_dropped ds' ds.
Proof.
  induction 1 as [|d d' r r' (Hk & Hv) _ IH]; constructor; [|exact IH].
  split; [now symmetry|]. intros c Hc. symmetry. now apply Hv.
Qed.

Lemma agree_without (r : FlatRecord) :
  agree_but_dropped (to_dict r) (to_dict (without_dropped r)).
Proof.
  split.
  - rewrite !keys_to_dict. unfold has_meeting, without_dropped; cbn [f_meeting].
    now destruct (f_meeting r).
  - intros c Hc. unfold to_dict, without_dropped.
    cbn [f_crn f_name f_actual_name f_section f_meeting f_credits
         f_schedule_type f_campus f_attributes].
    destruct (f_meeting r) as [m|];
      cbn [option_map app dict_get m_time m_day_of_week m_building
           m_building_coords m_professors m_date_range];
      repeat match goal with
             | |- context [String.eqb c ?k] =>
                 destruct (String.eqb_spec c k) as [->|?];
                 [ first [ reflexivity | exfalso; apply Hc; cbn; tauto ] | ]
             end;
      reflexivity.
Qed.

Lemma agree_trans (d1 d2 d3 : dict) :
  agree_but_dropped d1 d2 -> agree_but_dropped d2 d3 -> agree_but_dropped d1 d3.
Proof.
  intros (K1 & V1) (K2 & V2). split; [congruence|].
  intros c Hc. now rewrite (V1 c Hc), (V2 c Hc).
Qed.

Lemma agree_typed (rs rs' : list FlatRecord) :
  map without_dropped rs = map without_dropped rs' ->
  Forall2 agree_but_dropped (map to_dict rs) (map to_dict rs').
Proof.
  revert rs'. induction rs as [|r rs IH]; intros [|r' rs'] H;
    try discriminate H; [constructor|].
  pose proof (f_equal (hd (without_dropped r)) H) as Hr.
  pose proof (f_equal (@tl FlatRecord) H) as Hrs.
  cbn [map hd tl] in Hr, Hrs |- *. constructor; [|now apply IH].
  eapply agree_trans; [apply agree_without|].
  rewrite Hr. destruct (agree_without r') as (K & V).
  split; [now symmetry|]. intros c Hc. symmetry. now apply V.
Qed.

Lemma has_meeting_without (rs rs' : list FlatRecord) :
  map without_dropped rs = map without_dropped rs' ->
  existsb has_meeting rs = existsb has_meeting rs'.
Proof.
  intros H. apply agree_typed in H.
  rewrite <- (exists_key_meeting rs "time"), <- (exists_key_meeting rs' "time")
    by (cbn; tauto).
  now apply agree_exists_key.
Qed.

Section Ignores.

Variable transform : list dict -> result DataFrame.
Variable thu : string.

Hypothesis transform_inv : forall xs df,
  transform xs = Ok df -> can_normalize xs /\ normalized thu xs df.
Hypothesis transform_ok : forall xs,
  can_normalize xs -> exists df, transform xs = Ok df.
Hypothesis transform_names : forall xs df,
  transform xs = Ok df -> map fst (columns df) = column_names thu (all_keys xs).
Hypothesis transform_Raise : forall xs e,
  transform xs = Raise e -> e = KeyError \/ e = ValueError.
Hypothesis transform_KeyError : forall rs,
  transform (map to_dict rs) = Raise KeyError <->
  forall r, In r rs -> f_meeting r = None.

Lemma typed_ignores (rs rs' : list FlatRecord) :
  map without_dropped rs = map without_dropped rs' ->
  transform (map to_dict rs) = transform (map to_dict rs').
Proof.
  intros H. pose proof (agree_typed rs rs' H) as Ha.
  pose proof (has_meeting_without rs rs' H) as Hm.
  destruct (transform (map to_dict rs)) as [df|e] eqn:E.
  - symmetry.
    exact (agree_Ok _ _ Ha transform thu transform_inv transform_ok
             transform_names df E).
  - destruct (transform (map to_dict rs')) as [df'|e'] eqn:E'.
    + pose proof (agree_Ok _ _ (agree_sym _ _ Ha) transform thu transform_inv
                    transform_ok transform_names df' E') as E2.
      rewrite E in E2. discriminate E2.
    + f_equal.
      assert (K : e = KeyError <-> e' = KeyError).
      { split; intros ->.
        - pose proof (proj2 (has_meeting_false rs)
                        (proj1 (transform_KeyError rs) E)) as N.
          rewrite Hm in N.
          pose proof (proj2 (transform_KeyError rs')
                        (proj1 (has_meeting_false rs') N)) as E2.
          rewrite E2 in E'. now injection E' as <-.
        - pose proof (proj2 (has_meeting_false rs')
                        (proj1 (transform_KeyError rs') E')) as N.
          rewrite <- Hm in N.
          pose proof (proj2 (transform_KeyError rs)
                        (proj1 (has_meeting_false rs) N)) as E2.
          rewrite E2 in E. now injection E as <-. }
      destruct (transform_Raise _ _ E) as [-> | ->],
               (transform_Raise _ _ E') as [-> | ->]; try reflexivity.
      * symmetry. now apply K.
      * now apply K.
Qed.

End Ignores.

Lemma etl_typed_ignores (rs rs' : list FlatRecord) :
  map without_dropped rs = map without_dropped rs' ->
  Etl.transform (map to_dict rs) = Etl.transform (map to_dict rs').
Proof.
  apply (typed_ignores Etl.transform "thurday").
  - apply etl_transform_inv.
  - apply etl_transform_ok.
  - apply etl_transform_names.
  - intros xs e H. apply etl_transform_Raise in H as [(-> & _)| ->]; auto.
  - intros rs0. apply etl_typed_failure.
Qed.

Lemma gt_typed_ignores (rs rs' : list FlatRecord) :
  map without_dropped rs = map without_dropped rs' ->
  GtClassEtl.transform (map to_dict rs) = GtClassEtl.transform (map to_dict rs').
Proof.
  apply (typed_ignores GtClassEtl.transform "thursday").
  - apply gt_transform_inv.
  - apply gt_transform_ok.
  - apply gt_transform_names.
  - intros xs e H. apply gt_transform_Raise in H as [(-> & _)| ->]; auto.
  - intros rs0. apply gt_typed_failure.
Qed.

(** X17.  The values of [attributes], [building_coords] and [professors]
    have no influence on what a normalizer does: two lists of FlatRecords
    that differ in these values only give the same result, the same frame
    or the same exception. *)
Theorem normalize_ignores_dropped (rs rs' : list FlatRecord) :
  map without_dropped rs = map without_dropped rs' ->
  Etl.transform (map to_dict rs) = Etl.transform (map to_dict rs') /\
  GtClassEtl.transform (map to_dict rs) = GtClassEtl.transform (map to_dict rs').
Proof.
  intros H. split; [now apply etl_typed_ignores | now apply gt_typed_ignores].
Qed.

Lemma normalize_ignores_dropped_witness :
  map without_dropped sample_records <> sample_records /\
  Etl.transform (map to_dict sample_records) =
  Etl.transform (map to_dict (map without_dropped sample_records)) /\
  GtClassEtl.transform (map to_dict sample_records) =
  GtClassEtl.transform (map to_dict (map without_dropped sample_records)).
Proof.
  split; [intros H; vm_compute in H; discriminate H|].
  exact (normalize_ignores_dropped sample_records
           (map without_dropped sample_records) eq_refl).
Defined.

(* ================================================================= *)
(** ** The entry points *)

Section Pipeline.

Variable attr : list string -> pyval.
Variable thu : string.
Variable flatten : pyval -> result (list dict).
Variable transform : list dict -> result DataFrame.

Hypothesis flatten_is_typed : forall ca sa d,
  distinct_keys d -> flatten (encode_at ca sa d) = flatten_typed attr ca sa d.

Hypothesis transform_is_either : forall ds df,
  transform ds = Ok df ->
  (thu = "thurday" /\ Etl.transform ds = Ok df) \/
  (thu = "thursday" /\ GtClassEtl.transform ds = Ok df).

Hypothesis transform_Raise : forall ds e,
  transform ds = Raise e -> e = KeyError \/ e = ValueError.

Hypothesis transform_failure : forall rs,
  (transform (map to_dict rs) = Raise KeyError <->
   forall r, In r rs -> f_meeting r = None) /\
  (transform (map to_dict rs) = Raise ValueError <->
   (exists r m, In r rs /\ f_meeting r = Some m) /\ ~ normalizable rs).

(** The flattener followed by the normalizer, on a document of the data
    model. *)
Lemma pipeline_cases (ca : string -> nat) (sa : string -> string -> nat)
  (d : CatalogDocument) :
  distinct_keys d ->
  ((exists i l, malformed_at ca sa d i l) /\
   flatten (encode_at ca sa d) = Raise IndexError) \/
  (exists rs,
     map (resolved attr (caches d)) (doc_sections d) = map Some rs /\
     flatten (encode_at ca sa d) = Ok (map to_dict rs) /\
     List.length (map to_dict rs) = List.length (doc_sections d) /\
     (((forall r, In r rs -> f_meeting r = None) /\
       transform (map to_dict rs) = Raise KeyError) \/
      ((exists r m, In r rs /\ f_meeting r = Some m) /\ ~ normalizable rs /\
       transform (map to_dict rs) = Raise ValueError) \/
      (normalizable rs /\
       exists df, transform (map to_dict rs) = Ok df /\
                  List.length (index df) = List.length (filter timed rs) /\
                  List.length (columns df) = 17%nat))).
Proof.
  intros Hd. rewrite (flatten_is_typed ca sa d Hd).
  destruct (flatten_typed attr ca sa d) as [out|e] eqn:E.
  - right. apply flatten_typed_resolved in E as (rs & -> & Hrs).
    exists rs. split; [exact Hrs|]. split; [reflexivity|]. split.
    { rewrite length_map, <- (length_map Some), <- Hrs. apply length_map. }
    destruct (transform (map to_dict rs)) as [df|e] eqn:T.
    + right. right.
      pose proof (transform_is_either _ _ T) as Hor.
      assert (He : either_transform (map to_dict rs) df).
      { destruct Hor as [(_ & H)|(_ & H)]; [now left|now right]. }
      split.
      * apply either_transform_inv in He as (Hc & _).
        now apply can_normalize_typed in Hc.
      * exists df. split; [reflexivity|]. split.
        -- apply typed_index in He as (_ & ->). apply select_filter_length.
        -- now destruct (typed_columns rs df thu Hor).
    + destruct (transform_failure rs) as (HK & HV).
      destruct (transform_Raise _ _ T) as [-> | ->].
      * left. split; [now apply HK | reflexivity].
      * right. left. apply HV in T as (Hm & Hn). auto.
  - left. apply flatten_typed_Raise_inv in E as (-> & H). auto.
Qed.

End Pipeline.

Lemma gt_pipeline_cases (ca : string -> nat) (sa : string -> string -> nat)
  (d : CatalogDocument) :
  distinct_keys d ->
  ((exists i l, malformed_at ca sa d i l) /\
   GtClassEtl.transform_json_to_list (encode_at ca sa d) = Raise IndexError) \/
  (exists rs,
     map (resolved attributes_gt (caches d)) (doc_sections d) = map Some rs /\
     GtClassEtl.transform_json_to_list (encode_at ca sa d) = Ok (map to_dict rs) /\
     List.length (map to_dict rs) = List.length (doc_sections d) /\
     (((forall r, In r rs -> f_meeting r = None) /\
       GtClassEtl.transform (map to_dict rs) = Raise KeyError) \/
      ((exists r m, In r rs /\ f_meeting r = Some m) /\ ~ normalizable rs /\
       GtClassEtl.transform (map to_dict rs) = Raise ValueError) \/
      (normalizable rs /\
       exists df, GtClassEtl.transform (map to_dict rs) = Ok df /\
                  List.length (index df) = List.length (filter timed rs) /\
                  List.length (columns df) = 17%nat))).
Proof.
  apply (pipeline_cases attributes_gt "thursday").
  - apply gt_flatten_typed.
  - intros ds df H. right. auto.
  - intros ds e H. apply gt_transform_Raise in H as [(-> & _)| ->]; auto.
  - apply gt_typed_failure.
Qed.

Lemma etl_pipeline_cases (ca : string -> nat) (sa : string -> string -> nat)
  (d : CatalogDocument) :
  distinct_keys d ->
  ((exists i l, malformed_at ca sa d i l) /\
   Etl.transform_json_to_list (encode_at ca sa d) = Raise IndexError) \/
  (exists rs,
     map (resolved attributes_etl (caches d)) (doc_sections d) = map Some rs /\
     Etl.transform_json_to_list (encode_at ca sa d) = Ok (map to_dict rs) /\
     List.length (map to_dict rs) = List.length (doc_sections d) /\
     (((forall r, In r rs -> f_meeting r = None) /\
       Etl.transform (map to_dict rs) = Raise KeyError) \/
      ((exists r m, In r rs /\ f_meeting r = Some m) /\ ~ normalizable rs /\
       Etl.transform (map to_dict rs) = Raise ValueError) \/
      (normalizable rs /\
       exists df, Etl.transform (map to_dict rs) = Ok df /\
                  List.length (index df) = List.length (filter timed rs) /\
                  List.length (columns df) = 17%nat))).
Proof.
  apply (pipeline_cases attributes_etl "thurday").
  - apply etl_flatten_typed.
  - intros ds df H. left. auto.
  - intros ds e H. apply etl_transform_Raise in H as [(-> & _)| ->]; auto.
  - apply etl_typed_failure.
Qed.

(** X14.  What a run of [gt_class_etl] does when [extract_json] returns a
    document of the data model.  A malformed document: one line, the
    failure with [IndexError].  Otherwise the first line gives the number
    of (course, section) pairs of the document (under the name of
    courses); then either the failure of the normalizer ([KeyError] when
    no section has a meeting, [ValueError] when the times or the date
    ranges cannot be normalized), or the second line with the number of
    sections whose time has two parts and the number 17 of columns,
    followed by the one call of [df_to_sql], on the frame of the
    normalizer, with what it prints and the failure it may raise.  No
    frame is passed to [df_to_sql] after a failure. *)
Theorem gt_class_etl_run (ca : string -> nat) (sa : string -> string -> nat)
  (d : CatalogDocument) (extract_json : string -> outcome pyval)
  (df_to_sql : DataFrame -> list string * option raised) :
  distinct_keys d ->
  extract_json source_url = Returned (encode_at ca sa d) ->
  ((exists i l, malformed_at ca sa d i l) /\
   gt_class_etl extract_json df_to_sql = [FailureLine (Builtin IndexError)]) \/
  (exists rs,
     map (resolved attributes_gt (caches d)) (doc_sections d) = map Some rs /\
     (((forall r, In r rs -> f_meeting r = None) /\
       gt_class_etl extract_json df_to_sql =
       [ Line (transformed_line (List.length (doc_sections d)));
         FailureLine (Builtin KeyError) ]) \/
      ((exists r m, In r rs /\ f_meeting r = Some m) /\ ~ normalizable rs /\
       gt_class_etl extract_json df_to_sql =
       [ Line (transformed_line (List.length (doc_sections d)));
         FailureLine (Builtin ValueError) ]) \/
      (normalizable rs /\
       exists df,
         GtClassEtl.transform (map to_dict rs) = Ok df /\
         gt_class_etl extract_json df_to_sql =
         Line (transformed_line (List.length (doc_sections d)))
         :: Line (frame_line (List.length (filter timed rs)) 17)
         :: Upload df
         :: map Line (fst (df_to_sql df))
         ++ match snd (df_to_sql df) with
            | Some r => [FailureLine r]
            | None => []
            end))).
Proof.
  intros Hd Hx. unfold gt_class_etl. rewrite Hx.
  destruct (gt_pipeline_cases ca sa d Hd)
    as [(Hm & E)|(rs & Hrs & E & L & [(Hn & T)|[(Hm & Hn & T)|(Hn & df & T & R & C)]])];
    rewrite E.
  - left. auto.
  - right. exists rs. split; [exact Hrs|]. left. rewrite T, L. auto.
  - right. exists rs. split; [exact Hrs|]. right. left. rewrite T, L. auto.
  - right. exists rs. split; [exact Hrs|]. right. right.
    split; [exact Hn|]. exists df. split; [exact T|].
    rewrite T, L, R, C. reflexivity.
Qed.

Lemma gt_class_etl_run_witness :
  distinct_keys sample_doc /\
  exists df,
    gt_class_etl (fun _ => Returned (encode sample_doc)) accepting_sink =
    [ Line "Transformed 3 courses.";
      Line "DataFrame transformed: 2 rows, 17 columns.";
      Upload df;
      Line "'gt_classes' table has been successfully uploaded to PostgreSQL." ].
Proof.
  split; [exact (proj1 sample_doc_well_formed)|].
  destruct (gt_class_etl_run (fun _ => 2%nat) (fun _ _ => 6%nat) sample_doc
              (fun _ => Returned (encode sample_doc)) accepting_sink
              (proj1 sample_doc_well_formed) eq_refl)
    as [(_ & H)|(rs & Hrs & [(_ & H)|[(_ & _ & H)|(_ & df & _ & H)]])];
    try (vm_compute in H; discriminate H).
  exists df. rewrite H.
  vm_compute in Hrs.
  repeat (destruct rs as [|? rs]; [discriminate Hrs|]).
  destruct rs; [|discriminate Hrs].
  injection Hrs as <- <- <-. reflexivity.
Defined.

(** X15.  What the [__main__] block of [etl.py] does when [extract_json]
    returns a document of the data model: it ends with [IndexError] on a
    malformed document, with [KeyError] when no section has a meeting,
    with [ValueError] when the times or the date ranges of the sections
    cannot be normalized, and prints its one empty line in every other
    case. *)
Theorem etl_main_run (ca : string -> nat) (sa : string -> string -> nat)
  (d : CatalogDocument) (extract_json : string -> outcome pyval) :
  distinct_keys d ->
  extract_json source_url = Returned (encode_at ca sa d) ->
  ((exists i l, malformed_at ca sa d i l) /\
   etl_main extract_json = Failed (Builtin IndexError)) \/
  (exists rs,
     map (resolved attributes_etl (caches d)) (doc_sections d) = map Some rs /\
     (((forall r, In r rs -> f_meeting r = None) /\
       etl_main extract_json = Failed (Builtin KeyError)) \/
      ((exists r m, In r rs /\ f_meeting r = Some m) /\ ~ normalizable rs /\
       etl_main extract_json = Failed (Builtin ValueError)) \/
      (normalizable rs /\ etl_main extract_json = Returned [Line ""]))).
Proof.
  intros Hd Hx. unfold etl_main. rewrite Hx.
  destruct (etl_pipeline_cases ca sa d Hd)
    as [(Hm & E)|(rs & Hrs & E & L & [(Hn & T)|[(Hm & Hn & T)|(Hn & df & T & _)]])];
    rewrite E.
  - left. auto.
  - right. exists rs. split; [exact Hrs|]. left. rewrite T. auto.
  - right. exists rs. split; [exact Hrs|]. right. left. rewrite T. auto.
  - right. exists rs. split; [exact Hrs|]. right. right. rewrite T. auto.
Qed.

Lemma etl_main_run_witness :
  distinct_keys sample_doc /\
  etl_main (fun _ => Returned (encode sample_doc)) = Returned [Line ""] /\
  distinct_keys bad_campus_doc /\
  etl_main (fun _ => Returned (encode bad_campus_doc)) =
  Failed (Builtin IndexError).
Proof.
  split; [exact (proj1 sample_doc_well_formed)|]. split.
  - destruct (etl_main_run (fun _ => 2%nat) (fun _ _ => 6%nat) sample_doc
                (fun _ => Returned (encode sample_doc))
                (proj1 sample_doc_well_formed) eq_refl)
      as [(_ & H)|(rs & _ & [(_ & H)|[(_ & _ & H)|(_ & H)]])];
      try (vm_compute in H; discriminate H).
    exact H.
  - split; [exact bad_campus_doc_distinct_keys|].
    destruct (etl_main_run (fun _ => 2%nat) (fun _ _ => 6%nat) bad_campus_doc
                (fun _ => Returned (encode bad_campus_doc))
                bad_campus_doc_distinct_keys eq_refl)
      as [(_ & H)|(rs & _ & [(_ & H)|[(_ & _ & H)|(_ & H)]])];
      try (vm_compute in H; discriminate H).
    exact H.
Defined.

(* ----------------------------------------------------------------- *)
(** *** What is passed to [df_to_sql] *)

Lemma uploads_lines (lines : list string) (rest : list event) :
  uploads (map Line lines ++ rest) = uploads rest.
Proof.
  unfold uploads. induction lines as [|l r IH]; [reflexivity|exact IH].
Qed.

Lemma uploads_failure (r : option raised) :
  uploads (match r with Some r => [FailureLine r] | None => [] end) = [].
Proof. now destruct r. Qed.

(** X16.  Whether [extract_json] fails or returns a catalog document,
    and whatever the database does, a run of [gt_class_etl] passes at
    most one frame to [df_to_sql]: the frame the normalizer returned for
    the records of the flattener.  That frame has at least one row and
    seventeen columns, with pairwise distinct names and as long as the
    list of row labels.  After a failure of [extract_json], of the
    flattener or of the normalizer nothing is passed. *)
Theorem gt_class_etl_uploads (extract_json : string -> outcome pyval)
  (df_to_sql : DataFrame -> list string * option raised) (df : DataFrame) :
  (forall json, extract_json source_url = Returned json ->
     exists ca sa d, distinct_keys d /\ json = encode_at ca sa d) ->
  In df (uploads (gt_class_etl extract_json df_to_sql)) ->
  uploads (gt_class_etl extract_json df_to_sql) = [df] /\
  (exists json course_list,
     extract_json source_url = Returned json /\
     GtClassEtl.transform_json_to_list json = Ok course_list /\
     GtClassEtl.transform course_list = Ok df) /\
  index df <> [] /\
  List.length (columns df) = 17%nat /\
  NoDup (map fst (columns df)) /\
  rectangular df.
Proof.
  intros Hdoc. unfold gt_class_etl.
  destruct (extract_json source_url) as [json|r] eqn:X; [|intros []].
  destruct (GtClassEtl.transform_json_to_list json) as [course_list|e] eqn:F;
    [|intros []].
  destruct (GtClassEtl.transform course_list) as [df0|e] eqn:T; [|intros []].
  change (uploads (Line ?a :: Line ?b :: Upload ?f :: ?rest))
    with (f :: uploads rest).
  rewrite uploads_lines, uploads_failure.
  intros [->|[]]. split; [reflexivity|].
  split; [exists json, course_list; auto|].
  pose proof (or_intror T : either_transform course_list df) as He.
  split; [now apply (frame_labels course_list df He)|].
  split; [|split; [exact (frame_names_distinct _ _ He)
                  | exact (frame_rectangular _ _ He)]].
  destruct (Hdoc json eq_refl) as (ca & sa & d & Hd & ->).
  rewrite (gt_flatten_typed ca sa d Hd) in F.
  apply flatten_typed_resolved in F as (rs & -> & _).
  apply (typed_columns rs df "thursday"). right. split; [reflexivity|exact T].
Qed.

Lemma gt_class_etl_uploads_witness :
  exists df,
    In df (uploads (gt_class_etl (fun _ => Returned (encode sample_doc))
                      accepting_sink)) /\
    uploads (gt_class_etl (fun _ => Returned (encode sample_doc)) accepting_sink)
    = [df] /\
    index df <> [] /\ List.length (columns df) = 17%nat /\
    NoDup (map fst (columns df)) /\ rectangular df.
Proof.
  assert (H : exists df,
             In df (uploads (gt_class_etl (fun _ => Returned (encode sample_doc))
                               accepting_sink)))
    by (eexists; vm_compute; left; reflexivity).
  destruct H as (df & H). exists df. split; [exact H|].
  assert (Hdoc : forall json,
             (fun _ : string => Returned (encode sample_doc)) source_url
             = Returned json ->
             exists ca sa d, distinct_keys d /\ json = encode_at ca sa d).
  { intros json E. injection E as <-.
    exists (fun _ => 2%nat), (fun _ _ => 6%nat), sample_doc.
    split; [exact (proj1 sample_doc_well_formed)|reflexivity]. }
  destruct (gt_class_etl_uploads _ _ df Hdoc H) as (H1 & _ & H3).
  split; [exact H1|exact H3].
Defined.

(* ----------------------------------------------------------------- *)
(** *** The two flatteners, followed by a normalizer *)

Lemma resolved_without attr attr' c x r r' :
  resolved attr c x = Some r -> resolved attr' c x = Some r' ->
  without_dropped r = without_dropped r'.
Proof.
  unfold resolved.
  destruct (match meetings (snd x) with [] => _ | _ => _ end) as [mt|];
    [|discriminate].
  destruct (list_lookup (scheduleTypes c) _) as [st|]; [|discriminate].
  destruct (list_lookup (campuses c) _) as [cp|]; [|discriminate].
  destruct (lookup_all (attributes c) _) as [labels|]; [|discriminate].
  intros H H'. injection H as <-. injection H' as <-. reflexivity.
Qed.

Lemma resolved_all_without attr attr' c xs rs rs' :
  map (resolved attr c) xs = map Some rs ->
  map (resolved attr' c) xs = map Some rs' ->
  map without_dropped rs = map without_dropped rs'.
Proof.
  revert rs rs'. induction xs as [|x xs IH]; intros [|r rs] [|r' rs'] H H';
    try discriminate H; try discriminate H'; [reflexivity|].
  cbn [map] in H, H' |- *.
  pose proof (f_equal (hd None) H) as Hr.
  pose proof (f_equal (@tl _) H) as Hrs.
  pose proof (f_equal (hd None) H') as Hr'.
  pose proof (f_equal (@tl _) H') as Hrs'.
  cbn [hd tl] in Hr, Hrs, Hr', Hrs'.
  now rewrite (resolved_without _ _ _ _ _ _ Hr Hr'), (IH _ _ Hrs Hrs').
Qed.

(** X19.  The one difference between the records of the two flatteners,
    the value of [attributes], never reaches a frame: on the records
    [etl.py] returns for a document and on those [gt_class_etl.py] returns
    for it, a normalizer does the same, the same frame or the same
    exception. *)
Theorem pipelines_agree (ca : string -> nat) (sa : string -> string -> nat)
  (d : CatalogDocument) (out_etl out_gt : list dict) :
  distinct_keys d ->
  Etl.transform_json_to_list (encode_at ca sa d) = Ok out_etl ->
  GtClassEtl.transform_json_to_list (encode_at ca sa d) = Ok out_gt ->
  Etl.transform out_etl = Etl.transform out_gt /\
  GtClassEtl.transform out_etl = GtClassEtl.transform out_gt.
Proof.
  intros Hd H1 H2.
  rewrite (etl_flatten_typed ca sa d Hd) in H1.
  rewrite (gt_flatten_typed ca sa d Hd) in H2.
  apply flatten_typed_resolved in H1 as (rs1 & -> & R1).
  apply flatten_typed_resolved in H2 as (rs2 & -> & R2).
  pose proof (resolved_all_without _ _ _ _ _ _ R1 R2) as E.
  split; [now apply etl_typed_ignores | now apply gt_typed_ignores].
Qed.

Lemma pipelines_agree_witness :
  distinct_keys sample_doc /\
  exists out_etl out_gt,
    Etl.transform_json_to_list (encode sample_doc) = Ok out_etl /\
    GtClassEtl.transform_json_to_list (encode sample_doc) = Ok out_gt /\
    out_etl <> out_gt /\
    Etl.transform out_etl = Etl.transform out_gt /\
    GtClassEtl.transform out_etl = GtClassEtl.transform out_gt.
Proof.
  split; [exact (proj1 sample_doc_well_formed)|].
  eexists. eexists.
  split; [vm_compute; reflexivity|]. split; [vm_compute; reflexivity|].
  split; [intros H; discriminate H|].
  apply (pipelines_agree (fun _ => 2%nat) (fun _ _ => 6%nat) sample_doc).
  - exact (proj1 sample_doc_well_formed).
  - vm_compute; reflexivity.
  - vm_compute; reflexivity.
Defined.
